(** * EUC Leadership Dashboard: participant journeys, FPL model and ROI tiers

    A shallow embedding of the reconciliation core of the repository
    ([src/etl/journey.py], [src/analytics/metrics.py],
    [src/analytics/roi.py], [pipeline/etl/transform.py]) together with
    the properties of its specification.

    Conventions of the embedding.
    - A Python [float] is a value of [fl]: [NaN] or a finite number.  Finite
      numbers are exact rationals kept in lowest terms ([Qred] after every
      operation); binary rounding and the infinities are not represented.
      Statements about a figure that Python rounds therefore allow for one
      unit of its last decimal place.
    - A Python object stored in a spreadsheet cell or in the journey [dict]
      is a [value].  Operations that raise in Python return [None] in the
      option monad.
    - The journey [dict] is a [gmap string value]; [journey.get(k)] is
      [jget], [journey[k] = v] is [<[k:=v]>].
    - A [DataFrame] is a list of column labels and a list of rows; the
      frame that [pd.DataFrame] makes of a list of [dict]s is that list, a
      column of it being the key of at least one [dict]. *)

From Stdlib Require Import ZArith QArith Qround Qabs Qpower Lqa Ascii String DecimalString Sorted.
From stdpp Require Import gmap strings list fin_maps option.

Open Scope Z_scope.

(** ** Floats *)

Inductive fl : Type :=
| NaN
| Fin (q : Q).

Definition fl_lift2 (op : Q -> Q -> Q) (a b : fl) : fl :=
  match a, b with
  | Fin x, Fin y => Fin (Qred (op x y))
  | _, _ => NaN
  end.

Definition fl_add := fl_lift2 Qplus.
Definition fl_sub := fl_lift2 Qminus.
Definition fl_mul := fl_lift2 Qmult.

(** Comparisons with [NaN] are false. *)
Definition fl_cmp (test : Q -> Q -> bool) (a b : fl) : bool :=
  match a, b with
  | Fin x, Fin y => test x y
  | _, _ => false
  end.

Definition Qltb (x y : Q) : bool := negb (Qle_bool y x).

Definition fl_le := fl_cmp Qle_bool.
Definition fl_lt := fl_cmp Qltb.
Definition fl_ge (a b : fl) := fl_le b a.
Definition fl_gt (a b : fl) := fl_lt b a.
Definition fl_eq := fl_cmp Qeq_bool.

Definition fl_isnan (a : fl) : bool :=
  match a with NaN => true | Fin _ => false end.

Definition fl_of_Z (z : Z) : fl := Fin (inject_Z z).

(** [int(x)] on a float truncates toward zero; it raises on [NaN]. *)
Definition Qtrunc (q : Q) : Z := Z.quot (Qnum q) (Zpos (Qden q)).

(** ** Python values *)

Inductive value : Type :=
| VNone
| VFloat (f : fl)
| VInt (z : Z)
| VBool (b : bool)
| VStr (s : string)
| VTime (t : Z)      (* pandas Timestamp, nanoseconds since the epoch *)
| VNaT.

Definition VNum (q : Q) : value := VFloat (Fin q).

(** [bool(v)]: [None], zero and the empty string are falsy; [NaN] is truthy. *)
Definition truthy (v : value) : bool :=
  match v with
  | VNone => false
  | VFloat NaN => true
  | VFloat (Fin q) => negb (Qeq_bool q 0)
  | VInt z => negb (z =? 0)
  | VBool b => b
  | VStr s => negb (String.eqb s "")
  | VTime _ => true
  | VNaT => true
  end.

(** [a or b] and [a and b] on Python objects. *)
Definition py_or (a b : value) : value := if truthy a then a else b.
Definition py_and (a b : value) : value := if truthy a then b else a.

(** [pd.isna(v)] and [pd.notna(v)] on a scalar. *)
Definition isna (v : value) : bool :=
  match v with
  | VNone | VFloat NaN | VNaT => true
  | _ => false
  end.

Definition notna (v : value) : bool := negb (isna v).

(** The numeric tower: [bool], [int] and [float] operands.  On any other
    operand the operators below fail, which stands for Python's [TypeError];
    the journey builder only ever applies them to numbers (see
    [build_single_journey_total]). *)
Definition as_int (v : value) : option Z :=
  match v with
  | VInt z => Some z
  | VBool b => Some (if b then 1 else 0)
  | _ => None
  end.

Definition as_fl (v : value) : option fl :=
  match v with
  | VFloat f => Some f
  | _ => fl_of_Z <$> as_int v
  end.

Definition py_arith (iop : Z -> Z -> Z) (fop : fl -> fl -> fl)
    (a b : value) : option value :=
  match as_int a, as_int b with
  | Some x, Some y => Some (VInt (iop x y))
  | _, _ => x ← as_fl a; y ← as_fl b; Some (VFloat (fop x y))
  end.

Definition py_add := py_arith Z.add fl_add.
Definition py_sub := py_arith Z.sub fl_sub.
Definition py_mul := py_arith Z.mul fl_mul.

(** True division [a / b]: always a float, [ZeroDivisionError] on zero. *)
Definition py_div (a b : value) : option value :=
  x ← as_fl a; y ← as_fl b;
  match x, y with
  | Fin p, Fin q => if Qeq_bool q 0 then None else Some (VNum (Qred (p / q)))
  | _, _ => Some (VFloat NaN)
  end.

Definition py_cmp (test : fl -> fl -> bool) (a b : value) : option bool :=
  x ← as_fl a; y ← as_fl b; Some (test x y).

Definition py_le := py_cmp fl_le.
Definition py_lt := py_cmp fl_lt.
Definition py_ge := py_cmp fl_ge.
Definition py_gt := py_cmp fl_gt.

(** [int(v)] for a number. *)
Definition py_int (v : value) : option Z :=
  match v with
  | VFloat (Fin q) => Some (Qtrunc q)
  | _ => as_int v
  end.

(** ** Strings and column matching *)

Definition ascii_lower (c : ascii) : ascii :=
  let n := N_of_ascii c in
  if ((65 <=? n) && (n <=? 90))%N then ascii_of_N (n + 32) else c.

(** [s.lower()] on ASCII text. *)
Fixpoint lower (s : string) : string :=
  match s with
  | EmptyString => EmptyString
  | String c s' => String (ascii_lower c) (lower s')
  end.

(** [needle in hay] for strings. *)
Fixpoint contains (needle hay : string) : bool :=
  String.prefix needle hay ||
  match hay with
  | EmptyString => false
  | String _ hay' => contains needle hay'
  end.

(** [frag in c.lower()] *)
Definition has (frag c : string) : bool := contains frag (lower c).

(** ** Data frames *)

(** A row of a frame ([df.iloc[i]], a pandas [Series]): labels with values. *)
Definition Series : Type := list (string * value).

Record DataFrame : Type := {
  columns : list string;
  rows : list (list value);
}.

Definition row_series (df : DataFrame) (r : list value) : Series :=
  zip (columns df) r.

(** [row[label]] / [row.get(label)] on the first column carrying the label. *)
Fixpoint series_get (label : string) (row : Series) : value :=
  match row with
  | [] => VNone
  | (c, v) :: row' => if String.eqb c label then v else series_get label row'
  end.

(** [df[label]]: the cells of one column, top to bottom. *)
Definition column (df : DataFrame) (label : string) : list value :=
  map (fun r => series_get label (row_series df r)) (rows df).

(** [df[label] = cells]: replace the column in place, or append it. *)
Fixpoint set_cell (cols : list string) (label : string) (v : value)
    (r : list value) : list value :=
  match cols, r with
  | c :: cols', x :: r' =>
      if String.eqb c label then v :: r' else x :: set_cell cols' label v r'
  | _, _ => r
  end.

Definition set_column (df : DataFrame) (label : string) (cells : list value)
    : DataFrame :=
  if existsb (String.eqb label) (columns df)
  then {| columns := columns df;
          rows := zip_with (set_cell (columns df) label) cells (rows df) |}
  else {| columns := columns df ++ [label];
          rows := zip_with (fun v r => r ++ [v]) cells (rows df) |}.

(** ** The parsers of Python and pandas, and the order of a set

    [float(s)] on a string, [pd.to_datetime] on anything but a timestamp and
    [pd.to_numeric(..., errors='coerce')] on a non-number are library code,
    and the order in which [for pid in all_ids] goes through a [set] is that
    of CPython's hash table: the development is parametric in them. *)

Class Parsers : Type := {
  (** [float(s)]; [None] stands for [ValueError]. *)
  float_of_str : string -> option fl;
  (** [pd.to_datetime(v)]: [None] when it raises, [Some None] for [NaT]. *)
  to_datetime : value -> option (option Z);
  (** one cell of [pd.to_numeric(col, errors='coerce')]. *)
  to_numeric_coerce : value -> fl;
  (** [for pid in ids] on a [set] of integers: every element once, in an
      order that is left open. *)
  set_iter : gset Z -> list Z;
  set_iter_perm : forall ids, set_iter ids ≡ₚ elements ids;
}.

(** one cell of [pd.to_numeric(series, errors='coerce')] *)
Definition to_numeric `{Parsers} (v : value) : fl :=
  match v with
  | VFloat f => f
  | VInt z => fl_of_Z z
  | VBool b => fl_of_Z (if b then 1 else 0)
  | VNone | VNaT => NaN
  | _ => to_numeric_coerce v
  end.

(** [astype(int)] on one float: the cast to a 64-bit integer.  It drops the
    fraction; a float outside the range of [int64] comes out as the smallest
    [int64]. *)
Definition INT64_MIN : Z := - 2 ^ 63.
Definition INT64_MAX : Z := 2 ^ 63 - 1.

Definition int64_of_float (q : Q) : Z :=
  let z := Qtrunc q in
  if (INT64_MIN <=? z) && (z <=? INT64_MAX) then z else INT64_MIN.

(** [series.dropna().astype(int).tolist()] *)
Definition dropna_int (col : list fl) : list Z :=
  omap (fun f => match f with Fin q => Some (int64_of_float q) | NaN => None end)
       col.

(** [series.median()]: the middle of the sorted non-null values, the mean of
    the two middle ones for an even count, [NaN] when there is none. *)
Fixpoint insert_sorted (x : Q) (l : list Q) : list Q :=
  match l with
  | [] => [x]
  | y :: l' => if Qle_bool x y then x :: l else y :: insert_sorted x l'
  end.

Definition sort_Q (l : list Q) : list Q := foldr insert_sorted [] l.

Definition dropna (col : list fl) : list Q :=
  omap (fun f => match f with Fin q => Some q | NaN => None end) col.

Definition median (col : list fl) : fl :=
  let s := sort_Q (dropna col) in
  let n := length s in
  if (n =? 0)%nat then NaN
  else if Nat.odd n then from_option Fin NaN (s !! (n / 2)%nat)
  else match s !! (n / 2 - 1)%nat, s !! (n / 2)%nat with
       | Some a, Some b => Fin (Qred ((a + b) / 2))
       | _, _ => NaN
       end.

(** [df[df['participant_id'] == pid]]; [KeyError] without the column. *)
Definition cell_eq_int (v : value) (pid : Z) : bool :=
  match as_fl v with
  | Some f => fl_eq f (fl_of_Z pid)
  | None => false
  end.

Definition select_pid (df : DataFrame) (pid : Z) : option DataFrame :=
  if existsb (String.eqb "participant_id") (columns df)
  then Some {| columns := columns df;
               rows := List.filter
                 (fun r => cell_eq_int (series_get "participant_id" (row_series df r)) pid)
                 (rows df) |}
  else None.

(** [df.sort_values(label)] on a column of timestamps: ascending, missing
    dates last.  pandas leaves the order of rows with equal keys open; here
    they keep their original order. *)
Definition date_le (a b : value) : bool :=
  match a, b with
  | VTime x, VTime y => x <=? y
  | VTime _, _ => true
  | _, VTime _ => false
  | _, _ => true
  end.

Fixpoint insert_row (key : list value -> value) (x : list value)
    (l : list (list value)) : list (list value) :=
  match l with
  | [] => [x]
  | y :: l' => if date_le (key x) (key y) then x :: l
               else y :: insert_row key x l'
  end.

Definition sort_values (df : DataFrame) (label : string) : DataFrame :=
  {| columns := columns df;
     rows := foldr (insert_row (fun r => series_get label (row_series df r)))
                   [] (rows df) |}.

(** [df.iloc[0]] and [df.iloc[-1]] *)
Definition iloc_first (df : DataFrame) : option Series :=
  row_series df <$> head (rows df).

Definition iloc_last (df : DataFrame) : option Series :=
  row_series df <$> list.last (rows df).

Definition len (df : DataFrame) : Z := Z.of_nat (length (rows df)).

(** The journey [dict]. *)
Abbreviation jdict := (gmap string value).

(** [journey.get(k)] *)
Definition jget (j : jdict) (k : string) : value := default VNone (j !! k).

(** [k in journey] *)
Definition has_key (k : string) (j : jdict) : bool :=
  match j !! k with
  | Some _ => true
  | None => false
  end.

(** [journeys[k]] on the frame [pd.DataFrame(journeys)] of a list of journey
    [dict]s: the frame has the column when some journey has the key, and a
    journey without the key has a missing cell there; without the column
    the access is a [KeyError]. *)
Definition journeys_column (journeys : list jdict) (k : string)
    : option (list value) :=
  if existsb (has_key k) journeys
  then Some ((fun j => jget j k) <$> journeys)
  else None.

(** [(a - b).days] for two timestamps: whole days, rounded down; [NaT]
    propagates as a missing value. *)
Definition NS_PER_DAY : Z := 86400000000000.

Definition days_between (a b : value) : option value :=
  match a, b with
  | VTime x, VTime y => Some (VInt ((x - y) `div` NS_PER_DAY))
  | VNaT, VTime _ | VTime _, VNaT | VNaT, VNaT => Some (VFloat NaN)
  | _, _ => None
  end.

(** ** [src/analytics/metrics.py] and [pipeline/etl/transform.py]: the
    stand-alone FPL functions *)

(** [a == b] on numbers. *)
Definition py_eq_num (a b : value) : option bool := py_cmp fl_eq a b.

Module Metrics.

(* 2024 Federal Poverty Guidelines (lower 48 states) *)
Definition FPL_BASE : Z := 15060.
Definition FPL_PER_ADDITIONAL : Z := 5380.

(* Program investment constant *)
Definition PROGRAM_INVESTMENT : Z := 25000000.

(** [get_poverty_line] *)
Definition get_poverty_line (household_size : Z) : Z :=
  let household_size := if household_size <? 1 then 1 else household_size in
  FPL_BASE + FPL_PER_ADDITIONAL * (household_size - 1).

(** [calculate_fpl] *)
Definition calculate_fpl (annual_income household_size : value)
    : option value :=
  if isna annual_income || isna household_size then Some VNone
  else
    small ← py_lt household_size (VInt 1);
    if (small : bool) then Some VNone
    else
      neg ← py_lt annual_income (VInt 0);
      if (neg : bool) then Some VNone
      else
        hh ← py_int household_size;
        r ← py_div annual_income (VInt (get_poverty_line hh));
        py_mul r (VInt 100).

(** [calculate_fpl_from_monthly] *)
Definition calculate_fpl_from_monthly (monthly_income household_size : value)
    : option value :=
  if isna monthly_income then Some VNone
  else
    annual ← py_mul monthly_income (VInt 12);
    calculate_fpl annual household_size.

End Metrics.

Module Transform.

(** [calculate_fpl_from_income] *)
Definition calculate_fpl_from_income (annual_income household_size : value)
    : option value :=
  (* 2024 Federal Poverty Guidelines (lower 48 states) *)
  let fpl_base := VInt 15060 in
  let fpl_per_additional := VInt 5380 in
  small ← py_lt household_size (VInt 1);
  let household_size := if (small : bool) then VInt 1 else household_size in
  extra ← py_sub household_size (VInt 1);
  scaled ← py_mul fpl_per_additional extra;
  poverty_line ← py_add fpl_base scaled;
  zero ← py_eq_num poverty_line (VInt 0);
  if (zero : bool) then Some VNone
  else
    r ← py_div annual_income poverty_line;
    py_mul r (VInt 100).

End Transform.

(** ** [src/etl/journey.py] *)

Module Journey.

(* FPL Constants *)
Definition FPL_BASE : Z := 15060.
Definition FPL_PER_ADDITIONAL : Z := 5380.

(** [calculate_fpl_pct] *)
Definition calculate_fpl_pct (annual_income household_size : value)
    : option value :=
  nonpos ← (if isna annual_income then Some true
            else py_le annual_income (VInt 0));
  if (nonpos : bool) then Some VNone
  else
    hh ← (if notna household_size
          then Z.max 1 <$> py_int household_size
          else Some 3);
    let poverty_line := FPL_BASE + FPL_PER_ADDITIONAL * (hh - 1) in
    r ← py_div annual_income (VInt poverty_line);
    py_mul r (VInt 100).

(** The columns that [process_empower_data] adds to the Empower frame; the
    journey builder reads only these.  The numeric ones come out of
    [pd.to_numeric] and are floats. *)
Record EmpowerRow : Type := {
  emp_participant_id : fl;
  empower_wage_gain : fl;
  empower_fpl_current : fl;
  empower_fpl_enrollment : fl;
  empower_household_size : fl;
  empower_county : value;
  empower_navigator : value;
}.

(** The format detection of [process_empower_data]: a column whose median is
    below 10 holds fractions of the poverty line and is scaled to percent. *)
Definition fpl_to_percent (col : list fl) : list fl :=
  let median_fpl := median col in
  if negb (fl_isnan median_fpl) && fl_lt median_fpl (fl_of_Z 10)
  then map (fun x => fl_mul x (fl_of_Z 100)) col
  else col.

Section WithParsers.
Context `{Parsers}.

(** [float(val)] inside [try]: [None] when it raises. *)
Definition py_float (val : value) : option fl :=
  match val with
  | VStr s => float_of_str s
  | VTime _ | VNaT | VNone => None
  | _ => as_fl val
  end.

(** [get_field]: the first name, in order, that is a case-insensitive
    fragment of some column label, and the first such column. *)
Fixpoint find_col (name : string) (row : Series) : option value :=
  match row with
  | [] => None
  | (col, v) :: row' =>
      if has (lower name) col then Some v else find_col name row'
  end.

Fixpoint get_field (row : Series) (possible_names : list string) : value :=
  match possible_names with
  | [] => VNone
  | name :: names =>
      match find_col name row with
      | Some v => v
      | None => get_field row names
      end
  end.

(** [get_numeric] *)
Definition get_numeric (row : Series) (possible_names : list string) : value :=
  let val := get_field row possible_names in
  match val with
  | VNone => VNone
  | _ => match py_float val with
         | Some f => VFloat f
         | None => VNone
         end
  end.

(** [parse_date] *)
Definition parse_date (val : value) : value :=
  if isna val then VNone
  else match val with
       | VTime t => VTime t
       | _ => match to_datetime val with
              | Some (Some t) => VTime t
              | Some None => VNaT
              | None => VNone
              end
       end.

(** [[c for c in df.columns if p(c)]], then [df[cols[0]]] if any. *)
Definition first_col (df : DataFrame) (p : string -> bool)
    : option (list value) :=
  match List.filter p (columns df) with
  | c :: _ => Some (column df c)
  | [] => None
  end.

Definition numeric_col (df : DataFrame) (p : string -> bool) : option (list fl) :=
  map to_numeric <$> first_col df p.

Definition all_nan (df : DataFrame) : list fl :=
  replicate (length (rows df)) NaN.

(** [add_participant_id], the local helper of
    [build_participant_journeys_from_raw]. *)
Definition add_participant_id (df : DataFrame) : DataFrame :=
  let ids := default (all_nan df)
               (numeric_col df (fun c => has "participant" c && has "id" c)) in
  set_column df "participant_id" (VFloat <$> ids).

(** The labels of the two FPL columns of the Empower frame. *)
Definition is_current_fpl (c : string) : bool := has "fpl" c && has "current" c.

Definition is_enrollment_fpl (c : string) : bool :=
  has "fpl" c && (has "enroll" c || has "baseline" c).

(** [process_empower_data].  Every column it derives is read from the frame
    as loaded: no search pattern below matches a label the function adds. *)
Definition process_empower_data (empower : DataFrame) : list EmpowerRow :=
  let df := empower in
  (* Find participant ID column *)
  let participant_id := default (all_nan df)
    (numeric_col df (fun c => (has "participant" c || has "uat" c) && has "id" c)) in
  (* Find wage increase column *)
  let wage_gain := default (all_nan df)
    (numeric_col df (fun c => has "wage" c && (has "increase" c || has "gain" c))) in
  (* Find current FPL column (decimal format: 2.25 = 225%) *)
  let fpl_current := default (all_nan df)
    (fpl_to_percent <$> numeric_col df is_current_fpl) in
  (* Find enrollment FPL column *)
  let fpl_enrollment := default (all_nan df)
    (fpl_to_percent <$> numeric_col df is_enrollment_fpl) in
  (* Find household size *)
  let household_size := default (all_nan df)
    (numeric_col df (fun c => has "household" c && has "size" c)) in
  (* Find county *)
  let county := default (VFloat <$> all_nan df)
    (first_col df (fun c => String.eqb (lower c) "county")) in
  (* Find navigator *)
  let navigator := default (VFloat <$> all_nan df)
    (first_col df (fun c => has "navigator" c)) in
  imap (fun i _ =>
     {| emp_participant_id := default NaN (participant_id !! i);
        empower_wage_gain := default NaN (wage_gain !! i);
        empower_fpl_current := default NaN (fpl_current !! i);
        empower_fpl_enrollment := default NaN (fpl_enrollment !! i);
        empower_household_size := default NaN (household_size !! i);
        empower_county := default VNone (county !! i);
        empower_navigator := default VNone (navigator !! i) |})
    (rows df).

(** *** [build_single_journey], section by section *)

(** [==== EMPOWER DATA (PRIMARY SOURCE for wage/FPL) ====] *)
Definition empower_section (emp_row : EmpowerRow) (journey : jdict)
      : option jdict :=
  (* Wage gain from Empower (pre-calculated) *)
  let journey :=
    if notna (VFloat (empower_wage_gain emp_row)) then
      <["has_positive_income_change" :=
          VBool (fl_gt (empower_wage_gain emp_row) (fl_of_Z 0))]>
        (<["income_change_annual" := VFloat (empower_wage_gain emp_row)]> journey)
    else journey in
  (* FPL from Empower *)
  let journey :=
    if notna (VFloat (empower_fpl_current emp_row))
    then <["current_fpl" := VFloat (empower_fpl_current emp_row)]> journey
    else journey in
  let journey :=
    if notna (VFloat (empower_fpl_enrollment emp_row))
    then <["enrollment_fpl" := VFloat (empower_fpl_enrollment emp_row)]> journey
    else journey in
  (* FPL change *)
  journey ←
    (if truthy (py_and (jget journey "current_fpl") (jget journey "enrollment_fpl"))
     then
       c ← journey !! "current_fpl"; e ← journey !! "enrollment_fpl";
       d ← py_sub c e;
       Some (<["fpl_change" := d]> journey)
     else Some journey);
  (* County from Empower (if available) *)
  let journey :=
    if notna (empower_county emp_row)
    then <["county" := empower_county emp_row]> journey
    else journey in
  (* Household size from Empower *)
  let journey :=
    if notna (VFloat (empower_household_size emp_row))
    then <["household_size" := VFloat (empower_household_size emp_row)]> journey
    else journey in
  (* Navigator from Empower *)
  let journey :=
    if notna (empower_navigator emp_row)
    then <["navigator" := empower_navigator emp_row]> journey
    else journey in
  Some journey.

(** [==== ENROLLMENT INFO FROM INTAKE ====] *)
Definition intake_section (row : Series) (journey : jdict)   : option jdict :=
  (* Only set county if not already set from Empower *)
  let journey :=
    if negb (truthy (jget journey "county"))
    then <["county" := get_field row ["County"]]> journey
    else journey in
  let journey :=
    <["enrollment_status" := get_field row ["Enrollment Status"]]> journey in
  let journey :=
    <["enrollment_date" := parse_date (get_field row ["Submission Date"])]> journey in
  let journey :=
    <["household_adults" :=
        get_numeric row ["how many adults"; "adults currently live"]]> journey in
  let journey :=
    <["household_children" :=
        get_numeric row ["how many children"; "children currently live"]]> journey in
  (* Only set household_size if not already set from Empower *)
  if negb (truthy (jget journey "household_size"))
  then
    size ← py_add (py_or (jget journey "household_adults") (VInt 1))
                  (py_or (jget journey "household_children") (VInt 2));
    Some (<["household_size" := size]> journey)
  else Some journey.

(** [==== BASELINE ASSESSMENT ====] *)
Definition baseline_section (row : Series) (journey : jdict)   : option jdict :=
  let journey :=
    <["baseline_date" := parse_date (get_field row ["Submission Date"])]> journey in
  let journey :=
    <["baseline_hourly_wage" :=
        get_numeric row ["Current Hourly Wage"; "hourly wage"]]> journey in
  if truthy (jget journey "baseline_hourly_wage")
  then
    w ← journey !! "baseline_hourly_wage";
    w40 ← py_mul w (VInt 40);
    m ← py_mul w40 (VNum 4.33);
    Some (<["baseline_monthly_income" := m]> journey)
  else Some journey.

(** [==== QUARTERLY ASSESSMENTS ====] *)
Definition quarterly_section (quarterly_recs : DataFrame) (journey : jdict)
      : option jdict :=
  let dates :=
    map (fun r => parse_date (get_field (row_series quarterly_recs r) ["Submission Date"]))
        (rows quarterly_recs) in
  let quarterly_recs := set_column quarterly_recs "_date" dates in
  let quarterly_recs := sort_values quarterly_recs "_date" in
  first_q ← iloc_first quarterly_recs;
  let journey :=
    <["first_quarterly_date" := parse_date (get_field first_q ["Submission Date"])]>
      journey in
  let journey :=
    <["first_quarterly_monthly_income" :=
        get_numeric first_q ["total_monthly_income"; "Monthly Income from Employment"]]>
      journey in
  last_q ← iloc_last quarterly_recs;
  let journey :=
    <["last_quarterly_date" := parse_date (get_field last_q ["Submission Date"])]>
      journey in
  let journey :=
    <["last_quarterly_monthly_income" :=
        get_numeric last_q ["total_monthly_income"; "Monthly Income from Employment"]]>
      journey in
  Some (<["quarterly_count" := VInt (len quarterly_recs)]> journey).

(** [==== FALLBACK CALCULATIONS (only if not set from Empower) ====],
    the income part. *)
Definition fallback_income (journey : jdict)   : option jdict :=
  if negb (truthy (jget journey "income_change_annual"))
  then
    (* Set final income values from quarterly/baseline *)
    let journey :=
      <["enrollment_monthly_income" :=
          py_or (jget journey "first_quarterly_monthly_income")
                (jget journey "baseline_monthly_income")]> journey in
    let journey :=
      <["current_monthly_income" :=
          py_or (jget journey "last_quarterly_monthly_income")
                (jget journey "first_quarterly_monthly_income")]> journey in
    (* Calculate income change from quarterly data *)
    if truthy (py_and (jget journey "enrollment_monthly_income")
                      (jget journey "current_monthly_income"))
    then
      c ← journey !! "current_monthly_income";
      e ← journey !! "enrollment_monthly_income";
      m ← py_sub c e;
      let journey := <["income_change_monthly" := m]> journey in
      m ← journey !! "income_change_monthly";
      a ← py_mul m (VInt 12);
      let journey := <["income_change_annual" := a]> journey in
      pos ← py_gt (py_or (jget journey "income_change_annual") (VInt 0)) (VInt 0);
      Some (<["has_positive_income_change" := VBool pos]> journey)
    else Some journey
  else Some journey.

(** The FPL part of the fallback calculations. *)
Definition fallback_fpl (journey : jdict)   : option jdict :=
  if negb (truthy (jget journey "current_fpl"))
  then
    (* Calculate FPL from quarterly income data *)
    let hh_size := py_or (jget journey "household_size") (VInt 3) in
    journey ←
      (if truthy (jget journey "enrollment_monthly_income")
       then
         m ← journey !! "enrollment_monthly_income";
         annual ← py_mul m (VInt 12);
         fpl ← calculate_fpl_pct annual hh_size;
         Some (<["enrollment_fpl" := fpl]> journey)
       else Some journey);
    journey ←
      (if truthy (jget journey "current_monthly_income")
       then
         m ← journey !! "current_monthly_income";
         annual ← py_mul m (VInt 12);
         fpl ← calculate_fpl_pct annual hh_size;
         Some (<["current_fpl" := fpl]> journey)
       else Some journey);
    (* FPL change *)
    if truthy (py_and (jget journey "enrollment_fpl") (jget journey "current_fpl"))
    then
      c ← journey !! "current_fpl"; e ← journey !! "enrollment_fpl";
      d ← py_sub c e;
      Some (<["fpl_change" := d]> journey)
    else Some journey
  else Some journey.

(** [==== DAYS IN PROGRAM ====] *)
Definition days_section (journey : jdict)   : option jdict :=
  let enrollment_date :=
    py_or (jget journey "enrollment_date")
      (py_or (jget journey "baseline_date") (jget journey "first_quarterly_date")) in
  let last_date :=
    py_or (jget journey "last_quarterly_date")
      (py_or (jget journey "first_quarterly_date") (jget journey "baseline_date")) in
  if truthy (py_and enrollment_date last_date)
  then
    d ← days_between last_date enrollment_date;
    Some (<["days_in_program" := d]> journey)
  else Some (<["days_in_program" := VNone]> journey).

(** The cliff tier of a known FPL percentage. *)
Definition tier_of_fpl (fpl : value) : option string :=
  ge ← py_ge fpl (VInt 225);
  if (ge : bool) then Some "graduated" else
  ge ← py_ge fpl (VInt 185);
  if (ge : bool) then Some "near_graduation" else
  ge ← py_ge fpl (VInt 150);
  if (ge : bool) then Some "deep_cliff" else
  ge ← py_ge fpl (VInt 130);
  if (ge : bool) then Some "liheap_childcare" else
  ge ← py_ge fpl (VInt 100);
  if (ge : bool) then Some "snap_tenncare" else
  ge ← py_ge fpl (VInt 50);
  if (ge : bool) then Some "deep_poverty" else
  Some "extreme_poverty".

(** [==== OUTCOME CLASSIFICATIONS ====] *)
Definition outcome_section (is_confirmed_graduate : bool) (journey : jdict)
      : option jdict :=
  (* Graduate status: TRUE if in 225% Families file (authoritative) OR FPL >= 225% *)
  is_graduate ←
    (if is_confirmed_graduate then Some true
     else py_ge (py_or (jget journey "current_fpl") (VInt 0)) (VInt 225));
  let journey := <["is_graduate" := VBool is_graduate]> journey in
  journey ←
    (if bool_decide (journey !! "has_positive_income_change" = None)
     then
       pos ← py_gt (py_or (jget journey "income_change_annual") (VInt 0)) (VInt 0);
       Some (<["has_positive_income_change" := VBool pos]> journey)
     else Some journey);
  pos ← py_gt (py_or (jget journey "fpl_change") (VInt 0)) (VInt 0);
  let journey := <["has_positive_fpl_change" := VBool pos]> journey in
  (* Cliff tier classification *)
  (* If confirmed graduate, always classify as graduated regardless of FPL data *)
  let fpl := jget journey "current_fpl" in
  tier ←
    (if is_confirmed_graduate then Some "graduated"
     else if isna fpl then Some "unknown"
     else tier_of_fpl fpl);
  Some (<["cliff_tier" := VStr tier]> journey).

(** [build_single_journey] *)
Definition build_single_journey (pid : Z)
    (intake baseline quarterly change_of_life : DataFrame)
    (empower : option (list EmpowerRow)) (graduate_ids : option (gset Z))
      : option jdict :=
  let journey : jdict := {["participant_id" := VInt pid]} in
  (* Check if this participant is a graduate (from 225% Families file) *)
  let is_confirmed_graduate :=
    match graduate_ids with
    | Some ids => bool_decide (pid ∈ ids)
    | None => false
    end in
  (* Get records for this participant *)
  intake_rec ← select_pid intake pid;
  baseline_rec ← select_pid baseline pid;
  quarterly_recs ← select_pid quarterly pid;
  col_recs ← select_pid change_of_life pid;
  let empower_rec :=
    match empower with
    | Some frame =>
        List.filter (fun r => fl_eq (emp_participant_id r) (fl_of_Z pid)) frame
    | None => []
    end in
  journey ← match empower_rec with
            | emp_row :: _ => empower_section emp_row journey
            | [] => Some journey
            end;
  journey ← match iloc_first intake_rec with
            | Some row => intake_section row journey
            | None => Some journey
            end;
  journey ← match iloc_first baseline_rec with
            | Some row => baseline_section row journey
            | None => Some journey
            end;
  journey ← (if 0 <? len quarterly_recs
             then quarterly_section quarterly_recs journey
             else Some journey);
  journey ← fallback_income journey;
  journey ← fallback_fpl journey;
  journey ← days_section journey;
  journey ← outcome_section is_confirmed_graduate journey;
  (* Assessment count *)
  Some (<["total_assessments" :=
            VInt ((if 0 <? len baseline_rec then 1 else 0)
                  + len quarterly_recs + len col_recs)]> journey).

(** [build_participant_journeys_from_raw], from the loaded frames on. *)
Definition frame_ids (df : DataFrame) : list Z :=
  dropna_int (to_numeric <$> column df "participant_id").

(** The IDs of the 225% Families file: the authoritative graduate roster. *)
Definition graduate_roster (graduates_df : DataFrame) : gset Z :=
  match numeric_col graduates_df (fun c => has "uat" c && has "id" c) with
  | Some ids => list_to_set (dropna_int ids)
  | None => ∅
  end.

Definition build_participant_journeys_from_raw
    (intake baseline quarterly change_of_life empower graduates_df : DataFrame)
    : option (list jdict) :=
  (* Get graduate IDs from 225% Families file (authoritative) *)
  let graduate_ids := graduate_roster graduates_df in
  (* Standardize participant IDs *)
  let intake := add_participant_id intake in
  let baseline := add_participant_id baseline in
  let quarterly := add_participant_id quarterly in
  let change_of_life := add_participant_id change_of_life in
  (* Process Empower data - this is our primary source for wage/FPL *)
  let empower := process_empower_data empower in
  (* Get all unique participant IDs (from all sources including graduates) *)
  let all_ids : gset Z :=
    list_to_set (frame_ids intake ++ frame_ids baseline ++ frame_ids quarterly
                 ++ frame_ids change_of_life
                 ++ dropna_int (emp_participant_id <$> empower))
    ∪ graduate_ids in
  (* Build journey for each participant *)
  journeys ← mapM (fun pid =>
                     build_single_journey pid intake baseline quarterly
                       change_of_life (Some empower) (Some graduate_ids))
                  (set_iter all_ids);
  (* Verify graduate count: [journey_df['is_graduate'].sum()] *)
  is_graduate ← journeys_column journeys "is_graduate";
  Some journeys.

End WithParsers.

(** [classify_cliff_tier], local to [build_participant_journeys]: the tier
    of one cell of the [last_fpl] column. *)
Definition classify_cliff_tier (fpl : value) : option string :=
  if isna fpl then Some "unknown" else
  ge ← py_ge fpl (VInt 225);
  if (ge : bool) then Some "graduated" else
  ge ← py_ge fpl (VInt 185);
  if (ge : bool) then Some "near_graduation" else
  ge ← py_ge fpl (VInt 150);
  if (ge : bool) then Some "deep_cliff" else
  ge ← py_ge fpl (VInt 130);
  if (ge : bool) then Some "liheap_childcare" else
  ge ← py_ge fpl (VInt 100);
  if (ge : bool) then Some "snap_tenncare" else
  ge ← py_ge fpl (VInt 50);
  if (ge : bool) then Some "deep_poverty" else
  Some "extreme_poverty".

End Journey.

(** ** [src/analytics/roi.py] *)

(** The result documents: nested dictionaries (in insertion order), lists,
    strings and numbers. *)
#[local] Set Warnings "-register-all".

Inductive pyobj : Type :=
| PNum (q : Q)
| PStr (s : string)
| PList (l : list pyobj)
| PDict (d : list (string * pyobj)).

(** [d[k]] on a result dictionary; [None] when the key is absent. *)
Fixpoint assoc (k : string) (d : list (string * pyobj)) : option pyobj :=
  match d with
  | [] => None
  | (k', v) :: d' => if String.eqb k' k then Some v else assoc k d'
  end.

Definition item (k : string) (o : pyobj) : option pyobj :=
  match o with
  | PDict d => assoc k d
  | _ => None
  end.

(** [round(x, ndigits)]: to the nearest multiple of [10 ** -ndigits], ties
    to the even one. *)
Definition round_half_even (q : Q) : Z :=
  let f := Qfloor q in
  match Qcompare (q - inject_Z f) (1 # 2) with
  | Lt => f
  | Gt => f + 1
  | Eq => if Z.even f then f else f + 1
  end.

Definition py_round (q : Q) (ndigits : nat) : Q :=
  let scale := inject_Z (10 ^ Z.of_nat ndigits) in
  Qred (inject_Z (round_half_even (q * scale)) / scale).

(** [str(n)] for an integer and [f"{x:.2f}"] for a float. *)
Definition str_of_Z (z : Z) : string :=
  NilZero.string_of_int (Z.to_int z).

Definition format_2f (q : Q) : string :=
  let cents := Z.abs (round_half_even (q * 100)) in
  let frac := cents `mod` 100 in
  let sign : string := if Qltb q 0 then "-" else "" in
  let pad : string := if frac <? 10 then "0" else "" in
  sign +:+ str_of_Z (cents `div` 100) +:+ "." +:+ pad +:+ str_of_Z frac.

(** [a / b] on floats: [ZeroDivisionError] on a zero divisor. *)
Definition py_qdiv (a b : Q) : option Q :=
  if Qeq_bool b 0 then None else Some (a / b)%Q.

Module Roi.

Import Metrics.
#[local] Open Scope Q_scope.

(* Tax rates for taxpayer ROI *)
Definition TAX_fica_total : Q := 0.153.
Definition TAX_federal_income_effective : Q := 0.10.
Definition TAX_state_income : Q := 0.0.
Definition TAX_sales_tax_rate : Q := 0.08.
Definition TAX_sales_tax_spending_share : Q := 0.60.

(* Benefits values (Tennessee-specific) *)
Definition BEN_tenncare_adult : Q := 6000.
Definition BEN_tenncare_child : Q := 3000.
Definition BEN_snap_household : Q := 5500.
Definition BEN_tanf_cash : Q := 2400.
Definition BEN_childcare_full : Q := 4000.
Definition BEN_childcare_reduced : Q := 2000.

(* Projection assumptions *)
Definition PROJ_discount_rate : Q := 0.03.
Definition PROJ_default_working_years : Z := 25.
Definition PROJ_chetty_coefficient : Q := 0.013.
Definition PROJ_avg_children_per_family : Q := 2.0.

Definition PStrs (l : list string) : pyobj := PList (PStr <$> l).

(** [calc_fpl_pct], local to [calculate_fpl_tiers_from_assessments], on the
    [annual_income] and [household_size] cells of a row. *)
Definition calc_fpl_pct (annual_income household_size : value) : option value :=
  nonpos ← (if isna annual_income then Some true
            else py_le annual_income (VInt 0));
  if (nonpos : bool) then Some VNone
  else
    hh ← Z.max 1 <$> py_int household_size;
    let poverty_line := (FPL_BASE + FPL_PER_ADDITIONAL * (hh - 1))%Z in
    r ← py_div annual_income (VInt poverty_line);
    py_mul r (VInt 100).

(** [categorize_fpl], local to [calculate_fpl_tiers_from_assessments]. *)
Definition categorize_fpl (fpl_pct : value) : option string :=
  if isna fpl_pct then Some "unknown" else
  ge ← py_ge fpl_pct (VInt 225);
  if (ge : bool) then Some "graduated" else
  ge ← py_ge fpl_pct (VInt 185);
  if (ge : bool) then Some "near_graduation" else
  ge ← py_ge fpl_pct (VInt 150);
  if (ge : bool) then Some "working_progress" else
  ge ← py_ge fpl_pct (VInt 130);
  if (ge : bool) then Some "snap_cliff" else
  ge ← py_ge fpl_pct (VInt 100);
  if (ge : bool) then Some "poverty_line" else
  ge ← py_ge fpl_pct (VInt 50);
  if (ge : bool) then Some "deep_poverty" else
  Some "extreme_poverty".

(** [round(a / b, ndigits) if b > 0 else 0] *)
Definition ratio_or_zero (a b : Q) (ndigits : nat) : option pyobj :=
  if Qltb 0 b then r ← py_qdiv a b; Some (PNum (py_round r ndigits))
  else Some (PNum 0).

(** [calculate_tier1_conservative]; [float('inf')] is [None]. *)
Definition calculate_tier1_conservative (annual_wage_gains investment : Q)
    : option pyobj :=
  annual_return ←
    (if Qltb 0 investment then py_qdiv annual_wage_gains investment else Some 0);
  break_even ←
    (if Qltb 0 annual_wage_gains
     then Some <$> py_qdiv investment annual_wage_gains else Some None);
  cost_per_dollar ←
    (if Qltb 0 annual_wage_gains
     then Some <$> py_qdiv investment annual_wage_gains else Some None);
  Some (PDict [
    ("methodology", PStr "Measured annual wage gains only. No projections.");
    ("appropriate_audience",
       PStr "Skeptical funders, evaluators, legislators wanting floor estimates");
    ("investment_denominator", PNum investment);
    ("metrics", PDict [
       ("documented_annual_wage_gains", PNum (py_round annual_wage_gains 0));
       ("annual_return_per_dollar_invested", PNum (py_round annual_return 4));
       ("break_even_years_undiscounted",
          match break_even with
          | Some b => PNum (py_round b 2)
          | None => PStr "N/A"
          end);
       ("cost_per_dollar_income_generated",
          match cost_per_dollar with
          | Some c => PNum (py_round c 2)
          | None => PStr "N/A"
          end)]);
    ("benchmarks", PDict [
       ("project_quest", PDict [("cost_per_dollar", PNum 0.30);
                                ("note", PStr "14-year RCT follow-up")]);
       ("year_up", PDict [("cost_per_dollar", PNum 1.30);
                          ("note", PStr "~$30K/participant")]);
       ("euc_comparison",
          match cost_per_dollar with
          | Some c => PStr ("EUC: $" +:+ format_2f c)
          | None => PStr "N/A"
          end)]);
    ("caveats", PStrs [
       "Assumes all measured wage gains persist for at least 1 year";
       "Does not account for what would have happened without program (no RCT yet)";
       "Uses full $25M investment as denominator, not spent-to-date"])]).

(** [fpl_tier_counts.get(k, 0)] *)
Definition count_of (fpl_tier_counts : gmap string Z) (k : string) : Q :=
  inject_Z (default 0%Z (fpl_tier_counts !! k)).

(** [calculate_tier2_taxpayer] *)
Definition calculate_tier2_taxpayer (annual_wage_gains : Q)
    (fpl_tier_counts : gmap string Z) (investment : Q) : option pyobj :=
  (* Tax revenue from wage gains *)
  let fica := annual_wage_gains * TAX_fica_total in
  let federal := annual_wage_gains * TAX_federal_income_effective in
  let state := annual_wage_gains * TAX_state_income in
  let sales :=
    annual_wage_gains * TAX_sales_tax_rate * TAX_sales_tax_spending_share in
  let total_tax := fica + federal + state + sales in
  (* Graduates (225%+) - exit most benefits *)
  let grad_count := count_of fpl_tier_counts "graduated" in
  let grad_savings :=
    grad_count * (BEN_tenncare_adult + BEN_snap_household + BEN_tanf_cash
                  + BEN_childcare_full) in
  (* Near graduation (185-225%) - exit SNAP, TANF *)
  let tier2_count := count_of fpl_tier_counts "near_graduation" in
  let tier2_savings :=
    tier2_count * (BEN_snap_household + BEN_tanf_cash + BEN_childcare_reduced) in
  (* Working progress (150-185%) - exit TANF, reduced SNAP *)
  let tier3_count := count_of fpl_tier_counts "working_progress" in
  let tier3_savings :=
    tier3_count * (BEN_tanf_cash + BEN_snap_household * 0.5) in
  (* SNAP cliff zone (130-150%) - marginal savings *)
  let tier4_count := count_of fpl_tier_counts "snap_cliff" in
  let tier4_savings := tier4_count * 1000 in
  let benefits_savings := PDict [
    ("graduates_225plus", PDict [
       ("count", PNum grad_count);
       ("per_family_savings", PNum 17900);
       ("total", PNum (py_round grad_savings 0));
       ("benefits_exited",
          PStrs ["TennCare adult"; "SNAP"; "TANF cash"; "Childcare subsidy"])]);
    ("tier2_150plus", PDict [
       ("count", PNum tier2_count);
       ("per_family_savings", PNum 9900);
       ("total", PNum (py_round tier2_savings 0));
       ("benefits_exited", PStrs ["SNAP"; "TANF cash"; "Childcare (reduced)"])]);
    ("tier3_100plus", PDict [
       ("count", PNum tier3_count);
       ("per_family_savings", PNum 5150);
       ("total", PNum (py_round tier3_savings 0));
       ("benefits_exited", PStrs ["TANF cash"; "SNAP (reduced)"])]);
    ("tier4_improved", PDict [
       ("count", PNum tier4_count);
       ("per_family_savings", PNum 1000);
       ("total", PNum (py_round tier4_savings 0));
       ("benefits_exited", PStrs ["SNAP (marginal reduction)"])])] in
  let total_benefits :=
    grad_savings + tier2_savings + tier3_savings + tier4_savings in
  let total_taxpayer := total_tax + total_benefits in
  annual_return_per_dollar ← ratio_or_zero total_taxpayer investment 4;
  break_even_years ←
    (if Qltb 0 total_taxpayer
     then r ← py_qdiv investment total_taxpayer; Some (PNum (py_round r 1))
     else Some (PStr "N/A"));
  Some (PDict [
    ("methodology",
       PStr "Tax revenue from wage gains + estimated benefits cost avoidance by FPL tier");
    ("appropriate_audience",
       PStr "State legislators, TANF administrators, taxpayer advocates");
    ("investment_denominator", PNum investment);
    ("tax_revenue", PDict [
       ("fica_employer_employee", PNum (py_round fica 0));
       ("federal_income_effective_10pct", PNum (py_round federal 0));
       ("state_income_tn_none", PNum (py_round state 0));
       ("sales_tax_on_spending", PNum (py_round sales 0));
       ("total_annual", PNum (py_round total_tax 0))]);
    ("benefits_savings", PDict [
       ("by_tier", benefits_savings);
       ("total_annual", PNum (py_round total_benefits 0));
       ("caveat",
          PStr "Estimates based on FPL thresholds, not tracked benefit terminations")]);
    ("combined", PDict [
       ("total_annual_taxpayer_benefit", PNum (py_round total_taxpayer 0));
       ("annual_return_per_dollar", annual_return_per_dollar);
       ("break_even_years", break_even_years);
       ("ten_year_return_undiscounted", PNum (py_round (total_taxpayer * 10) 0))]);
    ("caveats", PStrs [
       "Benefits savings are ESTIMATES based on FPL thresholds";
       "Actual savings depend on individual benefit receipt and recertification timing";
       "Does not account for what would have happened without program";
       "TN-specific benefit levels used (lower than national average)"])]).

(** [(1 - (1 + discount_rate) ** -years) / discount_rate] *)
Definition annuity_factor (discount_rate : Q) (years : Z) : option Q :=
  py_qdiv (1 - (1 + discount_rate) ^ (- years)) discount_rate.

(** The present value of the fading wage gains, as both
    [calculate_tier3_lifecycle] and [calculate_tier4_intergenerational]
    spell it out. *)
Definition pv_with_fade_of (annual_wage_gains discount_rate : Q) : option Q :=
  f5 ← annuity_factor discount_rate 5;
  second ← py_qdiv (annual_wage_gains * 0.8 * f5) ((1 + discount_rate) ^ 5);
  f15 ← annuity_factor discount_rate 15;
  third ← py_qdiv (annual_wage_gains * 0.6 * f15) ((1 + discount_rate) ^ 10);
  Some (annual_wage_gains * f5 + second + third).

(** [calculate_tier3_lifecycle] *)
Definition calculate_tier3_lifecycle (annual_wage_gains investment : Q)
    : option pyobj :=
  let working_years := PROJ_default_working_years in
  let discount_rate := PROJ_discount_rate in
  (* Present value with full persistence *)
  pv_factor ← annuity_factor discount_rate working_years;
  let lifetime_pv_full := annual_wage_gains * pv_factor in
  (* Present value with wage fade *)
  pv_with_fade ← pv_with_fade_of annual_wage_gains discount_rate;
  full_ratio ← ratio_or_zero lifetime_pv_full investment 1;
  fade_ratio ← ratio_or_zero pv_with_fade investment 1;
  Some (PDict [
    ("methodology",
       PStr "Annual wage gains projected over working lifetime with discount rate");
    ("appropriate_audience",
       PStr "Workforce development funders, program comparison");
    ("investment_denominator", PNum investment);
    ("assumptions", PDict [
       ("working_years_remaining", PNum (inject_Z working_years));
       ("discount_rate", PNum discount_rate);
       ("note",
          PStr "Age data not available; using 25 years as conservative estimate")]);
    ("projections", PDict [
       ("full_persistence", PDict [
          ("lifetime_pv", PNum (py_round lifetime_pv_full 0));
          ("roi_ratio", full_ratio);
          ("assumption", PStr "Wage gains persist unchanged for 25 years")]);
       ("with_fade", PDict [
          ("lifetime_pv", PNum (py_round pv_with_fade 0));
          ("roi_ratio", fade_ratio);
          ("assumption",
             PStr "Wage gains fade: 100% years 1-5, 80% years 6-10, 60% years 11-25")])]);
    ("benchmarks", PDict [
       ("project_quest", PDict [("lifetime_roi", PStr "2.34:1");
                                ("note", PStr "14-year RCT, $4,434/yr gains")]);
       ("year_up", PDict [("lifetime_roi", PStr "2.46:1");
                          ("note", PStr "Social return on investment")]);
       ("jeremiah_program", PDict [("lifetime_roi", PStr "4:1");
                                   ("note", PStr "Wilder SROI methodology")])]);
    ("caveats", PStrs [
       "PROJECTION: Assumes wage gains persist; research shows effects often fade";
       "Working years assumed at 25; actual varies by participant age";
       "Without RCT, cannot claim causation—association only";
       "Sensitivity analysis recommended for key assumptions"])]).

(** [calculate_tier4_intergenerational].  The closing test divides by the
    investment without a guard. *)
Definition calculate_tier4_intergenerational
    (annual_wage_gains avg_wage_gain : Q) (total_families : Z) (investment : Q)
    : option pyobj :=
  let discount_rate := PROJ_discount_rate in
  let chetty_coefficient := PROJ_chetty_coefficient in
  let avg_children := PROJ_avg_children_per_family in
  let total_children := inject_Z (Qtrunc (inject_Z total_families * avg_children)) in
  (* Chetty calculation: $1K income increase -> 1.3% higher adult earnings *)
  income_increase_thousands ← py_qdiv avg_wage_gain 1000;
  let assumed_child_baseline_earnings := 40000 in
  let earnings_boost_per_child :=
    assumed_child_baseline_earnings * chetty_coefficient * income_increase_thousands in
  let total_child_earnings_boost := earnings_boost_per_child * total_children in
  (* Project over 30 years of child's working life, delayed 15 years *)
  let child_working_years := 30%Z in
  let years_until_work := 15%Z in
  pv_factor ← annuity_factor discount_rate child_working_years;
  pv_factor_delayed ← py_qdiv pv_factor ((1 + discount_rate) ^ years_until_work);
  let intergenerational_pv := total_child_earnings_boost * pv_factor_delayed in
  (* Combined with lifecycle *)
  pv_with_fade ← pv_with_fade_of annual_wage_gains discount_rate;
  let total_societal := pv_with_fade + intergenerational_pv in
  societal_roi_ratio ← ratio_or_zero total_societal investment 1;
  let result := [
    ("methodology",
       PStr "Includes research-based projections of child outcome improvements");
    ("appropriate_audience", PStr "Visionary funders, long-term impact investors");
    ("investment_denominator", PNum investment);
    ("research_basis",
       PStr "Chetty et al.: $1,000 childhood income increase -> 1.3% higher adult earnings");
    ("intergenerational", PDict [
       ("total_children", PNum total_children);
       ("avg_family_income_increase", PNum (py_round avg_wage_gain 0));
       ("chetty_coefficient", PNum chetty_coefficient);
       ("projected_earnings_boost_per_child_annual",
          PNum (py_round earnings_boost_per_child 0));
       ("total_children_earnings_boost_annual",
          PNum (py_round total_child_earnings_boost 0));
       ("lifetime_pv_discounted", PNum (py_round intergenerational_pv 0))]);
    ("combined_societal", PDict [
       ("adult_lifecycle_pv", PNum (py_round pv_with_fade 0));
       ("intergenerational_pv", PNum (py_round intergenerational_pv 0));
       ("total_societal_pv", PNum (py_round total_societal 0));
       ("societal_roi_ratio", societal_roi_ratio)]);
    ("caveats", PStrs [
       "HIGHLY SPECULATIVE: Intergenerational effects are research-based projections, not measured";
       "Chetty research based on different populations; applicability to rural TN uncertain";
       "Effects won't be observable for 15-20 years";
       "Represents potential, not proven impact";
       "Should not be primary ROI cited; use for 'comprehensive potential' framing"])] in
  (* Add warning if ROI seems too high *)
  ratio ← py_qdiv total_societal investment;
  if Qltb 10 ratio
  then Some (PDict (result ++ [
         ("red_flag",
            PStr "WARNING: ROI >10:1 may indicate overclaiming. Verify assumptions.")]))
  else Some (PDict result).

(** [calculate_sensitivity_analysis] *)
Definition calculate_sensitivity_analysis (annual_wage_gains investment : Q)
    : option pyobj :=
  (* Attribution scenarios *)
  attribution ←
    mapM (fun pct : Z =>
       share ← py_qdiv (inject_Z pct) 100;
       let attributed := annual_wage_gains * share in
       roi ← (if Qltb 0 investment
              then r ← py_qdiv attributed investment; Some (r * 25)
              else Some 0);
       Some (str_of_Z pct +:+ "pct",
             PDict [("attributed_annual_gains", PNum (py_round attributed 0));
                    ("implied_lifecycle_roi", PNum (py_round roi 1))]))
      [100; 70; 50; 30]%Z;
  (* Persistence scenarios *)
  let scenario (description : string) (years : Q) :=
    ratio ← ratio_or_zero (annual_wage_gains * years) investment 1;
    Some (PDict [("description", PStr description);
                 ("lifetime_value", PNum (py_round (annual_wage_gains * years) 0));
                 ("roi_ratio", ratio)]) in
  full ← scenario "100% persistence, 25 years" 25;
  moderate_fade ← scenario "Fade to 60% by year 10" 15;
  rapid_fade ← scenario "Fade to 30% by year 5" 8;
  let persistence := [
    ("full", full); ("moderate_fade", moderate_fade); ("rapid_fade", rapid_fade)] in
  (* Denominator scenarios *)
  full_25m ← py_qdiv (annual_wage_gains * 25) 25000000;
  annual_program_cost ← py_qdiv (annual_wage_gains * 25) 6000000;
  per_family ← py_qdiv annual_wage_gains 862;
  marginal_per_family ← py_qdiv (per_family * 25) 7000;
  let denominator := [
    ("full_25m", PDict [
       ("value", PNum 25000000);
       ("roi_ratio", PNum (py_round full_25m 1))]);
    ("annual_program_cost", PDict [
       ("value", PNum 6000000);
       ("roi_ratio", PNum (py_round annual_program_cost 1))]);
    ("marginal_per_family", PDict [
       ("value", PNum 7000);
       ("roi_ratio", PNum (py_round marginal_per_family 1));
       ("note", PStr "Useful for marginal cost analysis")])] in
  Some (PDict [
    ("methodology", PStr "Varies key assumptions to show range of outcomes");
    ("attribution", PDict [
       ("scenarios", PDict attribution);
       ("note",
          PStr "RCT will reveal actual attribution; Building Nebraska Families showed 0% attribution")]);
    ("wage_persistence", PDict [
       ("scenarios", PDict persistence);
       ("note",
          PStr "Research shows workforce gains often fade; long-term follow-up rare")]);
    ("denominator", PDict [
       ("scenarios", PDict denominator);
       ("recommendation",
          PStr "Use $25M for consistency; note if different denominator used")])]).

(** [calculate_full_roi], the journey-table branch, from [data["journeys"]]
    on: the aggregates and the five results they feed.  The metadata,
    data-quality and summary sections of the document repeat these figures
    and are left out. *)
Definition cell_float (v : value) : fl :=
  match v with
  | VFloat f => f
  | VInt z => fl_of_Z z
  | _ => NaN
  end.

Definition Qsum (l : list Q) : Q := Qred (foldr Qplus 0 l).

(** [series.value_counts().to_dict()] on a column of strings *)
Definition value_counts (cells : list value) : gmap string Z :=
  foldr (fun v counts =>
           match v with
           | VStr s => <[s := (default 0%Z (counts !! s) + 1)%Z]> counts
           | _ => counts
           end) ∅ cells.

(** [journeys['cliff_tier'].value_counts().to_dict()] on the journey table *)
Definition tier_counts (journeys : list jdict) : option (gmap string Z) :=
  value_counts <$> journeys_column journeys "cliff_tier".

Definition calculate_full_roi (journeys : list jdict) : option pyobj :=
  (* Wage metrics from journey data *)
  income_change_annual ← journeys_column journeys "income_change_annual";
  let valid_wages := dropna (cell_float <$> income_change_annual) in
  let positive_changes := List.filter (fun w => Qltb 0 w) valid_wages in
  let total_wage_gains := Qsum positive_changes in
  let positive_count := Z.of_nat (length positive_changes) in
  avg_wage_gain ←
    (if (0 <? positive_count)%Z
     then Qred <$> py_qdiv total_wage_gains (inject_Z positive_count)
     else Some 0);
  let total_families := Z.of_nat (length journeys) in
  (* FPL tier counts from journey data *)
  fpl_tier_counts ← tier_counts journeys;
  (* Calculate all tiers *)
  let investment := inject_Z PROGRAM_INVESTMENT in
  tier1 ← calculate_tier1_conservative total_wage_gains investment;
  tier2 ← calculate_tier2_taxpayer total_wage_gains fpl_tier_counts investment;
  tier3 ← calculate_tier3_lifecycle total_wage_gains investment;
  tier4 ← calculate_tier4_intergenerational
             total_wage_gains avg_wage_gain total_families investment;
  sensitivity ← calculate_sensitivity_analysis total_wage_gains investment;
  Some (PDict [
    ("fpl_distribution",
       PDict (prod_map id (fun n => PNum (inject_Z n)) <$> map_to_list fpl_tier_counts));
    ("tier1_conservative", tier1);
    ("tier2_taxpayer", tier2);
    ("tier3_lifecycle", tier3);
    ("tier4_intergenerational", tier4);
    ("sensitivity_analysis", sensitivity)]).

End Roi.

(** ** [src/analytics/cliff.py] *)

Module Cliff.

Import Metrics.

(* Benefit values for cliff calculations *)
Definition BENEFIT_snap_annual : Z := 4800.
Definition BENEFIT_tenncare_adult : Z := 6000.
Definition BENEFIT_childcare_per_child : Z := 6000.
Definition BENEFIT_liheap_annual : Z := 600.
Definition BENEFIT_school_lunch_per_child : Z := 1800.

(** [max(a, b)] on two numbers: [b] when [b > a], else [a]. *)
Definition py_max (a b : value) : option value :=
  gt ← py_gt b a; Some (if (gt : bool) then b else a).

(** One entry of [CLIFF_ZONES]; [id], [name] and [range] carry a prefix. *)
Record Zone : Type := {
  zone_id : string;
  zone_name : string;
  zone_range : string;
  fpl_low : Z;
  fpl_high : Z;
  benefits_affected : list string;
  color : string;
  risk_level : string;
  calc_benefits : value -> option value;
}.

(* Cliff zone definitions *)
Definition CLIFF_ZONES : list Zone := [
  {| zone_id := "snap_tenncare";
     zone_name := "SNAP/TennCare Cliff";
     zone_range := "100-130%";
     fpl_low := 100;
     fpl_high := 130;
     benefits_affected := ["SNAP (~$4,800/yr)"; "TennCare adult (~$6,000/yr)"];
     color := "rose";
     risk_level := "high";
     calc_benefits := fun children =>
       Some (VInt (BENEFIT_snap_annual + BENEFIT_tenncare_adult)) |};
  {| zone_id := "liheap_childcare";
     zone_name := "LIHEAP/Childcare Cliff";
     zone_range := "130-150%";
     fpl_low := 130;
     fpl_high := 150;
     benefits_affected := ["Childcare subsidy (~$6K/child)"; "LIHEAP (~$600/yr)"];
     color := "amber";
     risk_level := "high";
     calc_benefits := fun children =>
       n ← py_max children (VInt 1);
       care ← py_mul (VInt BENEFIT_childcare_per_child) n;
       py_add care (VInt BENEFIT_liheap_annual) |};
  {| zone_id := "deep_cliff";
     zone_name := "Deep Cliff Zone";
     zone_range := "150-185%";
     fpl_low := 150;
     fpl_high := 185;
     benefits_affected := ["Childcare loss imminent"; "School lunch reduction"];
     color := "orange";
     risk_level := "medium";
     calc_benefits := fun children =>
       n ← py_max children (VInt 1);
       care ← py_mul (VInt BENEFIT_childcare_per_child) n;
       n ← py_max children (VInt 1);
       lunch ← py_mul (VInt BENEFIT_school_lunch_per_child) n;
       py_add care lunch |};
  {| zone_id := "near_graduation";
     zone_name := "Near Graduation";
     zone_range := "185-225%";
     fpl_low := 185;
     fpl_high := 225;
     benefits_affected := ["Minimal immediate risk"; "Focus on graduation"];
     color := "emerald";
     risk_level := "low";
     calc_benefits := fun children => Some (VInt 0) |} ].

(** [label in row.index] *)
Definition in_index (label : string) (row : Series) : bool :=
  existsb (fun cv => String.eqb cv.1 label) row.

Section IntOfStr.
(** [int(s)] on a string; [None] stands for [ValueError]. *)
Variable int_of_str : string -> option Z.

(** [int(v)] on a cell. *)
Definition py_int_cell (v : value) : option Z :=
  match v with
  | VStr s => int_of_str s
  | _ => py_int v
  end.

(** [calculate_fpl_for_row] *)
Definition calculate_fpl_for_row (row : Series) (income_col : string)
    (hh_col : option string) : option value :=
  missing ←
    (if negb (in_index income_col row) then Some true
     else if isna (series_get income_col row) then Some true
     else py_le (series_get income_col row) (VInt 0));
  if (missing : bool) then Some VNone
  else
    annual_income ← py_mul (series_get income_col row) (VInt 12);
    hh_size ←
      match hh_col with
      | Some c =>
          if negb (String.eqb c "") && in_index c row
          then
            let hh_val := series_get c row in
            if notna hh_val then Z.max 1 <$> py_int_cell hh_val else Some 3
          else Some 3
      | None => Some 3
      end;
    let poverty_line := FPL_BASE + FPL_PER_ADDITIONAL * (hh_size - 1) in
    r ← py_div annual_income (VInt poverty_line);
    py_mul r (VInt 100).

End IntOfStr.

(** [zone["fpl_low"] <= fpl < zone["fpl_high"]] *)
Definition in_zone (zone : Zone) (fpl : value) : option bool :=
  low ← py_le (VInt (fpl_low zone)) fpl;
  if (low : bool) then py_lt fpl (VInt (fpl_high zone)) else Some false.

(** [classify_tier], local to [calculate_cliff_analysis]: the [id] of the
    first zone that holds the percentage, [None] when there is none. *)
Fixpoint first_zone (zones : list Zone) (fpl : value) : option value :=
  match zones with
  | [] => Some VNone
  | zone :: zones' =>
      inside ← in_zone zone fpl;
      if (inside : bool) then Some (VStr (zone_id zone)) else first_zone zones' fpl
  end.

Definition classify_tier (fpl : value) : option value :=
  if isna fpl then Some VNone else first_zone CLIFF_ZONES fpl.

End Cliff.

(** ** [src/analytics/metrics.py], the metrics of the journey table *)

Module JourneyMetrics.

Import Metrics.
#[local] Open Scope Q_scope.

(** The numbers of a column of floats: the cells that are not null. *)
Definition numbers (cells : list value) : list Q :=
  dropna (Roi.cell_float <$> cells).

(** [series.mean()] of a column that holds at least one number *)
Definition mean (xs : list Q) : option Q :=
  py_qdiv (Roi.Qsum xs) (inject_Z (Z.of_nat (length xs))).

(** [journeys['is_graduate'].sum()] on a column of booleans; nulls are
    skipped. *)
Fixpoint sum_flags (cells : list value) : option Z :=
  match cells with
  | [] => Some 0%Z
  | VBool b :: cells' =>
      n ← sum_flags cells'; Some ((if b then 1 else 0) + n)%Z
  | v :: cells' => if isna v then sum_flags cells' else None
  end.

(** [calculate_success_metrics_from_journeys].  Indexing a column that no
    journey carries raises [KeyError].  The two [groupby] aggregations, by
    county and by navigator, are computations of pandas on the two frames
    that are not embedded: their outcomes are the arguments [by_county] and
    [by_navigator], [None] for an aggregation that raises, as the one by
    navigator does on a frame without a ['navigator'] column.  The journeys
    are grouped by county only if the table has a ['county'] column. *)
Definition calculate_success_metrics_from_journeys
    (journeys : list jdict) (nav : DataFrame)
    (by_county by_navigator : option pyobj) : option pyobj :=
  let total_participants := Z.of_nat (length journeys) in
  let nav_tracked := len nav in
  (* Wage metrics from journey data *)
  income_change_annual ← journeys_column journeys "income_change_annual";
  let wages := numbers income_change_annual in
  let with_wage_data := Z.of_nat (length wages) in
  let positive_wage := List.filter (fun w => Qltb 0 w) wages in
  let positive_wage_count := Z.of_nat (length positive_wage) in
  let total_wage_gains := Roi.Qsum positive_wage in
  avg_wage_change ←
    (if (0 <? with_wage_data)%Z then mean wages else Some 0);
  positive_wage_rate ←
    (if (0 <? with_wage_data)%Z
     then py_qdiv (inject_Z positive_wage_count) (inject_Z with_wage_data)
     else Some 0);
  (* FPL metrics from journey data *)
  current_fpl ← journeys_column journeys "current_fpl";
  let with_fpl_data := Z.of_nat (length (numbers current_fpl)) in
  is_graduate ← journeys_column journeys "is_graduate";
  graduate_count ← sum_flags is_graduate;
  graduation_rate ←
    (if (0 <? with_fpl_data)%Z
     then py_qdiv (inject_Z graduate_count) (inject_Z with_fpl_data)
     else Some 0);
  (* FPL change metrics *)
  fpl_change ← journeys_column journeys "fpl_change";
  let fpl_changes := numbers fpl_change in
  let with_fpl_change := Z.of_nat (length fpl_changes) in
  let positive_fpl_count :=
    Z.of_nat (length (List.filter (fun c => Qltb 0 c) fpl_changes)) in
  avg_fpl_change ←
    (if (0 <? with_fpl_change)%Z then mean fpl_changes else Some 0);
  (* FPL tier distribution from journey data *)
  fpl_distribution ← Roi.tier_counts journeys;
  (* County breakdown *)
  county_metrics ←
    (if existsb (has_key "county") journeys then by_county else Some (PDict []));
  (* Navigator performance (from navigator tracking) *)
  navigator_performance ← by_navigator;
  positive_fpl_rate ←
    (if (0 <? with_fpl_change)%Z
     then r ← py_qdiv (inject_Z positive_fpl_count) (inject_Z with_fpl_change);
          Some (py_round (r * 100) 1)
     else Some 0);
  Some (PDict [
    ("summary", PDict [
       ("total_participants", PNum (inject_Z total_participants));
       ("navigator_tracked", PNum (inject_Z nav_tracked));
       ("with_wage_data", PNum (inject_Z with_wage_data));
       ("with_fpl_data", PNum (inject_Z with_fpl_data))]);
    ("outcomes", PDict [
       ("graduates_225_fpl", PNum (inject_Z graduate_count));
       ("graduation_rate", PNum (py_round (graduation_rate * 100) 1));
       ("positive_fpl_change_count", PNum (inject_Z positive_fpl_count));
       ("positive_fpl_rate", PNum positive_fpl_rate);
       ("avg_fpl_change", PNum (py_round avg_fpl_change 1));
       ("positive_wage_count", PNum (inject_Z positive_wage_count));
       ("positive_wage_rate", PNum (py_round (positive_wage_rate * 100) 1));
       ("avg_wage_change", PNum (py_round avg_wage_change 2));
       ("total_wage_gains", PNum (py_round total_wage_gains 2))]);
    ("fpl_distribution",
       PDict (prod_map id (fun n => PNum (inject_Z n))
                <$> map_to_list fpl_distribution));
    ("county_metrics", county_metrics);
    ("navigator_performance", navigator_performance)]).

End JourneyMetrics.
(** * Properties *)

(** ** Typing of the journey dictionary

    Every numeric field of the journey holds a number or [None], every date
    field a timestamp, [NaT] or [None]: the invariant that keeps the
    arithmetic of [build_single_journey] from raising. *)

Definition num_keys : list string :=
  ["income_change_annual"; "current_fpl"; "enrollment_fpl"; "fpl_change";
   "household_size"; "household_adults"; "household_children";
   "baseline_hourly_wage"; "baseline_monthly_income";
   "first_quarterly_monthly_income"; "last_quarterly_monthly_income";
   "enrollment_monthly_income"; "current_monthly_income";
   "income_change_monthly"].

Definition date_keys : list string :=
  ["enrollment_date"; "baseline_date"; "first_quarterly_date";
   "last_quarterly_date"].

Definition is_num (v : value) : bool :=
  match v with
  | VNone | VFloat _ | VInt _ => true
  | _ => false
  end.

Definition is_number (v : value) : bool :=
  match v with
  | VFloat _ | VInt _ => true
  | _ => false
  end.

Definition is_date (v : value) : bool :=
  match v with
  | VNone | VTime _ | VNaT => true
  | _ => false
  end.

Definition mem (k : string) (l : list string) : bool := existsb (String.eqb k) l.

Definition key_ok (k : string) (v : value) : bool :=
  if mem k num_keys then is_num v
  else if mem k date_keys then is_date v
  else true.

Definition well_typed (j : jdict) : Prop :=
  forall k v, j !! k = Some v -> key_ok k v = true.

(** [fpl >= t] for a journey field: the field holds a number, and it is at
    least [t]. *)
Definition fpl_at_least (v : value) (t : Q) : Prop :=
  exists q, as_fl v = Some (Fin q) /\ (t <= q)%Q.

Definition tier_names : list string :=
  ["graduated"; "near_graduation"; "deep_cliff"; "liheap_childcare";
   "snap_tenncare"; "deep_poverty"; "extreme_poverty"; "unknown"].

(** Two dictionaries agree outside the keys of [L]. *)
Definition agree_off (L : list string) (j j' : jdict) : Prop :=
  forall k, mem k L = false -> j' !! k = j !! k.

(** The keys each section of [build_single_journey] may write. *)
Definition empower_keys : list string :=
  ["has_positive_income_change"; "income_change_annual"; "current_fpl";
   "enrollment_fpl"; "fpl_change"; "county"; "household_size"; "navigator"].
Definition intake_keys : list string :=
  ["county"; "enrollment_status"; "enrollment_date"; "household_adults";
   "household_children"; "household_size"].
Definition baseline_keys : list string :=
  ["baseline_date"; "baseline_hourly_wage"; "baseline_monthly_income"].
Definition quarterly_keys : list string :=
  ["first_quarterly_date"; "first_quarterly_monthly_income";
   "last_quarterly_date"; "last_quarterly_monthly_income"; "quarterly_count"].
Definition fallback_income_keys : list string :=
  ["enrollment_monthly_income"; "current_monthly_income";
   "income_change_monthly"; "income_change_annual";
   "has_positive_income_change"].
Definition fallback_fpl_keys : list string :=
  ["enrollment_fpl"; "current_fpl"; "fpl_change"].
Definition days_keys : list string := ["days_in_program"].
Definition outcome_keys : list string :=
  ["is_graduate"; "has_positive_income_change"; "has_positive_fpl_change";
   "cliff_tier"].

(** [a or b or c] on date fields: the first one that is present. *)
Fixpoint first_present (l : list value) : value :=
  match l with
  | [] => VNone
  | VNone :: l' => first_present l'
  | v :: _ => v
  end.

(** What [days_in_program] holds, given the two endpoints. *)
Definition days_value (first_date last_date : value) : value :=
  match first_date, last_date with
  | VTime a, VTime b => VInt ((b - a) `div` NS_PER_DAY)
  | VNone, _ | _, VNone => VNone
  | _, _ => VFloat NaN
  end.

Definition days_spec (j : jdict) : Prop :=
  j !! "days_in_program" =
  Some (days_value
          (first_present [jget j "enrollment_date"; jget j "baseline_date";
                          jget j "first_quarterly_date"])
          (first_present [jget j "last_quarterly_date";
                          jget j "first_quarterly_date"; jget j "baseline_date"])).

(** What the outcome section leaves in the journey. *)
Definition outcome_spec (on_roster : bool) (j : jdict) : Prop :=
  exists (b : bool) (t : string),
    j !! "is_graduate" = Some (VBool b) /\
    j !! "cliff_tier" = Some (VStr t) /\
    In t tier_names /\
    (b = true <-> on_roster = true \/ fpl_at_least (jget j "current_fpl") 225) /\
    (t = "graduated" <->
       on_roster = true \/ fpl_at_least (jget j "current_fpl") 225) /\
    (on_roster = false -> isna (jget j "current_fpl") = true ->
       b = false /\ t = "unknown").

Definition has_pid_column (df : DataFrame) : Prop :=
  existsb (String.eqb "participant_id") (columns df) = true.

(** [pid in graduate_ids], with [graduate_ids] possibly [None]. *)
Definition on_roster (pid : Z) (graduate_ids : option (gset Z)) : bool :=
  match graduate_ids with
  | Some ids => bool_decide (pid ∈ ids)
  | None => false
  end.

(** The records of one participant in the processed Empower frame. *)
Definition empower_records (empower : option (list Journey.EmpowerRow)) (pid : Z)
    : list Journey.EmpowerRow :=
  match empower with
  | Some frame =>
      List.filter (fun r => fl_eq (Journey.emp_participant_id r) (fl_of_Z pid)) frame
  | None => []
  end.

(** A field the Empower section fills from a float column: set when the
    cell is not null, left as it was otherwise. *)
Definition empower_field (cell : fl) (old : option value) : option value :=
  if fl_isnan cell then old else Some (VFloat cell).

(** The household size the Empower section leaves in the journey. *)
Definition household_size_from_empower (emp_rec : list Journey.EmpowerRow)
    : option value :=
  match emp_rec with
  | r :: _ =>
      if fl_isnan (Journey.empower_household_size r) then None
      else Some (VFloat (Journey.empower_household_size r))
  | [] => None
  end.

(** The household size the intake section computes when none is set. *)
Definition household_size_from_intake `{Parsers} (row : Series) : option value :=
  py_add
    (py_or (Journey.get_numeric row ["how many adults"; "adults currently live"])
           (VInt 1))
    (py_or (Journey.get_numeric row ["how many children"; "children currently live"])
           (VInt 2)).

(** What [build_single_journey] stores under [household_size]. *)
Definition household_size_stored `{Parsers}
    (emp_rec : list Journey.EmpowerRow) (intake_row : option Series) : option value :=
  let from_empower := household_size_from_empower emp_rec in
  match intake_row with
  | Some row =>
      if truthy (default VNone from_empower) then from_empower
      else household_size_from_intake row
  | None => from_empower
  end.

(** What stays of the Empower figures: a wage gain that is neither null nor
    0 is the journey's [income_change_annual]; a current FPL that is neither
    null nor 0 is its [current_fpl], and then the enrollment FPL of the
    extract, if not null, is its [enrollment_fpl]. *)
Definition kept_from_empower (emp_rec : list Journey.EmpowerRow) (j : jdict)
    : Prop :=
  forall r, head emp_rec = Some r ->
    (forall w, Journey.empower_wage_gain r = Fin w -> Qeq_bool w 0 = false ->
       j !! "income_change_annual" = Some (VNum w)) /\
    (forall c, Journey.empower_fpl_current r = Fin c -> Qeq_bool c 0 = false ->
       j !! "current_fpl" = Some (VNum c) /\
       forall e, Journey.empower_fpl_enrollment r = Fin e ->
         j !! "enrollment_fpl" = Some (VNum e)).

(** What [build_single_journey] guarantees of the journey it returns. *)
Definition journey_summary `{Parsers} (pid : Z) (confirmed : bool)
    (emp_rec : list Journey.EmpowerRow) (intake_row : option Series) (j : jdict)
    : Prop :=
  well_typed j /\
  j !! "participant_id" = Some (VInt pid) /\
  outcome_spec confirmed j /\
  days_spec j /\
  j !! "household_size" = household_size_stored emp_rec intake_row /\
  kept_from_empower emp_rec j.

(** The participant IDs of all sources: [all_ids]. *)
Definition all_ids `{Parsers}
    (intake baseline quarterly change_of_life empower graduates_df : DataFrame)
    : gset Z :=
  list_to_set
    (Journey.frame_ids (Journey.add_participant_id intake)
     ++ Journey.frame_ids (Journey.add_participant_id baseline)
     ++ Journey.frame_ids (Journey.add_participant_id quarterly)
     ++ Journey.frame_ids (Journey.add_participant_id change_of_life)
     ++ dropna_int (Journey.emp_participant_id
                      <$> Journey.process_empower_data empower))
  ∪ Journey.graduate_roster graduates_df.

(** The loop of [build_participant_journeys_from_raw] over given IDs. *)
Definition journeys_of `{Parsers}
    (intake baseline quarterly change_of_life empower graduates_df : DataFrame)
    (ids : list Z) : option (list jdict) :=
  mapM (fun pid =>
          Journey.build_single_journey pid
            (Journey.add_participant_id intake)
            (Journey.add_participant_id baseline)
            (Journey.add_participant_id quarterly)
            (Journey.add_participant_id change_of_life)
            (Some (Journey.process_empower_data empower))
            (Some (Journey.graduate_roster graduates_df)))
       ids.

(** ** Sample inputs

    Frames whose cells are already typed (numbers and timestamps), so that
    no string ever reaches a parser.  The sets of the samples hold a few
    participant IDs between 0 and 7, which CPython iterates in ascending
    order. *)
Fixpoint insert_Z (x : Z) (l : list Z) : list Z :=
  match l with
  | [] => [x]
  | y :: l' => if x <=? y then x :: l else y :: insert_Z x l'
  end.

Definition ascending (ids : gset Z) : list Z := foldr insert_Z [] (elements ids).

Definition ascending_perm (ids : gset Z) : ascending ids ≡ₚ elements ids.
Proof.
  unfold ascending. induction (elements ids) as [|x l IH]; [done|].
  cbn [foldr]. rewrite <- IH at 2. clear IH.
  induction (foldr insert_Z [] l) as [|y l' IH]; [done|].
  cbn [insert_Z]. destruct (x <=? y); [done|].
  rewrite IH. apply Permutation_swap.
Qed.

Definition typed_cells : Parsers :=
  {| float_of_str := fun _ => None;
     to_datetime := fun _ => None;
     to_numeric_coerce := fun _ => NaN;
     set_iter := ascending;
     set_iter_perm := ascending_perm |}.

(** Midnight of the [n]-th day after the epoch. *)
Definition day (n : Z) : value := VTime (n * NS_PER_DAY).

Definition no_rows : DataFrame :=
  {| columns := ["Participant ID"]; rows := [] |}.

(** Participant 7: intake submitted on day 10, baseline on day 5, quarterly
    assessments on days 40 and 100 with incomes 1000 and 1250 a month. *)
Definition intake_7 : DataFrame :=
  {| columns := ["Participant ID"; "Submission Date"];
     rows := [[VInt 7; day 10]] |}.

Definition baseline_7 : DataFrame :=
  {| columns := ["Participant ID"; "Submission Date"];
     rows := [[VInt 7; day 5]] |}.

Definition quarterly_7 : DataFrame :=
  {| columns := ["Participant ID"; "Submission Date"; "total_monthly_income"];
     rows := [[VInt 7; day 100; VNum 1250]; [VInt 7; day 40; VNum 1000]] |}.

(** An Empower extract that reports a wage gain of 0 for participant 7. *)
Definition empower_zero_gain : DataFrame :=
  {| columns := ["UAT ID"; "Wage Increases Since Enrollment"];
     rows := [[VInt 7; VNum 0]] |}.

(** An Empower extract that reports the enrollment FPL of participant 7
    (150 percent) and nothing else. *)
Definition empower_enrollment_fpl : DataFrame :=
  {| columns := ["UAT ID"; "FPL at Enrollment"];
     rows := [[VInt 7; VNum 150]] |}.

(** An Empower extract with a household size of 0 for participant 7. *)
Definition empower_size_zero : DataFrame :=
  {| columns := ["UAT ID"; "Household Size"];
     rows := [[VInt 7; VNum 0]] |}.

(** A graduate roster naming participant 3, who is in no other source. *)
Definition graduates_3 : DataFrame :=
  {| columns := ["UAT ID"]; rows := [[VInt 3]] |}.

(** An Empower extract with the figures of two participants: participant 1
    with a gain of 5200 at 240 percent of the poverty line (150 at
    enrollment) in a household of four, participant 2 with a gain of 3000 at
    160 percent (120 at enrollment) in a household of three. *)
Definition empower_sample : DataFrame :=
  {| columns := ["UAT ID"; "Wage Increases Since Enrollment"; "Current FPL";
                 "FPL at Enrollment"; "Household Size"];
     rows := [[VInt 1; VNum 5200; VNum 240; VNum 150; VNum 4];
              [VInt 2; VNum 3000; VNum 160; VNum 120; VNum 3]] |}.

(** An Empower extract with a household size of 4 for participant 7. *)
Definition empower_size_four : DataFrame :=
  {| columns := ["UAT ID"; "Household Size"];
     rows := [[VInt 7; VNum 4]] |}.

(** What C7 states: latest date of one group minus earliest of the other. *)
Definition times (l : list value) : list Z :=
  omap (fun v => match v with VTime t => Some t | _ => None end) l.

Definition latest (l : list value) : option Z :=
  match times l with
  | [] => None
  | t :: ts => Some (foldr Z.max t ts)
  end.

Definition earliest (l : list value) : option Z :=
  match times l with
  | [] => None
  | t :: ts => Some (foldr Z.min t ts)
  end.

Definition days_as_claimed (j : jdict) : value :=
  match earliest [jget j "enrollment_date"; jget j "baseline_date";
                  jget j "first_quarterly_date"],
        latest [jget j "last_quarterly_date"; jget j "first_quarterly_date";
                jget j "baseline_date"] with
  | Some a, Some b => VInt ((b - a) `div` NS_PER_DAY)
  | _, _ => VNone
  end.

(** One column of the journey table: [journeys[k]]. *)
Definition table_column (k : string) (table : option (list jdict))
    : option (list value) :=
  match table with
  | Some journeys => Some (map (fun j => jget j k) journeys)
  | None => None
  end.

(** ** Household sizes as the sources supply them *)

(** An Empower household size that is missing or at least 1. *)
Definition size_ok (f : fl) : bool :=
  match f with
  | NaN => true
  | Fin h => Qle_bool 1 h
  end.

Definition empower_sizes_ok (empower : list Journey.EmpowerRow) : bool :=
  forallb (fun r => size_ok (Journey.empower_household_size r)) empower.

(** An intake count of adults that is missing, 0, or at least 1, and a count
    of children that is missing or not negative. *)
Definition adults_ok (v : value) : bool :=
  match v with
  | VFloat (Fin a) => Qeq_bool a 0 || Qle_bool 1 a
  | _ => true
  end.

Definition children_ok (v : value) : bool :=
  match v with
  | VFloat (Fin c) => Qle_bool 0 c
  | _ => true
  end.

Definition intake_row_ok `{Parsers} (row : Series) : bool :=
  adults_ok (Journey.get_numeric row ["how many adults"; "adults currently live"])
  && children_ok
       (Journey.get_numeric row ["how many children"; "children currently live"]).

Definition intake_counts_ok `{Parsers} (intake : DataFrame) : bool :=
  forallb (fun r => intake_row_ok (row_series intake r)) (rows intake).

(** The household size [calculate_fpl_pct] works with. *)
Definition effective_household_size (household_size : value) : option Z :=
  if notna household_size then Z.max 1 <$> py_int household_size else Some 3.

(** The household size the FPL fallback works with: [household_size or 3]
    of the journey, as [calculate_fpl_pct] then coerces it.  A stored size
    that is missing or 0 counts as 3. *)
Definition fallback_household_size (stored : value) : option Z :=
  effective_household_size (py_or stored (VInt 3)).

(** The Empower extract leaves the participant without a current FPL to
    keep: it has no record, a null value or 0. *)
Definition empower_fpl_unusable (emp_rec : list Journey.EmpowerRow) : bool :=
  match emp_rec with
  | r :: _ =>
      match Journey.empower_fpl_current r with
      | NaN => true
      | Fin c => Qeq_bool c 0
      end
  | [] => true
  end.

(** ** Reading the ROI documents *)

(** [o[k1][k2]...] *)
Fixpoint at_path (ks : list string) (o : pyobj) : option pyobj :=
  match ks with
  | [] => Some o
  | k :: ks' =>
      match item k o with
      | Some o' => at_path ks' o'
      | None => None
      end
  end.

(** ** Rounded figures

    [r] is [x] rounded to [n] decimal places, as far as the idealisation of
    floats as rationals can tell: a number of at most [n] decimal places no
    further than one unit of the last place from [x].  Python rounds the
    binary float, which at a tie can fall either way. *)
Definition decimals (n : nat) (r : Q) : Prop :=
  exists k : Z, (r == inject_Z k / inject_Z (10 ^ Z.of_nat n))%Q.

Definition rounded_to (n : nat) (x r : Q) : Prop :=
  decimals n r /\ (Qabs (r - x) <= 1 / inject_Z (10 ^ Z.of_nat n))%Q.

(** The result has a ["caveats"] entry: a list that starts with a string. *)
Definition has_caveats (result : pyobj) : bool :=
  match item "caveats" result with
  | Some (PList (PStr _ :: _)) => true
  | _ => false
  end.

Definition is_text (o : option pyobj) : bool :=
  match o with
  | Some (PStr _) => true
  | _ => false
  end.

(** An Empower extract with two participants in the middle cliff tiers:
    160 percent of the poverty line (the 150-185 band) with a wage gain of
    4000, and 140 percent (the 130-150 band) with a wage gain of 2500. *)
Definition empower_middle_tiers : DataFrame :=
  {| columns := ["UAT ID"; "Current FPL"; "Wage Increases Since Enrollment"];
     rows := [[VInt 1; VNum 160; VNum 4000]; [VInt 2; VNum 140; VNum 2500]] |}.

(** One figure of the ROI document computed from a journey table. *)
Definition roi_figure (path : list string) (table : option (list jdict))
    : option pyobj :=
  match table with
  | Some journeys =>
      match Roi.calculate_full_roi journeys with
      | Some document => at_path path document
      | None => None
      end
  | None => None
  end.

(** The poverty line of a household of [h]. *)
Definition poverty_line (h : Z) : Q := inject_Z (15060 + 5380 * (h - 1)).

(** [col * 100] *)
Definition times_100 (col : list fl) : list fl :=
  map (fun x => fl_mul x (fl_of_Z 100)) col.

(** The middle of an ascending list: the middle element of an odd number of
    values, the mean of the two middle ones of an even number, nothing of
    none.  Of the non-null values of a column in ascending order it is the
    median. *)
Definition middle (s : list Q) : option Q :=
  let n := length s in
  if Nat.odd n then s !! (n / 2)%nat
  else match s !! (n / 2 - 1)%nat, s !! (n / 2)%nat with
       | Some a, Some b => Some ((a + b) / 2)%Q
       | _, _ => None
       end.

(** ** Further notions

    The name under which the ROI module knows a tier of the journey table. *)
Definition roi_tier_name (t : string) : string :=
  if String.eqb t "deep_cliff" then "working_progress"
  else if String.eqb t "liheap_childcare" then "snap_cliff"
  else if String.eqb t "snap_tenncare" then "poverty_line"
  else t.

(** The household cell [calculate_fpl_for_row] reads: the one under
    [hh_col] when the label is given and is in the row. *)
Definition household_cell (row : Series) (hh_col : option string) : value :=
  match hh_col with
  | Some c =>
      if negb (String.eqb c "") && Cliff.in_index c row then series_get c row
      else VNone
  | None => VNone
  end.

(** The benefits savings of Tier 2 for given tier counts, by its table:
    17,900 a graduate, 9,900 a "near_graduation", 5,150 a "working_progress"
    and 1,000 a "snap_cliff" family. *)
Definition tier2_savings (counts : gmap string Z) : Z :=
  17900 * default 0 (counts !! "graduated")
  + 9900 * default 0 (counts !! "near_graduation")
  + 5150 * default 0 (counts !! "working_progress")
  + 1000 * default 0 (counts !! "snap_cliff").

(** The present value of one dollar a year over [years] years at the
    discount rate of the projections, and the factor by which the fading
    wage gains (100 percent for years 1-5, 80 percent for years 6-10 and
    60 percent for years 11-25) are worth less. *)
Definition annuity (years : Z) : Q :=
  (1 - (1 + Roi.PROJ_discount_rate) ^ (- years)) / Roi.PROJ_discount_rate.

Definition fade_factor : Q :=
  annuity 5
  + 0.8 * annuity 5 / (1 + Roi.PROJ_discount_rate) ^ 5
  + 0.6 * annuity 15 / (1 + Roi.PROJ_discount_rate) ^ 10.

(** What one journey adds to the measured wage gains: its annual income
    change when that is a positive number, nothing otherwise. *)
Definition gain_of (j : jdict) : Q :=
  match Roi.cell_float (jget j "income_change_annual") with
  | Fin q => if Qltb 0 q then q else 0
  | NaN => 0
  end.

Definition positive_gains (journeys : list jdict) : Q :=
  foldr (fun j acc => (gain_of j + acc)%Q) 0%Q journeys.

(** The journeys flagged as graduates. *)
Definition flagged_graduate (j : jdict) : bool :=
  match jget j "is_graduate" with
  | VBool b => b
  | _ => false
  end.

(** A cell of a boolean column. *)
Definition is_flag (v : value) : bool :=
  match v with
  | VBool _ => true
  | _ => false
  end.

(** The journey table has the columns the success metrics read: at least
    one journey carries each of the three figures and the tier, the figures
    of every journey are numbers or null, and every journey has a boolean
    [is_graduate]. *)
Definition metrics_columns (journeys : list jdict) : bool :=
  existsb (has_key "income_change_annual") journeys
  && existsb (has_key "current_fpl") journeys
  && existsb (has_key "fpl_change") journeys
  && existsb (has_key "cliff_tier") journeys
  && forallb (fun j => is_num (jget j "income_change_annual")
                       && is_num (jget j "current_fpl")
                       && is_num (jget j "fpl_change")
                       && is_flag (jget j "is_graduate")) journeys.

(** Every journey flagged as a graduate has a [current_fpl]. *)
Definition graduates_have_fpl (journeys : list jdict) : bool :=
  forallb (fun j => implb (flagged_graduate j)
                      (negb (fl_isnan (Roi.cell_float (jget j "current_fpl")))))
          journeys.

(** A journey table of three participants: a graduate with a wage gain, a
    participant with a wage loss and one without figures. *)
Definition journeys_sample : list jdict :=
  [ <["income_change_annual" := VNum 5200]>
      (<["current_fpl" := VNum 230]>
         (<["fpl_change" := VNum 40]>
            (<["is_graduate" := VBool true]>
               {["cliff_tier" := VStr "graduated"]})));
    <["income_change_annual" := VNum (-1200)]>
      (<["current_fpl" := VNum 120]>
         (<["fpl_change" := VNum (-10)]>
            (<["is_graduate" := VBool false]>
               {["cliff_tier" := VStr "snap_tenncare"]})));
    <["is_graduate" := VBool false]> {["cliff_tier" := VStr "unknown"]} ].

(** A navigator tracking sheet of one participant, and what the aggregation
    by navigator makes of it. *)
Definition nav_sample : DataFrame :=
  {| columns := ["navigator"; "participant_id"; "fpl_change"; "wage_change"];
     rows := [[VStr "Ann"; VInt 1; VNum 40; VNum 5200]] |}.

Definition nav_sample_performance : pyobj :=
  PDict [("Ann", PDict [("caseload", PNum 1);
                        ("avg_fpl_change", PNum 40);
                        ("avg_wage_change", PNum 5200);
                        ("total_wage_gains", PNum 5200)])].

(** The number of cells of a column that hold the string [t]. *)
Definition occurrences (t : string) (cells : list value) : Z :=
  Z.of_nat (length (List.filter
    (fun v => match v with VStr s => String.eqb s t | _ => false end) cells)).

(** ** The stages of [build_single_journey]

    The journey after each section of the function, for the records
    selected for one participant. *)
Definition journey_stages `{Parsers} (pid : Z)
    (intake_rec baseline_rec quarterly_recs : DataFrame)
    (emp_rec : list Journey.EmpowerRow) (confirmed : bool)
    (j1 j2 j3 j4 j5 j6 j7 j8 : jdict) : Prop :=
  let j0 : jdict := {["participant_id" := VInt pid]} in
  match emp_rec with
  | emp_row :: _ => Journey.empower_section emp_row j0
  | [] => Some j0
  end = Some j1 /\
  match iloc_first intake_rec with
  | Some row => Journey.intake_section row j1
  | None => Some j1
  end = Some j2 /\
  match iloc_first baseline_rec with
  | Some row => Journey.baseline_section row j2
  | None => Some j2
  end = Some j3 /\
  (if 0 <? len quarterly_recs
   then Journey.quarterly_section quarterly_recs j3 else Some j3) = Some j4 /\
  Journey.fallback_income j4 = Some j5 /\
  Journey.fallback_fpl j5 = Some j6 /\
  Journey.days_section j6 = Some j7 /\
  Journey.outcome_section confirmed j7 = Some j8 /\
  (well_typed j1 /\ well_typed j2 /\ well_typed j3 /\ well_typed j4 /\
   well_typed j5 /\ well_typed j6 /\ well_typed j7 /\ well_typed j8) /\
  agree_off empower_keys j0 j1 /\ agree_off intake_keys j1 j2 /\
  agree_off baseline_keys j2 j3 /\ agree_off quarterly_keys j3 j4 /\
  agree_off fallback_income_keys j4 j5 /\ agree_off fallback_fpl_keys j5 j6 /\
  agree_off days_keys j6 j7 /\ agree_off outcome_keys j7 j8.

(** [(v or 0) > 0] on a journey field: the field holds a positive number. *)
Definition positive (v : value) : bool :=
  match as_fl v with
  | Some (Fin q) => Qltb 0 q
  | _ => false
  end.

(** The flag [has_positive_income_change], where it is set, says whether
    [income_change_annual] holds a positive number. *)
Definition income_flag_ok (j : jdict) : Prop :=
  forall v, j !! "has_positive_income_change" = Some v ->
    v = VBool (positive (jget j "income_change_annual")).

(** [fpl_change] is set exactly when [current_fpl] and [enrollment_fpl] are
    both truthy, and is their difference. *)
Definition fpl_change_ok (j : jdict) : Prop :=
  j !! "fpl_change" =
  if truthy (jget j "current_fpl") && truthy (jget j "enrollment_fpl")
  then py_sub (jget j "current_fpl") (jget j "enrollment_fpl")
  else None.

(** The participant IDs of the journey table, top to bottom. *)
Definition table_ids (table : list jdict) : list value :=
  map (fun j => jget j "participant_id") table.

(** A name matches a column label when, in lower case, it is a fragment of
    it. *)
Definition matches (name label : string) : bool := has (lower name) label.

(** A frame whose rows all have one cell for each column. *)
Definition rectangular (df : DataFrame) : Prop :=
  Forall (fun r => length r = length (columns df)) (rows df).

(** Rows in ascending order of a date key, missing dates last. *)
Fixpoint ordered_by (key : list value -> value) (l : list (list value)) : Prop :=
  match l with
  | [] => True
  | x :: l' => Forall (fun y => date_le (key x) (key y) = true) l' /\ ordered_by key l'
  end.

(** The income figures of the fallback calculation: where they are set, the
    enrollment income is the first quarterly income or else the baseline
    income, the current income the last quarterly income or else the first,
    the monthly change their difference and the annual change 12 times the
    monthly one. *)
Definition income_change_ok (j : jdict) : Prop :=
  (forall e, j !! "enrollment_monthly_income" = Some e ->
     e = py_or (jget j "first_quarterly_monthly_income")
               (jget j "baseline_monthly_income")) /\
  (forall c, j !! "current_monthly_income" = Some c ->
     c = py_or (jget j "last_quarterly_monthly_income")
               (jget j "first_quarterly_monthly_income")) /\
  (forall m, j !! "income_change_monthly" = Some m ->
     py_sub (jget j "current_monthly_income") (jget j "enrollment_monthly_income")
       = Some m /\
     py_mul m (VInt 12) = Some (jget j "income_change_annual")).

(** [baseline_monthly_income] is set exactly when the hourly wage is truthy,
    and is the wage times 40 hours times 4.33 weeks. *)
Definition baseline_income_ok (j : jdict) : Prop :=
  j !! "baseline_monthly_income" =
  if truthy (jget j "baseline_hourly_wage")
  then w40 ← py_mul (jget j "baseline_hourly_wage") (VInt 40);
       py_mul w40 (VNum 4.33)
  else None.

(** A journey table of two journeys: a wage gain of 1250 in the tier
    "deep_cliff" and a wage loss of 600 without an FPL. *)
Definition journeys_gain_and_loss : list jdict :=
  [ <["income_change_annual" := VNum 1250]> {["cliff_tier" := VStr "deep_cliff"]};
    <["income_change_annual" := VNum (-600)]> {["cliff_tier" := VStr "unknown"]} ].
Section DictLemmas.

Lemma lookup_insert_str (j : jdict) (k k' : string) (v : value) :
  <[k:=v]> j !! k' = if String.eqb k' k then Some v else j !! k'.
Proof.
  destruct (String.eqb_spec k' k) as [->|Hne].
  - apply lookup_insert_eq.
  - by apply lookup_insert_ne.
Qed.

Lemma jget_insert (j : jdict) (k k' : string) (v : value) :
  jget (<[k:=v]> j) k' = if String.eqb k' k then v else jget j k'.
Proof.
  unfold jget. rewrite lookup_insert_str. by destruct (String.eqb k' k).
Qed.

Lemma well_typed_insert (j : jdict) (k : string) (v : value) :
  well_typed j -> key_ok k v = true -> well_typed (<[k:=v]> j).
Proof.
  intros Hj Hv k' v'. rewrite lookup_insert_str.
  destruct (String.eqb_spec k' k) as [->|Hne]; [by intros [= <-] | apply Hj].
Qed.

Lemma well_typed_jget (j : jdict) (k : string) :
  well_typed j -> key_ok k (jget j k) = true.
Proof.
  intros Hj. unfold jget. destruct (j !! k) as [v|] eqn:E; simpl.
  - by apply Hj.
  - unfold key_ok. by repeat case_match.
Qed.

Lemma jget_is_num (j : jdict) (k : string) :
  well_typed j -> mem k num_keys = true -> is_num (jget j k) = true.
Proof.
  intros Hj Hk. pose proof (well_typed_jget j k Hj) as E.
  unfold key_ok in E. by rewrite Hk in E.
Qed.

Lemma jget_is_date (j : jdict) (k : string) :
  well_typed j -> mem k num_keys = false -> mem k date_keys = true ->
  is_date (jget j k) = true.
Proof.
  intros Hj Hn Hk. pose proof (well_typed_jget j k Hj) as E.
  unfold key_ok in E. by rewrite Hn, Hk in E.
Qed.

Lemma well_typed_singleton (k : string) (v : value) :
  key_ok k v = true -> well_typed ({[k := v]} : jdict).
Proof.
  intros Hv k' v'. intros [-> ->]%lookup_singleton_Some. done.
Qed.

(** A truthy field is present in the dictionary. *)
Lemma truthy_jget_lookup (j : jdict) (k : string) :
  truthy (jget j k) = true -> j !! k = Some (jget j k).
Proof.
  unfold jget. by destruct (j !! k).
Qed.

End DictLemmas.

Section NumberLemmas.

Lemma is_number_is_num v : is_number v = true -> is_num v = true.
Proof. by destruct v. Qed.

Lemma is_num_truthy v : is_num v = true -> truthy v = true -> is_number v = true.
Proof. by destruct v. Qed.

Lemma is_number_as_fl v : is_number v = true -> exists f, as_fl v = Some f.
Proof. destruct v; try done; eauto. Qed.

Lemma py_arith_number iop fop a b :
  is_number a = true -> is_number b = true ->
  exists v, py_arith iop fop a b = Some v /\ is_number v = true.
Proof. destruct a, b; try done; intros _ _; eexists; split; reflexivity. Qed.

Lemma py_cmp_number test a b :
  is_number a = true -> is_number b = true ->
  exists r, py_cmp test a b = Some r.
Proof. destruct a, b; try done; intros _ _; eexists; reflexivity. Qed.

Lemma py_or_number a b :
  is_num a = true -> is_number b = true -> is_number (py_or a b) = true.
Proof.
  intros Ha Hb. unfold py_or. destruct (truthy a) eqn:E; [|done].
  by apply is_num_truthy.
Qed.

Lemma poverty_line_pos (h : Z) :
  0 < Journey.FPL_BASE + Journey.FPL_PER_ADDITIONAL * (Z.max 1 h - 1).
Proof. unfold Journey.FPL_BASE, Journey.FPL_PER_ADDITIONAL. lia. Qed.

Lemma Qeq_bool_inject_Z_pos (z : Z) : 0 < z -> Qeq_bool (inject_Z z) 0 = false.
Proof.
  intros Hz. destruct (Qeq_bool (inject_Z z) 0) eqn:E; [|done].
  apply Qeq_bool_eq in E. unfold Qeq in E. simpl in E. lia.
Qed.

(** [calculate_fpl_pct] never raises on a numeric income and a numeric
    household size, and yields a float or [None]. *)
Lemma calculate_fpl_pct_total income hh :
  is_number income = true -> is_number hh = true ->
  exists v, Journey.calculate_fpl_pct income hh = Some v /\ is_num v = true.
Proof.
  intros Hi Hh. unfold Journey.calculate_fpl_pct.
  destruct (isna income) eqn:Ena; simpl; [by eexists|].
  destruct (py_cmp_number fl_le income (VInt 0) Hi eq_refl) as [r Hr].
  unfold py_le. rewrite Hr. simpl. destruct r; [by eexists|].
  assert (exists h, (if notna hh then Z.max 1 <$> py_int hh else Some 3)
                    = Some (Z.max 1 h)) as [h ->].
  { destruct hh as [|[|q]|z| | | |]; try done; simpl; eauto.
    by exists 3. }
  simpl.
  assert (exists q, py_div income
            (VInt (Journey.FPL_BASE + Journey.FPL_PER_ADDITIONAL * (Z.max 1 h - 1)))
          = Some (VNum q)) as [q ->].
  { pose proof (Qeq_bool_inject_Z_pos _ (poverty_line_pos h)) as E.
    destruct income as [|[|p]|z| | | |]; try done; unfold py_div; simpl;
      rewrite E; eauto. }
  simpl. by eexists.
Qed.

Lemma Qltb_true a b : Qltb a b = true <-> (a < b)%Q.
Proof.
  unfold Qltb. rewrite negb_true_iff.
  split.
  - intros E. apply Qnot_le_lt. intros Hle. apply Qle_bool_iff in Hle. congruence.
  - intros Hlt. destruct (Qle_bool b a) eqn:E; [|done].
    apply Qle_bool_iff in E. lra.
Qed.

Lemma Qltb_false a b : Qltb a b = false <-> (b <= a)%Q.
Proof.
  unfold Qltb. rewrite negb_false_iff. apply Qle_bool_iff.
Qed.

End NumberLemmas.

Lemma key_ok_num k v : mem k num_keys = true -> is_num v = true -> key_ok k v = true.
Proof. unfold key_ok. by intros ->. Qed.

Lemma key_ok_date k v :
  mem k num_keys = false -> mem k date_keys = true -> is_date v = true ->
  key_ok k v = true.
Proof. unfold key_ok. by intros -> ->. Qed.

Lemma key_ok_other k v :
  mem k num_keys = false -> mem k date_keys = false -> key_ok k v = true.
Proof. unfold key_ok. by intros -> ->. Qed.

Lemma well_typed_if (b : bool) (j j' : jdict) :
  well_typed j -> well_typed j' -> well_typed (if b then j else j').
Proof. by destruct b. Qed.

Lemma agree_off_refl L j : agree_off L j j.
Proof. by intros k _. Qed.

Lemma agree_off_insert L j j' k v :
  agree_off L j j' -> mem k L = true -> agree_off L j (<[k:=v]> j').
Proof.
  intros Hj Hk k' Hk'. rewrite lookup_insert_str.
  destruct (String.eqb_spec k' k) as [->|_]; [congruence | by apply Hj].
Qed.

Lemma agree_off_if L (b : bool) j j1 j2 :
  agree_off L j j1 -> agree_off L j j2 -> agree_off L j (if b then j1 else j2).
Proof. by destruct b. Qed.

Lemma agree_off_trans L j j1 j2 :
  agree_off L j j1 -> agree_off L j1 j2 -> agree_off L j j2.
Proof. intros H1 H2 k Hk. rewrite (H2 k Hk). by apply H1. Qed.

Lemma agree_off_weaken L L' j j' :
  (forall k, mem k L' = false -> mem k L = false) ->
  agree_off L j j' -> agree_off L' j j'.
Proof. intros HL Hj k Hk. apply Hj. by apply HL. Qed.

Ltac key_ok_tac :=
  first [ apply key_ok_other; reflexivity
        | apply key_ok_num; [reflexivity|]
        | apply key_ok_date; [reflexivity|reflexivity|] ].

Ltac wt_tac :=
  repeat first [ assumption
               | apply well_typed_if
               | apply well_typed_insert; [|key_ok_tac] ].

Ltac agree_tac :=
  repeat first [ assumption
               | apply agree_off_refl
               | apply agree_off_if
               | apply agree_off_insert; [|reflexivity] ].

Section SectionLemmas.
Context `{Parsers}.

Lemma get_numeric_is_num row names : is_num (Journey.get_numeric row names) = true.
Proof.
  unfold Journey.get_numeric.
  destruct (Journey.get_field row names); try done;
    by destruct (Journey.py_float _).
Qed.

Lemma parse_date_is_date v : is_date (Journey.parse_date v) = true.
Proof.
  unfold Journey.parse_date. destruct (isna v); [done|].
  destruct v; try done; by destruct (to_datetime _) as [[?|]|].
Qed.

(** Both operands of a truthy [a and b] are truthy. *)
Lemma truthy_py_and a b :
  truthy (py_and a b) = true -> truthy a = true /\ truthy b = true.
Proof. unfold py_and. destruct (truthy a) eqn:E; [done | by rewrite E]. Qed.

(** [journey[a] - journey[b]] behind a truthiness test of both fields. *)
Lemma sub_fields_ok (j : jdict) a b :
  well_typed j -> mem a num_keys = true -> mem b num_keys = true ->
  truthy (py_and (jget j a) (jget j b)) = true ->
  exists x y d, j !! a = Some x /\ j !! b = Some y /\
    py_sub x y = Some d /\ is_number d = true.
Proof.
  intros Hj Ha Hb [Ta Tb]%truthy_py_and.
  pose proof (is_num_truthy _ (jget_is_num j a Hj Ha) Ta) as Na.
  pose proof (is_num_truthy _ (jget_is_num j b Hj Hb) Tb) as Nb.
  destruct (py_arith_number Z.sub fl_sub _ _ Na Nb) as (d & Hd & Nd).
  exists (jget j a), (jget j b), d.
  by rewrite !truthy_jget_lookup.
Qed.

Lemma empower_section_ok emp_row (j : jdict) :
  well_typed j ->
  exists j', Journey.empower_section emp_row j = Some j' /\ well_typed j' /\
    agree_off empower_keys j j' /\
    j' !! "household_size" =
      empower_field (Journey.empower_household_size emp_row) (j !! "household_size") /\
    j' !! "income_change_annual" =
      empower_field (Journey.empower_wage_gain emp_row) (j !! "income_change_annual") /\
    j' !! "current_fpl" =
      empower_field (Journey.empower_fpl_current emp_row) (j !! "current_fpl") /\
    j' !! "enrollment_fpl" =
      empower_field (Journey.empower_fpl_enrollment emp_row) (j !! "enrollment_fpl").
Proof.
  intros Hj. unfold Journey.empower_section.
  match goal with
  | |- context [truthy (py_and (jget ?j3 "current_fpl") _)] => set (j3' := j3)
  end.
  assert (Hj3 : well_typed j3') by (subst j3'; wt_tac; done).
  assert (Hf3 : agree_off empower_keys j j3') by (subst j3'; agree_tac).
  assert (Hh3 : j3' !! "household_size" = j !! "household_size").
  { subst j3'. repeat case_match; by rewrite ?lookup_insert_str. }
  assert (Hw3 : j3' !! "income_change_annual" =
                empower_field (Journey.empower_wage_gain emp_row)
                  (j !! "income_change_annual")).
  { subst j3'. destruct (Journey.empower_wage_gain emp_row);
      destruct (Journey.empower_fpl_current emp_row);
      destruct (Journey.empower_fpl_enrollment emp_row);
      simpl; by rewrite ?lookup_insert_str. }
  assert (Hc3 : j3' !! "current_fpl" =
                empower_field (Journey.empower_fpl_current emp_row)
                  (j !! "current_fpl")).
  { subst j3'. destruct (Journey.empower_wage_gain emp_row);
      destruct (Journey.empower_fpl_current emp_row);
      destruct (Journey.empower_fpl_enrollment emp_row);
      simpl; by rewrite ?lookup_insert_str. }
  assert (He3 : j3' !! "enrollment_fpl" =
                empower_field (Journey.empower_fpl_enrollment emp_row)
                  (j !! "enrollment_fpl")).
  { subst j3'. destruct (Journey.empower_wage_gain emp_row);
      destruct (Journey.empower_fpl_current emp_row);
      destruct (Journey.empower_fpl_enrollment emp_row);
      simpl; by rewrite ?lookup_insert_str. }
  clearbody j3'.
  assert (forall (j4 : jdict),
    let j7 :=
      (if notna (Journey.empower_navigator emp_row)
       then <["navigator" := Journey.empower_navigator emp_row]>
       else id)
        (if notna (VFloat (Journey.empower_household_size emp_row))
         then <["household_size" := VFloat (Journey.empower_household_size emp_row)]>
                (if notna (Journey.empower_county emp_row)
                 then <["county" := Journey.empower_county emp_row]> j4 else j4)
         else (if notna (Journey.empower_county emp_row)
               then <["county" := Journey.empower_county emp_row]> j4 else j4)) in
    j7 !! "household_size" =
      empower_field (Journey.empower_household_size emp_row) (j4 !! "household_size") /\
    j7 !! "income_change_annual" = j4 !! "income_change_annual" /\
    j7 !! "current_fpl" = j4 !! "current_fpl" /\
    j7 !! "enrollment_fpl" = j4 !! "enrollment_fpl") as Htail.
  { intros j4.
    destruct (Journey.empower_household_size emp_row);
      destruct (notna (Journey.empower_navigator emp_row));
      destruct (notna (Journey.empower_county emp_row));
      simpl; rewrite ?lookup_insert_str; simpl; done. }
  destruct (truthy (py_and _ _)) eqn:E.
  - destruct (sub_fields_ok j3' "current_fpl" "enrollment_fpl" Hj3 eq_refl eq_refl E)
      as (c & e & d & -> & -> & Hd & Nd).
    simpl. rewrite Hd. simpl.
    destruct (Htail (<["fpl_change" := d]> j3')) as (T1 & T2 & T3 & T4).
    rewrite lookup_insert_str in T1, T2, T3, T4. simpl in T1, T2, T3, T4.
    rewrite Hh3 in T1. rewrite Hw3 in T2. rewrite Hc3 in T3. rewrite He3 in T4.
    eexists; split; [reflexivity|]. split; [|split; [|split; [|split; [|split]]]].
    + wt_tac; first [done | by apply is_number_is_num].
    + agree_tac.
    + etrans; [|exact T1]. by repeat case_match.
    + etrans; [|exact T2]. by repeat case_match.
    + etrans; [|exact T3]. by repeat case_match.
    + etrans; [|exact T4]. by repeat case_match.
  - simpl.
    destruct (Htail j3') as (T1 & T2 & T3 & T4).
    rewrite Hh3 in T1. rewrite Hw3 in T2. rewrite Hc3 in T3. rewrite He3 in T4.
    eexists; split; [reflexivity|]. split; [|split; [|split; [|split; [|split]]]].
    + wt_tac; done.
    + agree_tac.
    + etrans; [|exact T1]. by repeat case_match.
    + etrans; [|exact T2]. by repeat case_match.
    + etrans; [|exact T3]. by repeat case_match.
    + etrans; [|exact T4]. by repeat case_match.
Qed.

Lemma py_or_lit_number (j : jdict) k (z : Z) :
  well_typed j -> mem k num_keys = true ->
  is_number (py_or (jget j k) (VInt z)) = true.
Proof. intros Hj Hk. apply py_or_number; [by apply jget_is_num | done]. Qed.

Lemma intake_section_ok row (j : jdict) :
  well_typed j ->
  exists j', Journey.intake_section row j = Some j' /\ well_typed j' /\
    agree_off intake_keys j j' /\
    j' !! "household_size" =
      if truthy (jget j "household_size") then j !! "household_size"
      else household_size_from_intake row.
Proof.
  intros Hj. unfold Journey.intake_section, household_size_from_intake.
  match goal with
  | |- context [negb (truthy (jget ?j5 "household_size"))] => set (j5' := j5)
  end.
  assert (Hj5 : well_typed j5').
  { subst j5'. wt_tac; first [apply get_numeric_is_num | apply parse_date_is_date]. }
  assert (Hf5 : agree_off intake_keys j j5') by (subst j5'; agree_tac).
  assert (Hh5 : j5' !! "household_size" = j !! "household_size").
  { subst j5'. repeat case_match; by rewrite ?lookup_insert_str. }
  assert (Ha5 : jget j5' "household_adults" =
                Journey.get_numeric row ["how many adults"; "adults currently live"]).
  { subst j5'. by rewrite !jget_insert. }
  assert (Hc5 : jget j5' "household_children" =
                Journey.get_numeric row ["how many children"; "children currently live"]).
  { subst j5'. by rewrite !jget_insert. }
  clearbody j5'.
  assert (jget j5' "household_size" = jget j "household_size") as ->.
  { unfold jget. by rewrite Hh5. }
  destruct (truthy (jget j "household_size")); simpl.
  - eexists; split; [reflexivity|]. split; [done|]. split; [agree_tac | done].
  - destruct (py_arith_number Z.add fl_add _ _
                (py_or_lit_number j5' "household_adults" 1 Hj5 eq_refl)
                (py_or_lit_number j5' "household_children" 2 Hj5 eq_refl))
      as (size & Hs & Ns).
    unfold py_add. rewrite Hs. simpl.
    eexists; split; [reflexivity|]. split; [|split].
    + wt_tac. by apply is_number_is_num.
    + agree_tac.
    + rewrite lookup_insert_eq, <- Hs. by rewrite Ha5, Hc5.
Qed.

Lemma baseline_section_ok row (j : jdict) :
  well_typed j ->
  exists j', Journey.baseline_section row j = Some j' /\ well_typed j' /\
    agree_off baseline_keys j j'.
Proof.
  intros Hj. unfold Journey.baseline_section.
  set (j1 := <["baseline_hourly_wage" := _]> (<["baseline_date" := _]> j)).
  assert (Hj1 : well_typed j1).
  { subst j1. wt_tac; first [apply get_numeric_is_num | apply parse_date_is_date]. }
  assert (Hf1 : agree_off baseline_keys j j1) by (subst j1; agree_tac).
  clearbody j1.
  destruct (truthy (jget j1 "baseline_hourly_wage")) eqn:E.
  - rewrite (truthy_jget_lookup _ _ E). simpl. unfold py_mul.
    pose proof (is_num_truthy _ (jget_is_num j1 "baseline_hourly_wage" Hj1 eq_refl) E) as Hw.
    destruct (py_arith_number Z.mul fl_mul _ (VInt 40) Hw eq_refl) as (w40 & -> & Hw40).
    simpl.
    destruct (py_arith_number Z.mul fl_mul _ (VNum 4.33) Hw40 eq_refl) as (m & -> & Hm).
    simpl. eexists; split; [reflexivity|]. split.
    + wt_tac. by apply is_number_is_num.
    + agree_tac.
  - eexists; split; [reflexivity|]. split; [done | agree_tac].
Qed.

Lemma py_or_num a b : is_num a = true -> is_num b = true -> is_num (py_or a b) = true.
Proof. intros Ha Hb. unfold py_or. by destruct (truthy a). Qed.

Lemma truthy_field_number (j : jdict) k :
  well_typed j -> mem k num_keys = true -> truthy (jget j k) = true ->
  j !! k = Some (jget j k) /\ is_number (jget j k) = true.
Proof.
  intros Hj Hk Tk. split; [by apply truthy_jget_lookup|].
  apply is_num_truthy; [by apply jget_is_num | done].
Qed.

Lemma length_insert_row key x l : length (insert_row key x l) = S (length l).
Proof.
  induction l as [|y l IH]; [done|]. simpl.
  destruct (date_le _ _); simpl; by rewrite ?IH.
Qed.

Lemma length_sort_values df label :
  length (rows (sort_values df label)) = length (rows df).
Proof.
  unfold sort_values. simpl. induction (rows df) as [|r l IH]; [done|].
  simpl. by rewrite length_insert_row, IH.
Qed.

Lemma length_set_column df label cells :
  length cells = length (rows df) ->
  length (rows (set_column df label cells)) = length (rows df).
Proof.
  intros Hl. unfold set_column.
  destruct (existsb _ _); simpl; rewrite length_zip_with; lia.
Qed.

Lemma iloc_first_is_Some df :
  (0 < length (rows df))%nat -> exists r, iloc_first df = Some r.
Proof.
  unfold iloc_first. destruct (rows df); simpl; [lia | eauto].
Qed.

Lemma iloc_last_is_Some df :
  (0 < length (rows df))%nat -> exists r, iloc_last df = Some r.
Proof.
  unfold iloc_last. intros Hl.
  destruct (list.last (rows df)) as [r|] eqn:E; simpl; [eauto|].
  apply last_None in E. rewrite E in Hl. simpl in Hl. lia.
Qed.

Lemma quarterly_section_ok recs (j : jdict) :
  0 < len recs -> well_typed j ->
  exists j', Journey.quarterly_section recs j = Some j' /\ well_typed j' /\
    agree_off quarterly_keys j j'.
Proof.
  intros Hl Hj. unfold Journey.quarterly_section.
  match goal with
  | |- context [iloc_first ?df] => set (sorted := df)
  end.
  assert (Hs : (0 < length (rows sorted))%nat).
  { subst sorted. rewrite length_sort_values, length_set_column.
    - unfold len in Hl. lia.
    - by rewrite length_map. }
  destruct (iloc_first_is_Some _ Hs) as [first_q ->].
  destruct (iloc_last_is_Some _ Hs) as [last_q ->].
  simpl. eexists; split; [reflexivity|]. split.
  - wt_tac; first [apply get_numeric_is_num | apply parse_date_is_date].
  - agree_tac.
Qed.

Lemma gt_or0_ok (j : jdict) k :
  well_typed j -> mem k num_keys = true ->
  exists pos, py_gt (py_or (jget j k) (VInt 0)) (VInt 0) = Some pos.
Proof.
  intros Hj Hk. apply py_cmp_number; [by apply py_or_lit_number | done].
Qed.

Lemma fallback_income_ok (j : jdict) :
  well_typed j ->
  exists j', Journey.fallback_income j = Some j' /\ well_typed j' /\
    agree_off fallback_income_keys j j'.
Proof.
  intros Hj. unfold Journey.fallback_income.
  destruct (negb _); [|eexists; split; [reflexivity|]; split; [done|agree_tac]].
  match goal with
  | |- context [truthy (py_and (jget ?j2 "enrollment_monthly_income") _)] =>
      set (j2' := j2)
  end.
  assert (Hj2 : well_typed j2').
  { assert (forall (j0 : jdict) a b, well_typed j0 ->
              mem a num_keys = true -> mem b num_keys = true ->
              is_num (py_or (jget j0 a) (jget j0 b)) = true) as Hor.
    { intros j0 a b H0 Ha Hb. apply py_or_num; by apply jget_is_num. }
    subst j2'. wt_tac; apply Hor; try reflexivity; wt_tac.
    by apply Hor. }
  assert (Hf2 : agree_off fallback_income_keys j j2') by (subst j2'; agree_tac).
  clearbody j2'.
  destruct (truthy (py_and _ _)) eqn:E;
    [|eexists; split; [reflexivity|]; split; [done|agree_tac]].
  apply truthy_py_and in E as [Te Tc].
  destruct (truthy_field_number j2' "enrollment_monthly_income" Hj2 eq_refl Te)
    as [-> Ne].
  destruct (truthy_field_number j2' "current_monthly_income" Hj2 eq_refl Tc)
    as [-> Nc].
  simpl.
  destruct (py_arith_number Z.sub fl_sub _ _ Nc Ne) as (m & Hm & Nm).
  unfold py_sub. rewrite Hm. simpl.
  rewrite lookup_insert_eq. simpl.
  destruct (py_arith_number Z.mul fl_mul m (VInt 12) Nm eq_refl) as (a & Ha & Na).
  unfold py_mul. rewrite Ha. simpl.
  match goal with
  | |- context [py_gt (py_or (jget ?j4 _) _) _] => set (j4' := j4)
  end.
  assert (Hj4 : well_typed j4').
  { subst j4'. wt_tac; by apply is_number_is_num. }
  destruct (gt_or0_ok j4' "income_change_annual" Hj4 eq_refl) as [pos ->].
  simpl. eexists; split; [reflexivity|]. split.
  - wt_tac.
  - subst j4'. agree_tac.
Qed.

Lemma fpl_step_ok L (j : jdict) src dst hh :
  well_typed j -> mem src num_keys = true -> mem dst num_keys = true ->
  mem dst L = true -> is_number hh = true ->
  exists j',
    (if truthy (jget j src)
     then m ← j !! src;
          annual ← py_mul m (VInt 12);
          fpl ← Journey.calculate_fpl_pct annual hh;
          Some (<[dst := fpl]> j)
     else Some j) = Some j' /\ well_typed j' /\ agree_off L j j'.
Proof.
  intros Hj Hs Hd HL Nh.
  destruct (truthy (jget j src)) eqn:E;
    [|eexists; split; [reflexivity|]; split; [done|agree_tac]].
  destruct (truthy_field_number j _ Hj Hs E) as [-> Nm]. simpl.
  destruct (py_arith_number Z.mul fl_mul _ (VInt 12) Nm eq_refl) as (a & Ha & Na).
  unfold py_mul at 1. rewrite Ha. simpl.
  destruct (calculate_fpl_pct_total a hh Na Nh) as (fpl & -> & Nf). simpl.
  eexists; split; [reflexivity|]. split.
  - apply well_typed_insert; [done|]. by apply key_ok_num.
  - by apply agree_off_insert; [apply agree_off_refl|].
Qed.

Lemma fallback_fpl_ok (j : jdict) :
  well_typed j ->
  exists j', Journey.fallback_fpl j = Some j' /\ well_typed j' /\
    agree_off fallback_fpl_keys j j'.
Proof.
  intros Hj. unfold Journey.fallback_fpl.
  destruct (negb _); [|eexists; split; [reflexivity|]; split; [done|agree_tac]].
  pose proof (py_or_lit_number j "household_size" 3 Hj eq_refl) as Nh.
  destruct (fpl_step_ok fallback_fpl_keys j "enrollment_monthly_income"
              "enrollment_fpl" _ Hj eq_refl eq_refl eq_refl Nh)
    as (j1 & -> & Hj1 & Hf1).
  simpl.
  destruct (fpl_step_ok fallback_fpl_keys j1 "current_monthly_income"
              "current_fpl" _ Hj1 eq_refl eq_refl eq_refl Nh)
    as (j2 & -> & Hj2 & Hf2).
  simpl.
  pose proof (agree_off_trans _ _ _ _ Hf1 Hf2) as Hf.
  destruct (truthy (py_and _ _)) eqn:E;
    [|eexists; split; [reflexivity|]; split; [done|agree_tac]].
  apply truthy_py_and in E as [Te Tc].
  destruct (truthy_field_number j2 "enrollment_fpl" Hj2 eq_refl Te) as [-> Ne].
  destruct (truthy_field_number j2 "current_fpl" Hj2 eq_refl Tc) as [-> Nc].
  simpl.
  destruct (py_arith_number Z.sub fl_sub _ _ Nc Ne) as (d & Hd & Nd).
  unfold py_sub. rewrite Hd. simpl.
  eexists; split; [reflexivity|]. split.
  - wt_tac. by apply is_number_is_num.
  - agree_tac.
Qed.

(** The guards of the fallback calculations: a truthy field switches the
    calculation off. *)
Lemma fallback_income_skips (j : jdict) :
  truthy (jget j "income_change_annual") = true ->
  Journey.fallback_income j = Some j.
Proof. intros Ht. unfold Journey.fallback_income. by rewrite Ht. Qed.

Lemma fallback_fpl_skips (j : jdict) :
  truthy (jget j "current_fpl") = true ->
  Journey.fallback_fpl j = Some j.
Proof. intros Ht. unfold Journey.fallback_fpl. by rewrite Ht. Qed.

Lemma py_or_dates a b c :
  is_date a = true -> is_date b = true -> is_date c = true ->
  py_or a (py_or b c) = first_present [a; b; c].
Proof. by destruct a, b, c. Qed.

Lemma days_section_ok (j : jdict) :
  well_typed j ->
  exists j', Journey.days_section j = Some j' /\ well_typed j' /\
    agree_off days_keys j j' /\ days_spec j'.
Proof.
  intros Hj. unfold Journey.days_section, days_spec.
  pose proof (jget_is_date j "enrollment_date" Hj eq_refl eq_refl) as D1.
  pose proof (jget_is_date j "baseline_date" Hj eq_refl eq_refl) as D2.
  pose proof (jget_is_date j "first_quarterly_date" Hj eq_refl eq_refl) as D3.
  pose proof (jget_is_date j "last_quarterly_date" Hj eq_refl eq_refl) as D4.
  rewrite !py_or_dates by done.
  set (e := first_present [_; _; _]). set (l := first_present [_; _; _]).
  assert (De : is_date e = true).
  { subst e. simpl. by repeat case_match. }
  assert (Dl : is_date l = true).
  { subst l. simpl. by repeat case_match. }
  assert (exists j', (if truthy (py_and e l)
             then d ← days_between l e; Some (<["days_in_program" := d]> j)
             else Some (<["days_in_program" := VNone]> j))
            = Some j' /\ j' = <["days_in_program" := days_value e l]> j)
    as (j' & -> & ->).
  { destruct e, l; try done; simpl; eexists; split; reflexivity. }
  eexists; split; [reflexivity|]. split; [|split].
  - wt_tac.
  - agree_tac.
  - rewrite lookup_insert_eq, !jget_insert. reflexivity.
Qed.

Lemma Qle_bool_225 q : Qle_bool (inject_Z 225) q = true <-> (225 <= q)%Q.
Proof. apply Qle_bool_iff. Qed.

Lemma fpl_at_least_float q t : fpl_at_least (VFloat (Fin q)) t <-> (t <= q)%Q.
Proof.
  split; [by intros (q' & [= <-] & Hq) | intros Hq; by exists q].
Qed.

Lemma fpl_at_least_int z t : fpl_at_least (VInt z) t <-> (t <= inject_Z z)%Q.
Proof.
  split; [by intros (q' & [= <-] & Hq) | intros Hq; by eexists].
Qed.

Lemma ge_or0_spec v :
  is_num v = true ->
  exists b, py_ge (py_or v (VInt 0)) (VInt 225) = Some b /\
    (b = true <-> fpl_at_least v 225).
Proof.
  destruct v as [|[|q]|z| | | |]; try done; intros _.
  - exists false. split; [done|]. split; [done|]. by intros (q & [=] & _).
  - exists false. split; [done|]. split; [done|]. by intros (q & [=] & _).
  - unfold py_or. simpl. destruct (Qeq_bool q 0) eqn:E; simpl.
    + exists false. split; [done|]. split; [done|].
      intros Hq%fpl_at_least_float. apply Qeq_bool_eq in E.
      rewrite E in Hq. by apply Qle_bool_iff in Hq.
    + eexists; split; [reflexivity|].
      rewrite fpl_at_least_float. apply Qle_bool_iff.
  - unfold py_or. simpl. destruct (z =? 0)%Z eqn:E; simpl.
    + exists false. split; [done|]. split; [done|].
      intros Hq%fpl_at_least_int. apply Z.eqb_eq in E. subst z.
      by apply Qle_bool_iff in Hq.
    + eexists; split; [reflexivity|].
      rewrite fpl_at_least_int. apply Qle_bool_iff.
Qed.

Lemma tier_of_fpl_spec v :
  is_number v = true -> isna v = false ->
  exists t, Journey.tier_of_fpl v = Some t /\ In t tier_names /\
    (t = "graduated" <-> fpl_at_least v 225).
Proof.
  intros Nv Na.
  assert (exists q, as_fl v = Some (Fin q)) as [q Hq].
  { destruct v as [|[|q]|z| | | |]; try done; eauto. }
  assert (forall z, py_ge v (VInt z) = Some (Qle_bool (inject_Z z) q)) as Hge.
  { intros z. unfold py_ge, py_cmp. by rewrite Hq. }
  assert (fpl_at_least v 225 <-> Qle_bool (inject_Z 225) q = true) as Hat.
  { rewrite Qle_bool_iff. unfold fpl_at_least. rewrite Hq.
    split; [by intros (q' & [= <-] & ?) | eauto]. }
  unfold Journey.tier_of_fpl. rewrite !Hge. simpl.
  destruct (Qle_bool (inject_Z 225) q) eqn:E225; simpl.
  { eexists; split; [reflexivity|]. split; [simpl; tauto | tauto]. }
  assert (forall t : string, t <> "graduated" ->
            (t = "graduated" <-> fpl_at_least v 225)) as Hno.
  { intros t Ht. rewrite Hat. split; [done | discriminate]. }
  repeat (match goal with
          | |- context [Qle_bool ?a q] => destruct (Qle_bool a q); simpl
          end;
          [eexists; split; [reflexivity|]; split; [simpl; tauto | by apply Hno] |]).
  eexists; split; [reflexivity|]. split; [simpl; tauto | by apply Hno].
Qed.

Lemma outcome_section_ok (on_roster : bool) (j : jdict) :
  well_typed j ->
  exists j', Journey.outcome_section on_roster j = Some j' /\ well_typed j' /\
    agree_off outcome_keys j j' /\ outcome_spec on_roster j'.
Proof.
  intros Hj. unfold Journey.outcome_section.
  pose proof (jget_is_num j "current_fpl" Hj eq_refl) as Nf.
  destruct (ge_or0_spec _ Nf) as (ge & Hge & Hge_iff).
  assert (exists b,
    (if on_roster then Some true
     else py_ge (py_or (jget j "current_fpl") (VInt 0)) (VInt 225)) = Some b /\
    (b = true <-> on_roster = true \/ fpl_at_least (jget j "current_fpl") 225))
    as (b & -> & Hb).
  { destruct on_roster; [exists true; tauto|].
    exists ge. split; [done|]. rewrite Hge_iff. intuition congruence. }
  simpl.
  set (j1 := <["is_graduate" := VBool b]> j).
  assert (Hj1 : well_typed j1) by (subst j1; wt_tac).
  assert (exists j2,
    (if bool_decide (j1 !! "has_positive_income_change" = None)
     then pos ← py_gt (py_or (jget j1 "income_change_annual") (VInt 0)) (VInt 0);
          Some (<["has_positive_income_change" := VBool pos]> j1)
     else Some j1) = Some j2 /\ well_typed j2 /\ agree_off outcome_keys j j2 /\
     j2 !! "is_graduate" = Some (VBool b) /\
     jget j2 "current_fpl" = jget j "current_fpl")
    as (j2 & -> & Hj2 & Hf2 & Hg2 & Hc2).
  { destruct (bool_decide _).
    - destruct (gt_or0_ok j1 "income_change_annual" Hj1 eq_refl) as [pos ->].
      simpl. eexists; split; [reflexivity|]. subst j1.
      split; [wt_tac|]. split; [agree_tac|].
      by rewrite !lookup_insert_str, !jget_insert.
    - eexists; split; [reflexivity|]. subst j1.
      split; [wt_tac|]. split; [agree_tac|].
      by rewrite !lookup_insert_str, !jget_insert. }
  simpl.
  destruct (gt_or0_ok j2 "fpl_change" Hj2 eq_refl) as [pos ->]. simpl.
  rewrite jget_insert. simpl. rewrite Hc2.
  assert (exists t,
    (if on_roster then Some "graduated"
     else if isna (jget j "current_fpl") then Some "unknown"
     else Journey.tier_of_fpl (jget j "current_fpl")) = Some t /\
    In t tier_names /\
    (t = "graduated" <->
       on_roster = true \/ fpl_at_least (jget j "current_fpl") 225) /\
    (on_roster = false -> isna (jget j "current_fpl") = true -> t = "unknown"))
    as (t & -> & Ht & Hgrad & Hunk).
  { destruct on_roster.
    - exists "graduated". split; [done|]. split; [simpl; tauto|]. split; [tauto|done].
    - destruct (isna (jget j "current_fpl")) eqn:Ena.
      + exists "unknown". split; [done|]. split; [simpl; tauto|].
        split; [|done]. split; [done|]. intros [?|(q & Hq & _)]; [done|].
        destruct (jget j "current_fpl") as [|[|?]| | | | |]; done.
      + assert (is_number (jget j "current_fpl") = true) as Nn.
        { destruct (jget j "current_fpl") as [|[|?]| | | | |]; done. }
        destruct (tier_of_fpl_spec _ Nn Ena) as (t & Ht & Hin & Hiff).
        exists t. split; [done|]. split; [done|]. split; [|done].
        rewrite Hiff. intuition congruence. }
  simpl. eexists; split; [reflexivity|]. split; [wt_tac|]. split; [agree_tac|].
  exists b, t. rewrite !lookup_insert_str, !jget_insert. simpl.
  rewrite Hc2. split; [done|]. split; [done|]. split; [done|].
  split; [done|]. split; [done|].
  intros Hr Hna. split; [|by apply Hunk].
  destruct b; [|done]. destruct Hb as [Hb _]. destruct (Hb eq_refl) as [?|(q & Hq & _)].
  - congruence.
  - destruct (jget j "current_fpl") as [|[|?]| | | | |]; done.
Qed.

Lemma agree_off_lookup L (j j' : jdict) k :
  agree_off L j j' -> mem k L = false -> j' !! k = j !! k.
Proof. intros Hf Hk. by apply Hf. Qed.

Lemma agree_off_jget L (j j' : jdict) k :
  agree_off L j j' -> mem k L = false -> jget j' k = jget j k.
Proof. intros Hf Hk. unfold jget. by rewrite (Hf k Hk). Qed.

Lemma days_spec_preserved L (j j' : jdict) :
  agree_off L j j' ->
  mem "days_in_program" L = false -> mem "enrollment_date" L = false ->
  mem "baseline_date" L = false -> mem "first_quarterly_date" L = false ->
  mem "last_quarterly_date" L = false ->
  days_spec j -> days_spec j'.
Proof.
  intros Hf H1 H2 H3 H4 H5. unfold days_spec.
  rewrite (agree_off_lookup _ _ _ _ Hf H1).
  by rewrite !(agree_off_jget _ _ _ _ Hf) by done.
Qed.

Lemma outcome_spec_preserved L (j j' : jdict) g :
  agree_off L j j' ->
  mem "is_graduate" L = false -> mem "cliff_tier" L = false ->
  mem "current_fpl" L = false ->
  outcome_spec g j -> outcome_spec g j'.
Proof.
  intros Hf H1 H2 H3. unfold outcome_spec.
  rewrite (agree_off_lookup _ _ _ _ Hf H1), (agree_off_lookup _ _ _ _ Hf H2).
  by rewrite (agree_off_jget _ _ _ _ Hf H3).
Qed.

Lemma select_pid_is_Some df pid :
  has_pid_column df -> exists rec, select_pid df pid = Some rec.
Proof. intros Hc. unfold select_pid. rewrite Hc. eauto. Qed.

(** [build_single_journey] returns a journey for every participant, and
    the journey satisfies the typing invariant and the section summaries. *)
(** [build_single_journey] returns a journey for every participant, and
    the journey satisfies the typing invariant and the section summaries. *)
Lemma build_single_journey_ok pid intake baseline quarterly change_of_life
    empower graduate_ids :
  has_pid_column intake -> has_pid_column baseline ->
  has_pid_column quarterly -> has_pid_column change_of_life ->
  exists j intake_rec,
    Journey.build_single_journey pid intake baseline quarterly change_of_life
      empower graduate_ids = Some j /\
    select_pid intake pid = Some intake_rec /\
    journey_summary pid (on_roster pid graduate_ids)
      (empower_records empower pid) (iloc_first intake_rec) j.
Proof.
  intros Hi Hb Hq Hc. unfold Journey.build_single_journey.
  destruct (select_pid_is_Some intake pid Hi) as [irec ->].
  destruct (select_pid_is_Some baseline pid Hb) as [brec ->].
  destruct (select_pid_is_Some quarterly pid Hq) as [qrec ->].
  destruct (select_pid_is_Some change_of_life pid Hc) as [crec ->].
  simpl. fold (empower_records empower pid). fold (on_roster pid graduate_ids).
  set (j0 := ({["participant_id" := VInt pid]} : jdict)).
  assert (Hj0 : well_typed j0) by (by apply well_typed_singleton).
  assert (Hp0 : j0 !! "participant_id" = Some (VInt pid))
    by apply lookup_singleton_eq.
  assert (Hh0 : j0 !! "household_size" = None) by done.
  assert (exists j1,
    match empower_records empower pid with
    | emp_row :: _ => Journey.empower_section emp_row j0
    | [] => Some j0
    end = Some j1 /\ well_typed j1 /\ agree_off empower_keys j0 j1 /\
    j1 !! "household_size" =
      household_size_from_empower (empower_records empower pid) /\
    forall r, head (empower_records empower pid) = Some r ->
      j1 !! "income_change_annual" =
        empower_field (Journey.empower_wage_gain r) None /\
      j1 !! "current_fpl" = empower_field (Journey.empower_fpl_current r) None /\
      j1 !! "enrollment_fpl" =
        empower_field (Journey.empower_fpl_enrollment r) None)
    as (j1 & -> & Hj1 & Hf1 & Hh1 & He1).
  { destruct (empower_records empower pid) as [|r rs].
    - exists j0. split; [done|]. split; [done|]. split; [agree_tac | done].
    - destruct (empower_section_ok r j0 Hj0)
        as (j1 & E & W & F & Hh & Hw & Hc1 & He).
      exists j1. split; [done|]. split; [done|]. split; [done|]. split.
      + rewrite Hh, Hh0. unfold empower_field. simpl. by destruct (fl_isnan _).
      + intros r' [= <-]. by rewrite Hw, Hc1, He. }
  simpl.
  assert (exists j2,
    match iloc_first irec with
    | Some row => Journey.intake_section row j1
    | None => Some j1
    end = Some j2 /\ well_typed j2 /\ agree_off intake_keys j1 j2 /\
    j2 !! "household_size" =
      household_size_stored (empower_records empower pid) (iloc_first irec))
    as (j2 & -> & Hj2 & Hf2 & Hh2).
  { unfold household_size_stored. destruct (iloc_first irec) as [row|].
    - destruct (intake_section_ok row j1 Hj1) as (j2 & E & W & F & Hh).
      exists j2. split; [done|]. split; [done|]. split; [done|].
      rewrite Hh. unfold jget. rewrite Hh1. by destruct (truthy _).
    - exists j1. split; [done|]. split; [done|]. split; [agree_tac | done]. }
  simpl.
  assert (exists j3,
    match iloc_first brec with
    | Some row => Journey.baseline_section row j2
    | None => Some j2
    end = Some j3 /\ well_typed j3 /\ agree_off baseline_keys j2 j3)
    as (j3 & -> & Hj3 & Hf3).
  { destruct (iloc_first brec) as [row|].
    - apply baseline_section_ok, Hj2.
    - exists j2. split; [done|]. split; [done | agree_tac]. }
  simpl.
  assert (exists j4,
    (if 0 <? len qrec then Journey.quarterly_section qrec j3 else Some j3)
    = Some j4 /\ well_typed j4 /\ agree_off quarterly_keys j3 j4)
    as (j4 & -> & Hj4 & Hf4).
  { destruct (0 <? len qrec) eqn:El.
    - apply quarterly_section_ok; [by apply Z.ltb_lt | done].
    - exists j3. split; [done|]. split; [done | agree_tac]. }
  simpl.
  destruct (fallback_income_ok j4 Hj4) as (j5 & E5 & Hj5 & Hf5).
  rewrite E5. simpl.
  destruct (fallback_fpl_ok j5 Hj5) as (j6 & E6 & Hj6 & Hf6).
  rewrite E6. simpl.
  destruct (days_section_ok j6 Hj6) as (j7 & -> & Hj7 & Hf7 & Hd7). simpl.
  destruct (outcome_section_ok (on_roster pid graduate_ids) j7 Hj7)
    as (j8 & -> & Hj8 & Hf8 & Ho8).
  simpl.
  set (total := VInt _).
  assert (Hf9 : agree_off ["total_assessments"] j8 (<["total_assessments" := total]> j8))
    by agree_tac.
  exists (<["total_assessments" := total]> j8), irec.
  split; [done|]. split; [done|].
  split; [wt_tac|]. split; [|split; [|split; [|split]]].
  - rewrite (Hf9 "participant_id" eq_refl), (Hf8 "participant_id" eq_refl),
      (Hf7 "participant_id" eq_refl), (Hf6 "participant_id" eq_refl),
      (Hf5 "participant_id" eq_refl), (Hf4 "participant_id" eq_refl),
      (Hf3 "participant_id" eq_refl), (Hf2 "participant_id" eq_refl),
      (Hf1 "participant_id" eq_refl).
    done.
  - by apply (outcome_spec_preserved _ _ _ _ Hf9).
  - apply (days_spec_preserved _ _ _ Hf9); try done.
    by apply (days_spec_preserved _ _ _ Hf8).
  - rewrite (Hf9 "household_size" eq_refl), (Hf8 "household_size" eq_refl),
      (Hf7 "household_size" eq_refl), (Hf6 "household_size" eq_refl),
      (Hf5 "household_size" eq_refl), (Hf4 "household_size" eq_refl),
      (Hf3 "household_size" eq_refl).
    done.
  - intros r Hr. destruct (He1 r Hr) as (Hw1 & Hc1 & Hn1). split.
    + intros w Hw Hw0.
      assert (j4 !! "income_change_annual" = Some (VNum w)) as H4.
      { rewrite (Hf4 "income_change_annual" eq_refl),
          (Hf3 "income_change_annual" eq_refl),
          (Hf2 "income_change_annual" eq_refl), Hw1, Hw. done. }
      assert (j5 = j4) as ->.
      { rewrite fallback_income_skips in E5; [by injection E5|].
        unfold jget. rewrite H4. simpl. by rewrite Hw0. }
      rewrite (Hf9 "income_change_annual" eq_refl),
        (Hf8 "income_change_annual" eq_refl),
        (Hf7 "income_change_annual" eq_refl),
        (Hf6 "income_change_annual" eq_refl). done.
    + intros c Hc' Hc0.
      assert (forall k, mem k intake_keys = false -> mem k baseline_keys = false ->
                mem k quarterly_keys = false -> mem k fallback_income_keys = false ->
                j5 !! k = j1 !! k) as H51.
      { intros k K2 K3 K4 K5.
        by rewrite (Hf5 k K5), (Hf4 k K4), (Hf3 k K3), (Hf2 k K2). }
      assert (j5 !! "current_fpl" = Some (VNum c)) as H5.
      { rewrite (H51 "current_fpl") by done. by rewrite Hc1, Hc'. }
      assert (j6 = j5) as ->.
      { rewrite fallback_fpl_skips in E6; [by injection E6|].
        unfold jget. rewrite H5. simpl. by rewrite Hc0. }
      split.
      * rewrite (Hf9 "current_fpl" eq_refl), (Hf8 "current_fpl" eq_refl),
          (Hf7 "current_fpl" eq_refl). done.
      * intros e He.
        rewrite (Hf9 "enrollment_fpl" eq_refl), (Hf8 "enrollment_fpl" eq_refl),
          (Hf7 "enrollment_fpl" eq_refl), (H51 "enrollment_fpl") by done.
        by rewrite Hn1, He.
Qed.

End SectionLemmas.

Section TableLemmas.
Context `{Parsers}.

Lemma add_participant_id_has_pid df : has_pid_column (Journey.add_participant_id df).
Proof.
  unfold has_pid_column, Journey.add_participant_id, set_column.
  destruct (existsb _ (columns df)) eqn:E; simpl; [done|].
  rewrite existsb_app. simpl. by rewrite orb_true_r.
Qed.

(** [journeys[k]] exists exactly when some journey has the key [k]. *)
Lemma journeys_column_Some (journeys : list jdict) k cells :
  journeys_column journeys k = Some cells ->
  cells = (fun j => jget j k) <$> journeys /\
  exists j, j ∈ journeys /\ is_Some (j !! k).
Proof.
  unfold journeys_column. destruct (existsb _ _) eqn:E; [|done].
  intros [= <-]. split; [done|].
  apply existsb_exists in E as (j & Hj & Hk). exists j.
  split; [by apply list_elem_of_In|].
  unfold has_key in Hk. by destruct (j !! k).
Qed.

Lemma journeys_column_has (journeys : list jdict) k j :
  j ∈ journeys -> is_Some (j !! k) ->
  journeys_column journeys k = Some ((fun j => jget j k) <$> journeys).
Proof.
  intros Hj [v Hk]. unfold journeys_column.
  assert (existsb (has_key k) journeys = true) as ->; [|done].
  apply existsb_exists. exists j. split; [by apply list_elem_of_In|].
  unfold has_key. by rewrite Hk.
Qed.

Lemma journeys_column_nil k : journeys_column [] k = None.
Proof. done. Qed.

(** The builder returns what its loop over all IDs returns, unless that is
    the empty table. *)
Lemma from_raw_loop intake baseline quarterly change_of_life empower graduates_df
    table :
  Journey.build_participant_journeys_from_raw
    intake baseline quarterly change_of_life empower graduates_df = Some table ->
  journeys_of intake baseline quarterly change_of_life empower graduates_df
    (set_iter (all_ids intake baseline quarterly change_of_life empower
                 graduates_df)) = Some table /\
  table <> [].
Proof.
  unfold Journey.build_participant_journeys_from_raw.
  fold (all_ids intake baseline quarterly change_of_life empower graduates_df).
  fold (journeys_of intake baseline quarterly change_of_life empower graduates_df
          (set_iter (all_ids intake baseline quarterly change_of_life empower
                       graduates_df))).
  intros E. apply option.bind_Some in E as (journeys & Hloop & E).
  apply option.bind_Some in E as (cells & Hcol & [= <-]).
  split; [done|]. intros ->. by rewrite journeys_column_nil in Hcol.
Qed.

(** The loop returns a journey for every ID. *)
Lemma journeys_of_is_Some intake baseline quarterly change_of_life empower
    graduates_df ids :
  is_Some (journeys_of intake baseline quarterly change_of_life empower
             graduates_df ids).
Proof.
  apply mapM_is_Some, Forall_forall. intros pid _. cbv beta.
  destruct (build_single_journey_ok pid
              (Journey.add_participant_id intake)
              (Journey.add_participant_id baseline)
              (Journey.add_participant_id quarterly)
              (Journey.add_participant_id change_of_life)
              (Some (Journey.process_empower_data empower))
              (Some (Journey.graduate_roster graduates_df)))
    as (j & _ & Hj & _); eauto using add_participant_id_has_pid.
Qed.

Lemma journeys_of_rows intake baseline quarterly change_of_life empower
    graduates_df ids table :
  journeys_of intake baseline quarterly change_of_life empower graduates_df ids
    = Some table ->
  forall j, j ∈ table ->
    exists pid, pid ∈ ids /\
      Journey.build_single_journey pid
        (Journey.add_participant_id intake) (Journey.add_participant_id baseline)
        (Journey.add_participant_id quarterly)
        (Journey.add_participant_id change_of_life)
        (Some (Journey.process_empower_data empower))
        (Some (Journey.graduate_roster graduates_df)) = Some j.
Proof.
  intros Ht j Hj. apply mapM_Some in Ht.
  apply list_elem_of_lookup in Hj as [i Hi].
  destruct (Forall2_lookup_r _ _ _ _ _ Ht Hi) as (pid & Hpid & Hb).
  exists pid. split; [|done]. by eapply list_elem_of_lookup_2.
Qed.

(** Each row of a journey table the builder returns is the journey of one
    participant. *)
Lemma from_raw_journeys intake baseline quarterly change_of_life empower graduates_df
    table :
  Journey.build_participant_journeys_from_raw
    intake baseline quarterly change_of_life empower graduates_df = Some table ->
  forall j, j ∈ table ->
    exists pid,
      pid ∈ all_ids intake baseline quarterly change_of_life empower graduates_df /\
      Journey.build_single_journey pid
        (Journey.add_participant_id intake) (Journey.add_participant_id baseline)
        (Journey.add_participant_id quarterly)
        (Journey.add_participant_id change_of_life)
        (Some (Journey.process_empower_data empower))
        (Some (Journey.graduate_roster graduates_df)) = Some j.
Proof.
  intros [Hloop _]%from_raw_loop j Hj.
  destruct (journeys_of_rows _ _ _ _ _ _ _ _ Hloop j Hj) as (pid & Hpid & Hb).
  exists pid. split; [|done].
  rewrite set_iter_perm in Hpid. by apply elem_of_elements in Hpid.
Qed.

(** Every row of a journey table the builder returns satisfies the summary
    of [build_single_journey_ok]. *)
Lemma from_raw_rows intake baseline quarterly change_of_life empower graduates_df
    table :
  Journey.build_participant_journeys_from_raw
    intake baseline quarterly change_of_life empower graduates_df = Some table ->
  forall j, j ∈ table ->
    exists pid intake_rec,
      select_pid (Journey.add_participant_id intake) pid = Some intake_rec /\
      journey_summary pid
        (bool_decide (pid ∈ Journey.graduate_roster graduates_df))
        (empower_records (Some (Journey.process_empower_data empower)) pid)
        (iloc_first intake_rec) j.
Proof.
  intros Ht j Hj.
  destruct (from_raw_journeys _ _ _ _ _ _ _ Ht j Hj) as (pid & _ & Hb).
  destruct (build_single_journey_ok pid
              (Journey.add_participant_id intake)
              (Journey.add_participant_id baseline)
              (Journey.add_participant_id quarterly)
              (Journey.add_participant_id change_of_life)
              (Some (Journey.process_empower_data empower))
              (Some (Journey.graduate_roster graduates_df)))
    as (j' & irec & Hb' & Hsel & Hsum);
    auto using add_participant_id_has_pid.
  rewrite Hb in Hb'. injection Hb' as <-.
  by exists pid, irec.
Qed.

Lemma build_single_journey_stages pid intake baseline quarterly change_of_life
    empower graduate_ids :
  has_pid_column intake -> has_pid_column baseline ->
  has_pid_column quarterly -> has_pid_column change_of_life ->
  exists intake_rec baseline_rec quarterly_recs col_recs j1 j2 j3 j4 j5 j6 j7 j8,
    select_pid intake pid = Some intake_rec /\
    select_pid baseline pid = Some baseline_rec /\
    select_pid quarterly pid = Some quarterly_recs /\
    select_pid change_of_life pid = Some col_recs /\
    journey_stages pid intake_rec baseline_rec quarterly_recs
      (empower_records empower pid) (on_roster pid graduate_ids)
      j1 j2 j3 j4 j5 j6 j7 j8 /\
    Journey.build_single_journey pid intake baseline quarterly change_of_life
      empower graduate_ids
    = Some (<["total_assessments" :=
                VInt ((if 0 <? len baseline_rec then 1 else 0)
                      + len quarterly_recs + len col_recs)]> j8).
Proof.
  intros Hi Hb Hq Hc. unfold Journey.build_single_journey.
  destruct (select_pid_is_Some intake pid Hi) as [irec ->].
  destruct (select_pid_is_Some baseline pid Hb) as [brec ->].
  destruct (select_pid_is_Some quarterly pid Hq) as [qrec ->].
  destruct (select_pid_is_Some change_of_life pid Hc) as [crec ->].
  simpl. fold (empower_records empower pid). fold (on_roster pid graduate_ids).
  unfold journey_stages.
  set (j0 := ({["participant_id" := VInt pid]} : jdict)).
  assert (Hj0 : well_typed j0) by (by apply well_typed_singleton).
  assert (exists j1,
    match empower_records empower pid with
    | emp_row :: _ => Journey.empower_section emp_row j0
    | [] => Some j0
    end = Some j1 /\ well_typed j1 /\ agree_off empower_keys j0 j1)
    as (j1 & E1 & Hj1 & Hf1).
  { destruct (empower_records empower pid) as [|r rs].
    - exists j0. split; [done|]. split; [done | agree_tac].
    - destruct (empower_section_ok r j0 Hj0) as (j1 & E & W & F & _).
      by exists j1. }
  assert (exists j2,
    match iloc_first irec with
    | Some row => Journey.intake_section row j1
    | None => Some j1
    end = Some j2 /\ well_typed j2 /\ agree_off intake_keys j1 j2)
    as (j2 & E2 & Hj2 & Hf2).
  { destruct (iloc_first irec) as [row|].
    - destruct (intake_section_ok row j1 Hj1) as (j2 & E & W & F & _).
      by exists j2.
    - exists j1. split; [done|]. split; [done | agree_tac]. }
  assert (exists j3,
    match iloc_first brec with
    | Some row => Journey.baseline_section row j2
    | None => Some j2
    end = Some j3 /\ well_typed j3 /\ agree_off baseline_keys j2 j3)
    as (j3 & E3 & Hj3 & Hf3).
  { destruct (iloc_first brec) as [row|].
    - apply baseline_section_ok, Hj2.
    - exists j2. split; [done|]. split; [done | agree_tac]. }
  assert (exists j4,
    (if 0 <? len qrec then Journey.quarterly_section qrec j3 else Some j3)
    = Some j4 /\ well_typed j4 /\ agree_off quarterly_keys j3 j4)
    as (j4 & E4 & Hj4 & Hf4).
  { destruct (0 <? len qrec) eqn:El.
    - apply quarterly_section_ok; [by apply Z.ltb_lt | done].
    - exists j3. split; [done|]. split; [done | agree_tac]. }
  destruct (fallback_income_ok j4 Hj4) as (j5 & E5 & Hj5 & Hf5).
  destruct (fallback_fpl_ok j5 Hj5) as (j6 & E6 & Hj6 & Hf6).
  destruct (days_section_ok j6 Hj6) as (j7 & E7 & Hj7 & Hf7 & _).
  destruct (outcome_section_ok (on_roster pid graduate_ids) j7 Hj7)
    as (j8 & E8 & Hj8 & Hf8 & _).
  exists irec, brec, qrec, crec, j1, j2, j3, j4, j5, j6, j7, j8.
  repeat (split; [done|]).
  rewrite E1. simpl. rewrite E2. simpl. rewrite E3. simpl. rewrite E4. simpl.
  rewrite E5. simpl. rewrite E6. simpl. rewrite E7. simpl. rewrite E8. done.
Qed.

(** Every row of a journey table the builder returns comes with the stages
    that built it. *)
Lemma from_raw_stages intake baseline quarterly change_of_life empower graduates_df
    table :
  Journey.build_participant_journeys_from_raw
    intake baseline quarterly change_of_life empower graduates_df = Some table ->
  forall j, j ∈ table ->
    exists pid intake_rec baseline_rec quarterly_recs col_recs
           j1 j2 j3 j4 j5 j6 j7 j8,
      select_pid (Journey.add_participant_id intake) pid = Some intake_rec /\
      select_pid (Journey.add_participant_id baseline) pid = Some baseline_rec /\
      select_pid (Journey.add_participant_id quarterly) pid
        = Some quarterly_recs /\
      select_pid (Journey.add_participant_id change_of_life) pid
        = Some col_recs /\
      journey_stages pid intake_rec baseline_rec quarterly_recs
        (empower_records (Some (Journey.process_empower_data empower)) pid)
        (bool_decide (pid ∈ Journey.graduate_roster graduates_df))
        j1 j2 j3 j4 j5 j6 j7 j8 /\
      j = <["total_assessments" :=
              VInt ((if 0 <? len baseline_rec then 1 else 0)
                    + len quarterly_recs + len col_recs)]> j8.
Proof.
  intros Ht j Hj.
  destruct (from_raw_journeys _ _ _ _ _ _ _ Ht j Hj) as (pid & _ & Hb).
  destruct (build_single_journey_stages pid
              (Journey.add_participant_id intake)
              (Journey.add_participant_id baseline)
              (Journey.add_participant_id quarterly)
              (Journey.add_participant_id change_of_life)
              (Some (Journey.process_empower_data empower))
              (Some (Journey.graduate_roster graduates_df)))
    as (irec & brec & qrec & crec & j1 & j2 & j3 & j4 & j5 & j6 & j7 & j8
        & S1 & S2 & S3 & S4 & Hst & Hb');
    auto using add_participant_id_has_pid.
  rewrite Hb in Hb'. injection Hb' as ->.
  by exists pid, irec, brec, qrec, crec, j1, j2, j3, j4, j5, j6, j7, j8.
Qed.

Lemma agree_off_total (j : jdict) v :
  agree_off ["total_assessments"] j (<["total_assessments" := v]> j).
Proof. agree_tac. Qed.

(** What the stages leave of a field none of them writes. *)
Lemma stages_untouched pid irec brec qrec emp conf j1 j2 j3 j4 j5 j6 j7 j8 k :
  journey_stages pid irec brec qrec emp conf j1 j2 j3 j4 j5 j6 j7 j8 ->
  mem k empower_keys = false -> mem k intake_keys = false ->
  mem k baseline_keys = false -> mem k quarterly_keys = false ->
  mem k fallback_income_keys = false -> mem k fallback_fpl_keys = false ->
  mem k days_keys = false -> mem k outcome_keys = false ->
  j8 !! k = ({["participant_id" := VInt pid]} : jdict) !! k.
Proof.
  intros (_ & _ & _ & _ & _ & _ & _ & _ & _ & F1 & F2 & F3 & F4 & F5 & F6 & F7 & F8)
    K1 K2 K3 K4 K5 K6 K7 K8.
  by rewrite (F8 k K8), (F7 k K7), (F6 k K6), (F5 k K5), (F4 k K4), (F3 k K3),
    (F2 k K2), (F1 k K1).
Qed.

End TableLemmas.

Section JourneyClaims.
Context `{Parsers}.

(** C1: in every journey of a table the builder returns, [is_graduate] is
    true exactly when the participant is on the graduate roster or
    [current_fpl] is at least 225, [cliff_tier] is "graduated" under exactly
    the same condition, and a participant on the roster is a graduate
    whatever the FPL field holds. *)
Theorem graduate_iff_roster_or_fpl
    intake baseline quarterly change_of_life empower graduates_df table :
  Journey.build_participant_journeys_from_raw
    intake baseline quarterly change_of_life empower graduates_df = Some table ->
  forall j, j ∈ table ->
    exists pid,
      j !! "participant_id" = Some (VInt pid) /\
      (j !! "is_graduate" = Some (VBool true) <->
         pid ∈ Journey.graduate_roster graduates_df \/
         fpl_at_least (jget j "current_fpl") 225) /\
      (j !! "cliff_tier" = Some (VStr "graduated") <->
         pid ∈ Journey.graduate_roster graduates_df \/
         fpl_at_least (jget j "current_fpl") 225) /\
      (pid ∈ Journey.graduate_roster graduates_df ->
         j !! "is_graduate" = Some (VBool true) /\
         j !! "cliff_tier" = Some (VStr "graduated")).
Proof.
  intros Ht j Hj.
  destruct (from_raw_rows _ _ _ _ _ _ _ Ht j Hj)
    as (pid & irec & _ & _ & Hpid & Ho & _). exists pid.
  destruct Ho as (b & t & Hg & Hc & _ & Hb_iff & Ht_iff & _).
  rewrite bool_decide_eq_true in Hb_iff, Ht_iff.
  rewrite Hg, Hc. split; [done|].
  assert (Some (VBool b) = Some (VBool true) <-> b = true) as ->
    by (split; [by intros [= ->] | by intros ->]).
  assert (Some (VStr t) = Some (VStr "graduated") <-> t = "graduated") as ->
    by (split; [by intros [= ->] | by intros ->]).
  split; [done|]. split; [done|].
  intros Hr. split.
  - f_equal. f_equal. apply Hb_iff. by left.
  - f_equal. f_equal. apply Ht_iff. by left.
Qed.

(** C10: every journey of a table the builder returns carries a boolean
    [is_graduate] and a [cliff_tier] among the eight tier names; without a
    [current_fpl] value and off the roster they are [False] and "unknown". *)
Theorem classification_always_present
    intake baseline quarterly change_of_life empower graduates_df table :
  Journey.build_participant_journeys_from_raw
    intake baseline quarterly change_of_life empower graduates_df = Some table ->
  forall j, j ∈ table ->
    exists (pid : Z) (b : bool) (t : string),
      j !! "participant_id" = Some (VInt pid) /\
      j !! "is_graduate" = Some (VBool b) /\
      j !! "cliff_tier" = Some (VStr t) /\
      In t tier_names /\
      (isna (jget j "current_fpl") = true ->
       pid ∉ Journey.graduate_roster graduates_df ->
       b = false /\ t = "unknown").
Proof.
  intros Ht j Hj.
  destruct (from_raw_rows _ _ _ _ _ _ _ Ht j Hj)
    as (pid & irec & _ & _ & Hpid & Ho & _).
  destruct Ho as (b & t & Hg & Hc & Hin & _ & _ & Hunk).
  exists pid, b, t. repeat (split; [done|]).
  intros Hna Hr. apply Hunk; [|done].
  by apply bool_decide_eq_false.
Qed.

(** The amended C7: in every journey of a table the builder returns,
    [days_in_program] is the whole number of days from the first available
    of enrollment, baseline and first quarterly date to the first available
    of last quarterly, first quarterly and baseline date; it is [None] when
    either is missing. *)
Theorem days_in_program_first_available
    intake baseline quarterly change_of_life empower graduates_df table :
  Journey.build_participant_journeys_from_raw
    intake baseline quarterly change_of_life empower graduates_df = Some table ->
  forall j, j ∈ table ->
    j !! "days_in_program" =
    Some (days_value
            (first_present [jget j "enrollment_date"; jget j "baseline_date";
                            jget j "first_quarterly_date"])
            (first_present [jget j "last_quarterly_date";
                            jget j "first_quarterly_date";
                            jget j "baseline_date"])).
Proof.
  intros Ht j Hj.
  by destruct (from_raw_rows _ _ _ _ _ _ _ Ht j Hj)
    as (pid & irec & _ & _ & _ & _ & Hd & _).
Qed.

(** Where the merge priority does hold: in every journey of a returned
    table, a wage gain of the Empower extract that is neither null nor 0 is
    the [income_change_annual], a current FPL that is neither null nor 0 is
    the [current_fpl], and with it the enrollment FPL of the extract stays. *)
Lemma empower_values_kept
    intake baseline quarterly change_of_life empower graduates_df table :
  Journey.build_participant_journeys_from_raw
    intake baseline quarterly change_of_life empower graduates_df = Some table ->
  forall j, j ∈ table ->
    exists pid,
      j !! "participant_id" = Some (VInt pid) /\
      kept_from_empower
        (empower_records (Some (Journey.process_empower_data empower)) pid) j.
Proof.
  intros Ht j Hj.
  destruct (from_raw_rows _ _ _ _ _ _ _ Ht j Hj)
    as (pid & irec & _ & _ & Hpid & _ & _ & _ & Hkept).
  by exists pid.
Qed.

(** Without a participant ID in any source the builder returns no table:
    the frame of no journeys has no [is_graduate] column to sum. *)
Lemma no_participant_no_table
    intake baseline quarterly change_of_life empower graduates_df :
  all_ids intake baseline quarterly change_of_life empower graduates_df = ∅ ->
  Journey.build_participant_journeys_from_raw
    intake baseline quarterly change_of_life empower graduates_df = None.
Proof.
  intros Hnone.
  destruct (Journey.build_participant_journeys_from_raw _ _ _ _ _ _)
    as [table|] eqn:Ht; [|done].
  apply from_raw_loop in Ht as [Hloop Hne]. rewrite Hnone in Hloop.
  pose proof (set_iter_perm ∅) as Hp. rewrite elements_empty in Hp.
  apply Permutation_nil_r in Hp. rewrite Hp in Hloop.
  by injection Hloop as <-.
Qed.

End JourneyClaims.

(** A table of which a column can be read was returned. *)
Lemma table_returned (o : option (list jdict)) k cells :
  table_column k o = Some cells -> exists table, o = Some table.
Proof. destruct o as [table|]; [eauto | done]. Qed.

(** The sample: participant 1 at 240 percent, participant 2 at 160 percent,
    participant 3 on the roster alone and participant 7 with an intake, a
    baseline and two quarterly records. *)
Lemma sample_table_ids :
  table_column "participant_id"
    (@Journey.build_participant_journeys_from_raw typed_cells
       intake_7 baseline_7 quarterly_7 no_rows empower_sample graduates_3)
  = Some [VInt 1; VInt 2; VInt 3; VInt 7].
Proof. vm_compute. reflexivity. Qed.

Lemma sample_table_returned :
  exists table,
    @Journey.build_participant_journeys_from_raw typed_cells
      intake_7 baseline_7 quarterly_7 no_rows empower_sample graduates_3
    = Some table.
Proof. exact (table_returned _ _ _ sample_table_ids). Qed.

Lemma graduate_iff_roster_or_fpl_witness :
  exists table,
    @Journey.build_participant_journeys_from_raw typed_cells
      intake_7 baseline_7 quarterly_7 no_rows empower_sample graduates_3
      = Some table /\
    forall j, j ∈ table ->
      exists pid,
        j !! "participant_id" = Some (VInt pid) /\
        (j !! "is_graduate" = Some (VBool true) <->
           pid ∈ @Journey.graduate_roster typed_cells graduates_3 \/
           fpl_at_least (jget j "current_fpl") 225) /\
        (j !! "cliff_tier" = Some (VStr "graduated") <->
           pid ∈ @Journey.graduate_roster typed_cells graduates_3 \/
           fpl_at_least (jget j "current_fpl") 225) /\
        (pid ∈ @Journey.graduate_roster typed_cells graduates_3 ->
           j !! "is_graduate" = Some (VBool true) /\
           j !! "cliff_tier" = Some (VStr "graduated")).
Proof.
  destruct sample_table_returned as [table Ht]. exists table.
  split; [exact Ht|].
  exact (@graduate_iff_roster_or_fpl typed_cells
           intake_7 baseline_7 quarterly_7 no_rows empower_sample graduates_3
           table Ht).
Defined.

Lemma days_in_program_first_available_witness :
  exists table,
    @Journey.build_participant_journeys_from_raw typed_cells
      intake_7 baseline_7 quarterly_7 no_rows empower_sample graduates_3
      = Some table /\
    forall j, j ∈ table ->
      j !! "days_in_program" =
      Some (days_value
              (first_present [jget j "enrollment_date"; jget j "baseline_date";
                              jget j "first_quarterly_date"])
              (first_present [jget j "last_quarterly_date";
                              jget j "first_quarterly_date";
                              jget j "baseline_date"])).
Proof.
  destruct sample_table_returned as [table Ht]. exists table.
  split; [exact Ht|].
  exact (@days_in_program_first_available typed_cells
           intake_7 baseline_7 quarterly_7 no_rows empower_sample graduates_3
           table Ht).
Defined.

(** C10 on a participant known from the intake form alone. *)
Lemma intake_only_table_ids :
  table_column "participant_id"
    (@Journey.build_participant_journeys_from_raw typed_cells
       intake_7 no_rows no_rows no_rows no_rows no_rows)
  = Some [VInt 7].
Proof. vm_compute. reflexivity. Qed.

Lemma classification_always_present_witness :
  exists table,
    @Journey.build_participant_journeys_from_raw typed_cells
      intake_7 no_rows no_rows no_rows no_rows no_rows = Some table /\
    forall j, j ∈ table ->
      exists (pid : Z) (b : bool) (t : string),
        j !! "participant_id" = Some (VInt pid) /\
        j !! "is_graduate" = Some (VBool b) /\
        j !! "cliff_tier" = Some (VStr t) /\
        In t tier_names /\
        (isna (jget j "current_fpl") = true ->
         pid ∉ @Journey.graduate_roster typed_cells no_rows ->
         b = false /\ t = "unknown").
Proof.
  destruct (table_returned _ _ _ intake_only_table_ids) as [table Ht].
  exists table. split; [exact Ht|].
  exact (@classification_always_present typed_cells
           intake_7 no_rows no_rows no_rows no_rows no_rows table Ht).
Defined.

(** A participant known from the roster alone is a graduate with no FPL
    value and no days in program. *)
Example roster_only_participant :
  let table :=
    @Journey.build_participant_journeys_from_raw typed_cells
      no_rows no_rows no_rows no_rows no_rows graduates_3 in
  table_column "participant_id" table = Some [VInt 3] /\
  table_column "is_graduate" table = Some [VBool true] /\
  table_column "cliff_tier" table = Some [VStr "graduated"] /\
  table_column "current_fpl" table = Some [VNone] /\
  table_column "days_in_program" table = Some [VNone].
Proof. repeat split; vm_compute; reflexivity. Qed.

(** A participant known from the intake form alone is no graduate and has
    the tier "unknown". *)
Example intake_only_participant :
  let table :=
    @Journey.build_participant_journeys_from_raw typed_cells
      intake_7 no_rows no_rows no_rows no_rows no_rows in
  table_column "participant_id" table = Some [VInt 7] /\
  table_column "is_graduate" table = Some [VBool false] /\
  table_column "cliff_tier" table = Some [VStr "unknown"] /\
  table_column "current_fpl" table = Some [VNone] /\
  table_column "days_in_program" table = Some [VNone].
Proof. repeat split; vm_compute; reflexivity. Qed.

(** Without any participant ID there is no table. *)
Example no_participant_at_all :
  @Journey.build_participant_journeys_from_raw typed_cells
    no_rows no_rows no_rows no_rows no_rows no_rows = None.
Proof. vm_compute. reflexivity. Qed.

(** C7, as stated, fails: with the intake form submitted on day 10, the
    baseline on day 5 and the last quarterly assessment on day 100, the
    builder counts from the intake date (90 days), not from the earliest
    date (95 days). *)
Lemma days_in_program_not_earliest_latest :
  let table :=
    @Journey.build_participant_journeys_from_raw typed_cells
      intake_7 baseline_7 quarterly_7 no_rows no_rows no_rows in
  table_column "days_in_program" table = Some [VInt 90] /\
  map days_as_claimed <$> table = Some [VInt 95].
Proof. split; vm_compute; reflexivity. Qed.

(** C2 at its failing inputs.  A wage gain of 0 from the Empower extract is
    replaced by the quarterly figure, (1250 - 1000) * 12 = 3000; an
    enrollment FPL of 150 from the extract is replaced by the one computed
    from the first quarterly income (12000 / 25820 * 100) whenever the
    extract has no current FPL. *)
Theorem empower_value_overwritten_by_fallback :
  (Journey.empower_wage_gain <$>
     @Journey.process_empower_data typed_cells empower_zero_gain = [Fin 0] /\
   table_column "income_change_annual"
     (@Journey.build_participant_journeys_from_raw typed_cells
        no_rows no_rows quarterly_7 no_rows empower_zero_gain no_rows)
   = Some [VNum 3000]) /\
  (Journey.empower_fpl_enrollment <$>
     @Journey.process_empower_data typed_cells empower_enrollment_fpl = [Fin 150] /\
   table_column "enrollment_fpl"
     (@Journey.build_participant_journeys_from_raw typed_cells
        no_rows no_rows quarterly_7 no_rows empower_enrollment_fpl no_rows)
   = Some [VNum (60000 # 1291)]).
Proof. repeat split; vm_compute; reflexivity. Qed.

Section HouseholdSize.
Context `{Parsers}.

Lemma get_numeric_cases row names :
  Journey.get_numeric row names = VNone \/
  exists f, Journey.get_numeric row names = VFloat f.
Proof.
  unfold Journey.get_numeric.
  destruct (Journey.get_field row names); eauto;
    destruct (Journey.py_float _); eauto.
Qed.

Lemma household_size_from_intake_ge row q :
  intake_row_ok row = true ->
  as_fl (default VNone (household_size_from_intake row)) = Some (Fin q) ->
  (1 <= q)%Q.
Proof.
  unfold intake_row_ok, household_size_from_intake.
  destruct (get_numeric_cases row ["how many adults"; "adults currently live"])
    as [-> | [[|a] ->]];
    destruct (get_numeric_cases row ["how many children"; "children currently live"])
      as [-> | [[|c] ->]];
    try done; intros [Ha Hc]%andb_prop; unfold py_or; simpl in *;
    repeat match goal with
    | |- context [Qeq_bool ?x 0] => destruct (Qeq_bool x 0) eqn:?; simpl in *
    end;
    intros [= <-]; try done;
    repeat match goal with
    | E : Qle_bool _ _ = true |- _ => apply Qle_bool_iff in E
    end;
    rewrite ?Qred_correct; simpl; unfold inject_Z; lra.
Qed.

Lemma household_size_stored_ge emp_rec orow q :
  (forall r, head emp_rec = Some r ->
     size_ok (Journey.empower_household_size r) = true) ->
  (forall row, orow = Some row -> intake_row_ok row = true) ->
  as_fl (default VNone (household_size_stored emp_rec orow)) = Some (Fin q) ->
  (1 <= q)%Q.
Proof.
  intros Hemp Hrow. unfold household_size_stored, household_size_from_empower.
  destruct emp_rec as [|r rs].
  - destruct orow as [row|]; simpl; [|done].
    by apply household_size_from_intake_ge, Hrow.
  - specialize (Hemp r eq_refl).
    destruct (Journey.empower_household_size r) as [|h]; simpl in *.
    + destruct orow as [row|]; simpl; [|done].
      by apply household_size_from_intake_ge, Hrow.
    + apply Qle_bool_iff in Hemp.
      assert (Qeq_bool h 0 = false) as Eh.
      { destruct (Qeq_bool h 0) eqn:E; [|done].
        apply Qeq_bool_eq in E. lra. }
      destruct orow as [row|]; simpl; rewrite ?Eh; simpl; by intros [= <-].
Qed.

Lemma head_filter_In {A} (f : A -> bool) (l : list A) (x : A) :
  head (List.filter f l) = Some x -> In x l.
Proof.
  intros Hh. assert (In x (List.filter f l)) as Hin.
  { destruct (List.filter f l); [done|]. injection Hh as ->. by left. }
  by apply filter_In in Hin as [? _].
Qed.

Lemma iloc_first_select_pid df pid rec row :
  select_pid df pid = Some rec -> iloc_first rec = Some row ->
  exists r, In r (rows df) /\ row = row_series df r.
Proof.
  unfold select_pid. destruct (existsb _ _); [|done]. intros [= <-].
  unfold iloc_first. simpl.
  destruct (head (List.filter _ _)) as [r|] eqn:E; [|done].
  intros [= <-]. exists r. split; [by eapply head_filter_In | done].
Qed.

Lemma effective_household_size_ge hh h :
  effective_household_size hh = Some h -> 1 <= h.
Proof.
  unfold effective_household_size. destruct (notna hh); [|intros [= <-]; lia].
  destruct (py_int hh); simpl; [intros [= <-]; lia | done].
Qed.

Lemma calculate_fpl_pct_coerces income hh h :
  effective_household_size hh = Some h ->
  Journey.calculate_fpl_pct income hh = Journey.calculate_fpl_pct income (VInt h).
Proof.
  intros Hh. pose proof (effective_household_size_ge _ _ Hh) as Hge.
  unfold Journey.calculate_fpl_pct. unfold effective_household_size in Hh.
  rewrite Hh. simpl. by rewrite (Z.max_r 1 h) by lia.
Qed.

Lemma fallback_fpl_current (j j' : jdict) :
  Journey.fallback_fpl j = Some j' ->
  truthy (jget j "current_fpl") = false ->
  truthy (jget j "current_monthly_income") = true ->
  exists annual fpl,
    py_mul (jget j "current_monthly_income") (VInt 12) = Some annual /\
    Journey.calculate_fpl_pct annual (py_or (jget j "household_size") (VInt 3))
      = Some fpl /\
    j' !! "current_fpl" = Some fpl.
Proof.
  unfold Journey.fallback_fpl. intros E Tc Tm. rewrite Tc in E. simpl in E.
  apply option.bind_Some in E as (j1 & Hj1 & E).
  apply option.bind_Some in E as (j2 & Hj2 & E).
  assert (jget j1 "current_monthly_income" = jget j "current_monthly_income")
    as Hm1.
  { destruct (truthy (jget j "enrollment_monthly_income")).
    - apply option.bind_Some in Hj1 as (m & _ & Hj1).
      apply option.bind_Some in Hj1 as (annual & _ & Hj1).
      apply option.bind_Some in Hj1 as (fpl & _ & Hj1).
      injection Hj1 as <-. by rewrite jget_insert.
    - by injection Hj1 as <-. }
  rewrite Hm1, Tm in Hj2.
  apply option.bind_Some in Hj2 as (m & Hm & Hj2).
  apply option.bind_Some in Hj2 as (annual & Ha & Hj2).
  apply option.bind_Some in Hj2 as (fpl & Hf & Hj2).
  injection Hj2 as <-.
  assert (m = jget j "current_monthly_income") as ->.
  { rewrite <- Hm1. unfold jget. by rewrite Hm. }
  exists annual, fpl. split; [done|]. split; [done|].
  destruct (truthy (py_and _ _)).
  - apply option.bind_Some in E as (c & _ & E).
    apply option.bind_Some in E as (e & _ & E).
    apply option.bind_Some in E as (d & _ & E).
    injection E as <-. by rewrite !lookup_insert_str.
  - injection E as <-. by rewrite lookup_insert_str.
Qed.

(** The household size of the FPL fallback exists for whatever number is
    stored, and is at least 1. *)
Lemma fallback_household_size_total stored :
  is_num stored = true ->
  exists h, fallback_household_size stored = Some h /\ 1 <= h.
Proof.
  intros Hn. unfold fallback_household_size.
  destruct (effective_household_size (py_or stored (VInt 3))) as [h|] eqn:E.
  - exists h. split; [done|]. by eapply effective_household_size_ge.
  - exfalso. unfold effective_household_size, py_or in E.
    destruct stored as [|[|q]|z| | | |]; try done; simpl in E;
      repeat case_match; simplify_eq/=.
Qed.

(** What the stages leave of the current FPL where the Empower extract has
    none to offer: the fallback computes it from the current income and the
    stored household size. *)
Lemma stages_fallback_fpl pid irec brec qrec emp conf j1 j2 j3 j4 j5 j6 j7 j8 :
  journey_stages pid irec brec qrec emp conf j1 j2 j3 j4 j5 j6 j7 j8 ->
  empower_fpl_unusable emp = true ->
  truthy (jget j8 "current_monthly_income") = true ->
  exists annual fpl,
    py_mul (jget j8 "current_monthly_income") (VInt 12) = Some annual /\
    Journey.calculate_fpl_pct annual (py_or (jget j8 "household_size") (VInt 3))
      = Some fpl /\
    j8 !! "current_fpl" = Some fpl.
Proof.
  intros (E1 & _ & _ & _ & _ & E6 & _ & _ & _ & F1 & F2 & F3 & F4 & F5 & F6 & F7 & F8)
    Hemp Tm.
  assert (truthy (default VNone (j1 !! "current_fpl")) = false) as T1.
  { destruct emp as [|r rs].
    - by injection E1 as <-.
    - destruct (empower_section_ok r _
                  (well_typed_singleton "participant_id" (VInt pid) eq_refl))
        as (j1' & E1' & _ & _ & _ & _ & Hc & _).
      rewrite E1 in E1'. injection E1' as <-. rewrite Hc.
      unfold empower_field. simpl in Hemp.
      destruct (Journey.empower_fpl_current r) as [|c]; simpl; [done|].
      by rewrite Hemp. }
  assert (truthy (jget j5 "current_fpl") = false) as T5.
  { unfold jget.
    by rewrite (F5 "current_fpl" eq_refl), (F4 "current_fpl" eq_refl),
      (F3 "current_fpl" eq_refl), (F2 "current_fpl" eq_refl). }
  assert (forall k, mem k fallback_fpl_keys = false -> mem k days_keys = false ->
            mem k outcome_keys = false -> jget j8 k = jget j5 k) as H85.
  { intros k K6 K7 K8. unfold jget. by rewrite (F8 k K8), (F7 k K7), (F6 k K6). }
  rewrite (H85 "current_monthly_income") in Tm |- * by done.
  rewrite (H85 "household_size") by done.
  destruct (fallback_fpl_current j5 j6 E6 T5 Tm) as (annual & fpl & Ha & Hf & Hc).
  exists annual, fpl. split; [done|]. split; [done|].
  by rewrite (F8 "current_fpl" eq_refl), (F7 "current_fpl" eq_refl).
Qed.

(** The amended C6: in every journey of a table the builder returns, the
    household size is stored as the sources supply it: the Empower value
    when it is not null and either not 0 or there is no intake record,
    otherwise (adults or 1) + (children or 2) of the intake record, and
    nothing without either.  It is at least 1 when every Empower household
    size is missing or at least 1 and every intake record counts 0 or at
    least 1 adults and no negative number of children.  Sizes are coerced
    only where the FPL fallback uses them: where the Empower extract leaves
    no current FPL and there is a current income, [current_fpl] is
    [calculate_fpl_pct] of 12 times the income for a household of at least
    1: the stored size truncated and raised to 1, and 3 when the stored size
    is missing or 0. *)
Theorem household_size_as_supplied
    intake baseline quarterly change_of_life empower graduates_df table :
  Journey.build_participant_journeys_from_raw
    intake baseline quarterly change_of_life empower graduates_df = Some table ->
  forall j, j ∈ table ->
    exists pid intake_rec,
      j !! "participant_id" = Some (VInt pid) /\
      select_pid (Journey.add_participant_id intake) pid = Some intake_rec /\
      let emp_rec :=
        empower_records (Some (Journey.process_empower_data empower)) pid in
      j !! "household_size"
        = household_size_stored emp_rec (iloc_first intake_rec) /\
      (empower_sizes_ok (Journey.process_empower_data empower) = true ->
       intake_counts_ok (Journey.add_participant_id intake) = true ->
       forall q, as_fl (jget j "household_size") = Some (Fin q) -> (1 <= q)%Q) /\
      (empower_fpl_unusable emp_rec = true ->
       truthy (jget j "current_monthly_income") = true ->
       exists annual h,
         py_mul (jget j "current_monthly_income") (VInt 12) = Some annual /\
         fallback_household_size (jget j "household_size") = Some h /\
         1 <= h /\
         j !! "current_fpl" = Journey.calculate_fpl_pct annual (VInt h)).
Proof.
  intros Ht j Hj.
  destruct (from_raw_stages _ _ _ _ _ _ _ Ht j Hj)
    as (pid & irec & brec & qrec & crec & j1 & j2 & j3 & j4 & j5 & j6 & j7 & j8
        & Hsel & _ & _ & _ & Hst & Hj8).
  destruct (from_raw_rows _ _ _ _ _ _ _ Ht j Hj)
    as (pid' & irec' & Hsel' & Hw & Hpid' & _ & _ & Hhs & _).
  assert (pid' = pid) as ->.
  { pose proof (stages_untouched _ _ _ _ _ _ _ _ _ _ _ _ _ _ "participant_id" Hst
                  eq_refl eq_refl eq_refl eq_refl eq_refl eq_refl eq_refl eq_refl)
      as Hp.
    rewrite Hj8, lookup_insert_str in Hpid'. simpl in Hpid'.
    rewrite Hp, lookup_singleton_eq in Hpid'. by injection Hpid'. }
  rewrite Hsel in Hsel'. injection Hsel' as <-.
  exists pid, irec. split; [done|]. split; [done|]. cbv zeta.
  split; [done|]. split.
  - intros Hemp Hint q Hq. unfold jget in Hq. rewrite Hhs in Hq.
    apply (household_size_stored_ge _ _ _) in Hq; [done| |].
    + intros r Hr. apply head_filter_In in Hr.
      unfold empower_sizes_ok in Hemp.
      by apply (proj1 (forallb_forall _ _) Hemp).
    + intros row Hrow.
      destruct (iloc_first_select_pid _ _ _ _ Hsel Hrow) as (r & Hr & ->).
      unfold intake_counts_ok in Hint.
      by apply (proj1 (forallb_forall _ _) Hint r).
  - intros Hemp Tm.
    assert (forall k, k <> "total_assessments" -> jget j k = jget j8 k) as H8.
    { intros k Hk. unfold jget. rewrite Hj8. by rewrite lookup_insert_ne. }
    rewrite (H8 "current_monthly_income") in Tm |- * by done.
    rewrite (H8 "household_size") by done.
    destruct (stages_fallback_fpl _ _ _ _ _ _ _ _ _ _ _ _ _ _ Hst Hemp Tm)
      as (annual & fpl & Ha & Hf & Hc).
    destruct (fallback_household_size_total (jget j8 "household_size"))
      as (h & Hh & Hge).
    { rewrite <- (H8 "household_size") by done. by apply jget_is_num. }
    exists annual, h. split; [done|]. split; [done|]. split; [done|].
    rewrite Hj8, lookup_insert_ne by done. rewrite Hc, <- Hf.
    by apply calculate_fpl_pct_coerces.
Qed.

End HouseholdSize.

(** C6 on the sample.  Participant 7 has no Empower record: the household
    size comes from the intake record, which counts neither adults nor
    children, so 1 + 2 = 3 is stored, and the fallback FPL is computed for
    a household of 3. *)
Lemma household_size_as_supplied_witness :
  exists table,
    @Journey.build_participant_journeys_from_raw typed_cells
      intake_7 baseline_7 quarterly_7 no_rows empower_sample graduates_3
      = Some table /\
    forall j, j ∈ table ->
      exists pid intake_rec,
        j !! "participant_id" = Some (VInt pid) /\
        select_pid (@Journey.add_participant_id typed_cells intake_7) pid
          = Some intake_rec /\
        let emp_rec :=
          empower_records
            (Some (@Journey.process_empower_data typed_cells empower_sample)) pid in
        j !! "household_size"
          = household_size_stored (H := typed_cells) emp_rec (iloc_first intake_rec) /\
        (empower_sizes_ok (@Journey.process_empower_data typed_cells empower_sample)
           = true ->
         intake_counts_ok (H := typed_cells)
           (@Journey.add_participant_id typed_cells intake_7) = true ->
         forall q, as_fl (jget j "household_size") = Some (Fin q) -> (1 <= q)%Q) /\
        (empower_fpl_unusable emp_rec = true ->
         truthy (jget j "current_monthly_income") = true ->
         exists annual h,
           py_mul (jget j "current_monthly_income") (VInt 12) = Some annual /\
           fallback_household_size (jget j "household_size") = Some h /\
           1 <= h /\
           j !! "current_fpl" = Journey.calculate_fpl_pct annual (VInt h)).
Proof.
  destruct sample_table_returned as [table Ht]. exists table.
  split; [exact Ht|].
  exact (@household_size_as_supplied typed_cells
           intake_7 baseline_7 quarterly_7 no_rows empower_sample graduates_3
           table Ht).
Defined.

(** The sample in figures: the household sizes 4, 3, none and 3, and the
    fallback FPL of participant 7, 12 * 1250 / 25820 * 100. *)
Example sample_household_sizes :
  let table :=
    @Journey.build_participant_journeys_from_raw typed_cells
      intake_7 baseline_7 quarterly_7 no_rows empower_sample graduates_3 in
  table_column "household_size" table
    = Some [VNum 4; VNum 3; VNone; VInt 3] /\
  table_column "current_fpl" table
    = Some [VNum 240; VNum 160; VNone; VNum (75000 # 1291)].
Proof. split; vm_compute; reflexivity. Qed.

(** C6, as stated, fails: a household size of 0 in the Empower extract is
    stored as it is.  The FPL fallback then takes it for 3: with a current
    income of 1250 a month the FPL is 12 * 1250 / 25820 * 100. *)
Lemma household_size_below_one :
  (table_column "household_size"
     (@Journey.build_participant_journeys_from_raw typed_cells
        no_rows no_rows no_rows no_rows empower_size_zero no_rows)
   = Some [VNum 0] /\ ~ (1 <= 0)%Q) /\
  (let table :=
     @Journey.build_participant_journeys_from_raw typed_cells
       no_rows no_rows quarterly_7 no_rows empower_size_zero no_rows in
   table_column "household_size" table = Some [VNum 0] /\
   table_column "current_fpl" table = Some [VNum (75000 # 1291)] /\
   Journey.calculate_fpl_pct (VNum 15000) (VInt 3) = Some (VNum (75000 # 1291))).
Proof.
  split; [split; [vm_compute; reflexivity | lra]|].
  repeat split; vm_compute; reflexivity.
Qed.

Section PovertyModel.
#[local] Open Scope Q_scope.

Lemma poverty_line_nonzero h : (1 <= h)%Z -> Qeq_bool (poverty_line h) 0 = false.
Proof. intros Hh. apply Qeq_bool_inject_Z_pos. lia. Qed.

Lemma as_fl_fin_notna income q : as_fl income = Some (Fin q) -> isna income = false.
Proof. destruct income as [|[|?]| | | | |]; done. Qed.

Lemma fpl_ratio income q h :
  as_fl income = Some (Fin q) -> (1 <= h)%Z ->
  exists r,
    (r0 ← py_div income (VInt (15060 + 5380 * (h - 1))); py_mul r0 (VInt 100))
      = Some (VNum r) /\
    r == q / poverty_line h * 100.
Proof.
  intros Hq Hh. unfold py_div. rewrite Hq. simpl.
  fold (poverty_line h). rewrite (poverty_line_nonzero h Hh). simpl.
  eexists. split; [reflexivity|]. by rewrite !Qred_correct.
Qed.



Lemma calculate_fpl_pct_positive income q household_size h :
  as_fl income = Some (Fin q) -> 0 < q ->
  effective_household_size household_size = Some h ->
  exists r,
    Journey.calculate_fpl_pct income household_size = Some (VNum r) /\
    r == q / poverty_line h * 100.
Proof.
  intros Hq Hpos Hh. pose proof (effective_household_size_ge _ _ Hh) as Hge.
  unfold Journey.calculate_fpl_pct.
  rewrite (as_fl_fin_notna _ _ Hq). unfold py_le, py_cmp. rewrite Hq. simpl.
  assert (Qle_bool q (inject_Z 0) = false) as ->.
  { destruct (Qle_bool q (inject_Z 0)) eqn:E; [|done].
    apply Qle_bool_iff in E. unfold inject_Z in E. lra. }
  unfold effective_household_size in Hh. rewrite Hh. simpl.
  by apply fpl_ratio.
Qed.






End PovertyModel.

Section MedianLemmas.
#[local] Open Scope Q_scope.

Lemma insert_sorted_perm x l : insert_sorted x l ≡ₚ x :: l.
Proof.
  induction l as [|y l IH]; [done|]. cbn [insert_sorted].
  destruct (Qle_bool x y); [done|]. rewrite IH. apply Permutation_swap.
Qed.

Lemma sort_Q_perm l : sort_Q l ≡ₚ l.
Proof.
  induction l as [|x l IH]; [done|]. unfold sort_Q in *. cbn [foldr].
  by rewrite insert_sorted_perm, IH.
Qed.

Lemma insert_sorted_Sorted x l : Sorted Qle l -> Sorted Qle (insert_sorted x l).
Proof.
  induction l as [|y l IH]; intros Hs.
  - repeat constructor.
  - cbn [insert_sorted]. destruct (Qle_bool x y) eqn:E.
    + constructor; [done|]. constructor. by apply Qle_bool_iff.
    + apply Sorted_inv in Hs as [Hs Hhd]. constructor; [by apply IH|].
      assert (y <= x) as Hyx.
      { apply Qlt_le_weak, Qnot_le_lt. intros Hle. apply Qle_bool_iff in Hle.
        congruence. }
      destruct l as [|z l]; cbn [insert_sorted].
      * by constructor.
      * destruct (Qle_bool x z); constructor; [done|].
        by apply HdRel_inv in Hhd.
Qed.

Lemma sort_Q_Sorted l : Sorted Qle (sort_Q l).
Proof.
  induction l as [|x l IH]; [constructor|]. unfold sort_Q in *. cbn [foldr].
  by apply insert_sorted_Sorted.
Qed.

(** [median] is the middle of the non-null values in ascending order. *)
Lemma median_middle col :
  match middle (sort_Q (dropna col)) with
  | Some m => exists m', median col = Fin m' /\ m' == m
  | None => median col = NaN /\ dropna col = []
  end.
Proof.
  unfold median, middle. cbv zeta.
  set (s := sort_Q (dropna col)).
  destruct (length s) as [|n] eqn:En.
  - assert (s = []) as Hs by (by destruct s). cbn. rewrite Hs. cbn.
    split; [done|]. pose proof (sort_Q_perm (dropna col)) as Hp. fold s in Hp.
    rewrite Hs in Hp. by apply Permutation_nil_l in Hp.
  - assert ((S n =? 0)%nat = false) as -> by done.
    destruct (Nat.odd (S n)) eqn:Eo.
    + destruct (lookup_lt_is_Some_2 s (S n / 2)%nat) as [m ->].
      { rewrite En. apply Nat.div_lt; lia. }
      exists m. by split.
    + destruct (lookup_lt_is_Some_2 s (S n / 2 - 1)%nat) as [a ->].
      { rewrite En. pose proof (Nat.div_lt (S n) 2). lia. }
      destruct (lookup_lt_is_Some_2 s (S n / 2)%nat) as [b ->].
      { rewrite En. apply Nat.div_lt; lia. }
      eexists. split; [reflexivity | apply Qred_correct].
Qed.

End MedianLemmas.

Section FormatDetection.
Context `{Parsers}.

Lemma imap_lookup_default {A B} (l : list A) (col : list B) (d : B) :
  length col = length l ->
  imap (fun i _ => default d (col !! i)) l = col.
Proof.
  intros Hl. apply list_eq. intros i. rewrite list_lookup_imap.
  destruct (l !! i) as [x|] eqn:El; simpl.
  - apply lookup_lt_Some in El.
    destruct (lookup_lt_is_Some_2 col i) as [y ->]; [lia | done].
  - apply lookup_ge_None in El. symmetry. apply lookup_ge_None. lia.
Qed.

Lemma length_fpl_to_percent col : length (Journey.fpl_to_percent col) = length col.
Proof.
  unfold Journey.fpl_to_percent. destruct (_ && _); [apply length_map | done].
Qed.

Lemma length_numeric_col df p col :
  Journey.numeric_col df p = Some col -> length col = length (rows df).
Proof.
  unfold Journey.numeric_col, Journey.first_col.
  destruct (List.filter p (columns df)); [done|]. simpl. intros [= <-].
  unfold column. by rewrite !length_map.
Qed.

Lemma length_fpl_column df p :
  length (default (Journey.all_nan df)
            (Journey.fpl_to_percent <$> Journey.numeric_col df p))
  = length (rows df).
Proof.
  destruct (Journey.numeric_col df p) as [col|] eqn:E; simpl.
  - rewrite length_fpl_to_percent. by eapply length_numeric_col.
  - unfold Journey.all_nan. apply length_replicate.
Qed.

(** C8: the format detection goes by the median of the non-null values of
    the column, the middle of these values in ascending order: below 10
    every value is multiplied by 100, otherwise, and without any non-null
    value, the column stays as it is.  [2.0, 2.25, 1.8] becomes
    [200, 225, 180] and [200, 225, 180] stays; [200, 2, 3], with a median of
    3, is multiplied and [1, 300, 200], with a median of 200, is not, so it
    is neither the first value nor the largest that decides; nulls are left
    out of the median and stay null.  [process_empower_data] applies the
    detection to the current and to the enrollment FPL column, each on its
    own. *)
Theorem fpl_format_detection :
  (forall col,
     exists s, s ≡ₚ dropna col /\ Sorted Qle s /\
       match middle s with
       | Some m =>
           (m < 10 -> Journey.fpl_to_percent col = times_100 col)%Q /\
           (10 <= m -> Journey.fpl_to_percent col = col)%Q
       | None => dropna col = [] /\ Journey.fpl_to_percent col = col
       end) /\
  (Journey.fpl_to_percent [Fin 2.0; Fin 2.25; Fin 1.8]
     = [Fin 200; Fin 225; Fin 180] /\
   Journey.fpl_to_percent [Fin 200; Fin 225; Fin 180]
     = [Fin 200; Fin 225; Fin 180] /\
   Journey.fpl_to_percent [Fin 200; Fin 2; Fin 3]
     = [Fin 20000; Fin 200; Fin 300] /\
   Journey.fpl_to_percent [Fin 1; Fin 300; Fin 200]
     = [Fin 1; Fin 300; Fin 200] /\
   Journey.fpl_to_percent [NaN; Fin 300; Fin 2; Fin 1]
     = [NaN; Fin 30000; Fin 200; Fin 100] /\
   Journey.fpl_to_percent [Fin 4; Fin 12] = [Fin 400; Fin 1200] /\
   Journey.fpl_to_percent [Fin 1; Fin 30] = [Fin 1; Fin 30] /\
   Journey.fpl_to_percent [NaN; NaN] = [NaN; NaN]) /\
  (forall empower,
     Journey.empower_fpl_current <$> Journey.process_empower_data empower
       = default (Journey.all_nan empower)
           (Journey.fpl_to_percent <$>
              Journey.numeric_col empower Journey.is_current_fpl) /\
     Journey.empower_fpl_enrollment <$> Journey.process_empower_data empower
       = default (Journey.all_nan empower)
           (Journey.fpl_to_percent <$>
              Journey.numeric_col empower Journey.is_enrollment_fpl)).
Proof.
  split; [|split].
  - intros col. exists (sort_Q (dropna col)).
    split; [apply sort_Q_perm|]. split; [apply sort_Q_Sorted|].
    pose proof (median_middle col) as Hm.
    unfold Journey.fpl_to_percent, times_100. cbv zeta.
    destruct (middle (sort_Q (dropna col))) as [m|].
    + destruct Hm as (m' & -> & Heq). cbn [fl_isnan negb andb].
      unfold fl_lt, fl_cmp, fl_of_Z. split.
      * intros Hlt. assert (Qltb m' (inject_Z 10) = true) as ->; [|done].
        apply Qltb_true. rewrite Heq. exact Hlt.
      * intros Hge. assert (Qltb m' (inject_Z 10) = false) as ->; [|done].
        apply Qltb_false. rewrite Heq. exact Hge.
    + destruct Hm as [-> Hnil]. done.
  - repeat split; vm_compute; reflexivity.
  - intros empower. unfold Journey.process_empower_data.
    rewrite !fmap_imap. unfold compose. simpl.
    split; apply imap_lookup_default, length_fpl_column.
Qed.

End FormatDetection.

Section Rounding.
#[local] Open Scope Q_scope.

Lemma round_half_even_near q :
  inject_Z (round_half_even q) - q <= 1 # 2 /\
  q - inject_Z (round_half_even q) <= 1 # 2.
Proof.
  unfold round_half_even.
  pose proof (Qfloor_le q) as Hlo. pose proof (Qlt_floor q) as Hhi.
  rewrite inject_Z_plus in Hhi. change (inject_Z 1) with 1 in Hhi.
  assert (inject_Z (Qfloor q + 1) == inject_Z (Qfloor q) + 1) as Hs
    by (by rewrite inject_Z_plus).
  destruct (Qcompare_spec (q - inject_Z (Qfloor q)) (1 # 2)) as [He|Hl|Hg].
  - destruct (Z.even (Qfloor q)); rewrite ?Hs; lra.
  - lra.
  - rewrite Hs. lra.
Qed.

Lemma py_round_near q n :
  Qabs (py_round q n - q) <= 1 / (2 * inject_Z (10 ^ Z.of_nat n)).
Proof.
  unfold py_round. rewrite Qred_correct.
  set (s := inject_Z (10 ^ Z.of_nat n)).
  assert (0 < s) as Hs.
  { subst s. change 0 with (inject_Z 0). rewrite <- Zlt_Qlt.
    apply Z.pow_pos_nonneg; lia. }
  destruct (round_half_even_near (q * s)) as [H1 H2].
  set (r := inject_Z (round_half_even (q * s))) in *.
  assert (r / s - q == (r - q * s) / s) as -> by (field; lra).
  apply Qabs_Qle_condition. split.
  - apply Qle_shift_div_l; [done|].
    assert (- (1 / (2 * s)) * s == - (1 # 2)) as -> by (field; lra). lra.
  - apply Qle_shift_div_r; [done|].
    assert (1 / (2 * s) * s == 1 # 2) as -> by (field; lra). lra.
Qed.

Lemma py_round_near_4 q : Qabs (py_round q 4 - q) <= 1 # 20000.
Proof.
  pose proof (py_round_near q 4) as Hn.
  assert (1 / (2 * inject_Z (10 ^ Z.of_nat 4)) == 1 # 20000) as E by reflexivity.
  by rewrite E in Hn.
Qed.

Lemma py_round_near_2 q : Qabs (py_round q 2 - q) <= 1 # 200.
Proof.
  pose proof (py_round_near q 2) as Hn.
  assert (1 / (2 * inject_Z (10 ^ Z.of_nat 2)) == 1 # 200) as E by reflexivity.
  by rewrite E in Hn.
Qed.

Lemma py_qdiv_nonzero a b : ~ b == 0 -> py_qdiv a b = Some (a / b).
Proof.
  intros Hb. unfold py_qdiv. destruct (Qeq_bool b 0) eqn:E; [|done].
  by apply Qeq_bool_eq in E.
Qed.

Lemma py_qdiv_pos a b : Qltb 0 b = true -> py_qdiv a b = Some (a / b).
Proof.
  intros Hb%Qltb_true. apply py_qdiv_nonzero. lra.
Qed.

(** What [round(x, n)] returns is [x] rounded to [n] places. *)
Lemma py_round_rounded_to x n : rounded_to n x (py_round x n).
Proof.
  split.
  - exists (round_half_even (x * inject_Z (10 ^ Z.of_nat n))).
    unfold py_round. apply Qred_correct.
  - pose proof (py_round_near x n) as Hn.
    set (s := inject_Z (10 ^ Z.of_nat n)) in *.
    assert (0 < s) as Hs.
    { subst s. change 0 with (inject_Z 0). rewrite <- Zlt_Qlt.
      apply Z.pow_pos_nonneg; lia. }
    eapply Qle_trans; [exact Hn|].
    apply Qle_shift_div_l; [lra|].
    assert (1 / (2 * s) * s == 1 # 2) as -> by (field; lra). lra.
Qed.

End Rounding.

Section Tier1.
#[local] Open Scope Q_scope.

(** C9: for a wage-gain total that is not negative and a positive
    investment, Tier 1 returns a result (no division error);
    [annual_return_per_dollar_invested] is gains / investment rounded to 4
    decimal places; with positive gains [break_even_years_undiscounted] is
    investment / gains rounded to 2 decimal places; with gains of 0 the
    break-even figure, the cost per dollar and the EUC comparison are all
    the sentinel "N/A", which stands for the infinity of the computation.
    Gains of 6.2M on an investment of 25M return 0.248 per dollar and break
    even after 4.03 years. *)
Theorem tier1_rounded_ratios :
  (forall gains investment,
     0 <= gains -> 0 < investment ->
     exists result r,
       Roi.calculate_tier1_conservative gains investment = Some result /\
       at_path ["metrics"; "annual_return_per_dollar_invested"] result
         = Some (PNum r) /\
       rounded_to 4 (gains / investment) r /\
       (0 < gains ->
          exists b,
            at_path ["metrics"; "break_even_years_undiscounted"] result
              = Some (PNum b) /\
            rounded_to 2 (investment / gains) b) /\
       (gains == 0 ->
          at_path ["metrics"; "break_even_years_undiscounted"] result
            = Some (PStr "N/A") /\
          at_path ["metrics"; "cost_per_dollar_income_generated"] result
            = Some (PStr "N/A") /\
          at_path ["benchmarks"; "euc_comparison"] result = Some (PStr "N/A"))) /\
  (exists result a b,
     Roi.calculate_tier1_conservative 6200000 25000000 = Some result /\
     at_path ["metrics"; "annual_return_per_dollar_invested"] result
       = Some (PNum a) /\ a == 0.248 /\
     at_path ["metrics"; "break_even_years_undiscounted"] result
       = Some (PNum b) /\ b == 4.03).
Proof.
  split.
  - intros gains investment Hg Hi. unfold Roi.calculate_tier1_conservative.
    assert (Qltb 0 investment = true) as -> by (by apply Qltb_true).
    rewrite (py_qdiv_pos gains investment) by (by apply Qltb_true).
    cbn [mbind option_bind].
    destruct (Qltb 0 gains) eqn:Eg.
    + rewrite (py_qdiv_pos investment gains Eg).
      cbn [mbind option_bind fmap option_fmap option_map].
      eexists _, _. split; [reflexivity|]. split; [reflexivity|].
      split; [apply py_round_rounded_to|]. split.
      * intros _. eexists. split; [reflexivity | apply py_round_rounded_to].
      * intros H0. apply Qltb_true in Eg. lra.
    + cbn [mbind option_bind].
      eexists _, _. split; [reflexivity|]. split; [reflexivity|].
      split; [apply py_round_rounded_to|]. split.
      * intros Hpos. apply Qltb_false in Eg. lra.
      * intros _. repeat split; reflexivity.
  - eexists _, (py_round (6200000 / 25000000) 4), (py_round (25000000 / 6200000) 2).
    split; [vm_compute; reflexivity|].
    repeat split; vm_compute; reflexivity.
Qed.

(** Tier 1 on gains of 1000 and an investment of 2675, where the break-even
    ratio 2.675 lies halfway between 2.67 and 2.68. *)
Lemma tier1_rounded_ratios_witness :
  exists result r,
    Roi.calculate_tier1_conservative 1000 2675 = Some result /\
    at_path ["metrics"; "annual_return_per_dollar_invested"] result
      = Some (PNum r) /\
    rounded_to 4 (1000 / 2675) r /\
    (0 < 1000 ->
       exists b,
         at_path ["metrics"; "break_even_years_undiscounted"] result
           = Some (PNum b) /\
         rounded_to 2 (2675 / 1000) b) /\
    (1000 == 0 ->
       at_path ["metrics"; "break_even_years_undiscounted"] result
         = Some (PStr "N/A") /\
       at_path ["metrics"; "cost_per_dollar_income_generated"] result
         = Some (PStr "N/A") /\
       at_path ["benchmarks"; "euc_comparison"] result = Some (PStr "N/A")).
Proof.
  apply (proj1 tier1_rounded_ratios 1000 2675); lra.
Defined.

End Tier1.

Section Caveats.
#[local] Open Scope Q_scope.

Lemma annuity_factor_const years :
  exists f, Roi.annuity_factor Roi.PROJ_discount_rate years = Some f.
Proof. unfold Roi.annuity_factor. rewrite py_qdiv_nonzero; [eauto | done]. Qed.

Lemma pow_discount_nonzero (n : Z) : ~ (1 + Roi.PROJ_discount_rate) ^ n == 0.
Proof.
  apply Qpower_not_0. done.
Qed.

Lemma pv_with_fade_const gains :
  exists pv, Roi.pv_with_fade_of gains Roi.PROJ_discount_rate = Some pv.
Proof.
  unfold Roi.pv_with_fade_of.
  destruct (annuity_factor_const 5) as [f5 ->].
  destruct (annuity_factor_const 15) as [f15 ->]. cbn [mbind option_bind].
  rewrite !py_qdiv_nonzero by apply pow_discount_nonzero.
  cbn [mbind option_bind]. eauto.
Qed.

Lemma ratio_or_zero_total a b n : exists o, Roi.ratio_or_zero a b n = Some o.
Proof.
  unfold Roi.ratio_or_zero. destruct (Qltb 0 b) eqn:E; [|eauto].
  rewrite (py_qdiv_pos a b E). cbn [mbind option_bind]. eauto.
Qed.

Lemma tier1_has_caveats gains investment :
  exists r, Roi.calculate_tier1_conservative gains investment = Some r /\
            has_caveats r = true.
Proof.
  unfold Roi.calculate_tier1_conservative.
  destruct (Qltb 0 investment) eqn:Ei;
    rewrite ?(py_qdiv_pos gains investment Ei); cbn [mbind option_bind];
    destruct (Qltb 0 gains) eqn:Eg;
    rewrite ?(py_qdiv_pos investment gains Eg);
    cbn [mbind option_bind fmap option_fmap option_map];
    eexists; split; reflexivity.
Qed.

Lemma tier2_has_caveats gains counts investment :
  exists r, Roi.calculate_tier2_taxpayer gains counts investment = Some r /\
            has_caveats r = true.
Proof.
  unfold Roi.calculate_tier2_taxpayer.
  destruct (ratio_or_zero_total
              (gains * Roi.TAX_fica_total + gains * Roi.TAX_federal_income_effective
               + gains * Roi.TAX_state_income
               + gains * Roi.TAX_sales_tax_rate * Roi.TAX_sales_tax_spending_share
               + (Roi.count_of counts "graduated"
                   * (Roi.BEN_tenncare_adult + Roi.BEN_snap_household
                      + Roi.BEN_tanf_cash + Roi.BEN_childcare_full)
                  + Roi.count_of counts "near_graduation"
                    * (Roi.BEN_snap_household + Roi.BEN_tanf_cash
                       + Roi.BEN_childcare_reduced)
                  + Roi.count_of counts "working_progress"
                    * (Roi.BEN_tanf_cash + Roi.BEN_snap_household * 0.5)
                  + Roi.count_of counts "snap_cliff" * 1000))
              investment 4) as [o ->].
  cbn [mbind option_bind].
  match goal with
  | |- context [Qltb 0 ?t] => destruct (Qltb 0 t) eqn:Et
  end.
  - rewrite (py_qdiv_pos _ _ Et). cbn [mbind option_bind].
    eexists; split; reflexivity.
  - cbn [mbind option_bind]. eexists; split; reflexivity.
Qed.

Lemma tier3_has_caveats gains investment :
  exists r, Roi.calculate_tier3_lifecycle gains investment = Some r /\
            has_caveats r = true.
Proof.
  unfold Roi.calculate_tier3_lifecycle. cbv zeta.
  destruct (annuity_factor_const Roi.PROJ_default_working_years) as [pf ->].
  destruct (pv_with_fade_const gains) as [pv ->].
  cbn [mbind option_bind].
  destruct (ratio_or_zero_total (gains * pf) investment 1) as [o1 ->].
  destruct (ratio_or_zero_total pv investment 1) as [o2 ->].
  cbn [mbind option_bind]. eexists; split; reflexivity.
Qed.

Lemma bind_Some {A B} (x : A) (f : A -> option B) : (Some x ≫= f) = f x.
Proof. reflexivity. Qed.

Lemma py_qdiv_zero a b : Qeq_bool b 0 = true -> py_qdiv a b = None.
Proof. intros E. unfold py_qdiv. by rewrite E. Qed.

Lemma py_qdiv_not_zero a b : Qeq_bool b 0 = false -> py_qdiv a b = Some (a / b).
Proof. intros E. unfold py_qdiv. by rewrite E. Qed.

(** Tier 4 returns a result with caveats, or fails on an investment of 0. *)
Lemma tier4_has_caveats gains avg families investment :
  match Roi.calculate_tier4_intergenerational gains avg families investment with
  | Some r => has_caveats r = true
  | None => investment == 0
  end.
Proof.
  unfold Roi.calculate_tier4_intergenerational. cbv zeta.
  rewrite (py_qdiv_nonzero avg 1000) by done. repeat (rewrite bind_Some; cbn beta).
  destruct (annuity_factor_const 30) as [pf ->]. repeat (rewrite bind_Some; cbn beta).
  rewrite (py_qdiv_nonzero pf) by apply pow_discount_nonzero.
  repeat (rewrite bind_Some; cbn beta).
  destruct (pv_with_fade_const gains) as [pv ->]. repeat (rewrite bind_Some; cbn beta).
  match goal with
  | |- context [Roi.ratio_or_zero ?a ?b ?n] =>
      destruct (ratio_or_zero_total a b n) as [o ->]
  end.
  repeat (rewrite bind_Some; cbn beta).
  destruct (Qeq_bool investment 0) eqn:E.
  - rewrite (py_qdiv_zero _ _ E). by apply Qeq_bool_eq.
  - rewrite (py_qdiv_not_zero _ _ E). repeat (rewrite bind_Some; cbn beta).
    destruct (Qltb 10 _); reflexivity.
Qed.

(** The sensitivity analysis returns a result without a caveats entry; its
    three sections carry a note or a recommendation. *)
Lemma sensitivity_has_no_caveats gains investment :
  exists r, Roi.calculate_sensitivity_analysis gains investment = Some r /\
    item "caveats" r = None /\
    is_text (at_path ["attribution"; "note"] r) = true /\
    is_text (at_path ["wage_persistence"; "note"] r) = true /\
    is_text (at_path ["denominator"; "recommendation"] r) = true.
Proof.
  unfold Roi.calculate_sensitivity_analysis.
  match goal with
  | |- context [mapM ?f ?l] => assert (is_Some (mapM f l)) as [attribution ->]
  end.
  { apply mapM_is_Some, Forall_forall. intros pct _. unfold compose.
    rewrite (py_qdiv_nonzero (inject_Z pct) 100) by done. repeat (rewrite bind_Some; cbn beta).
    destruct (Qltb 0 investment) eqn:Ei; [|by rewrite bind_Some].
    rewrite (py_qdiv_pos _ _ Ei). by rewrite !bind_Some. }
  repeat (rewrite bind_Some; cbn beta).
  destruct (ratio_or_zero_total (gains * 25) investment 1) as [o1 ->].
  repeat (rewrite bind_Some; cbn beta).
  destruct (ratio_or_zero_total (gains * 15) investment 1) as [o2 ->].
  repeat (rewrite bind_Some; cbn beta).
  destruct (ratio_or_zero_total (gains * 8) investment 1) as [o3 ->].
  repeat (rewrite bind_Some; cbn beta).
  rewrite (py_qdiv_nonzero (gains * 25) 25000000) by done.
  repeat (rewrite bind_Some; cbn beta).
  rewrite (py_qdiv_nonzero (gains * 25) 6000000) by done.
  repeat (rewrite bind_Some; cbn beta).
  rewrite (py_qdiv_nonzero gains 862) by done.
  repeat (rewrite bind_Some; cbn beta).
  rewrite (py_qdiv_nonzero (gains / 862 * 25) 7000) by done.
  repeat (rewrite bind_Some; cbn beta).
  eexists. split; [reflexivity|]. repeat split; reflexivity.
Qed.

(** The amended C4: each of the four ROI tiers returns its result with a
    non-empty list of caveats (Tier 4 whenever it returns at all: it fails on
    an investment of 0); the sensitivity analysis returns a result without a
    caveats entry, its sections carrying a note or a recommendation. *)
Theorem roi_tiers_carry_caveats
    (gains avg_gain investment : Q) (counts : gmap string Z) (families : Z) :
  (exists r, Roi.calculate_tier1_conservative gains investment = Some r /\
             has_caveats r = true) /\
  (exists r, Roi.calculate_tier2_taxpayer gains counts investment = Some r /\
             has_caveats r = true) /\
  (exists r, Roi.calculate_tier3_lifecycle gains investment = Some r /\
             has_caveats r = true) /\
  match Roi.calculate_tier4_intergenerational gains avg_gain families investment with
  | Some r => has_caveats r = true
  | None => investment == 0
  end /\
  (exists r, Roi.calculate_sensitivity_analysis gains investment = Some r /\
     item "caveats" r = None /\
     is_text (at_path ["attribution"; "note"] r) = true /\
     is_text (at_path ["wage_persistence"; "note"] r) = true /\
     is_text (at_path ["denominator"; "recommendation"] r) = true).
Proof.
  split; [apply tier1_has_caveats|].
  split; [apply tier2_has_caveats|].
  split; [apply tier3_has_caveats|].
  split; [apply tier4_has_caveats|].
  apply sensitivity_has_no_caveats.
Qed.

(** C4, as stated, fails: the sensitivity analysis of the measured gains
    (6.2M on 25M) has no caveats entry. *)
Lemma sensitivity_analysis_without_caveats :
  (fun r => has_caveats r) <$> Roi.calculate_sensitivity_analysis 6200000 25000000
    = Some false /\
  item "caveats" <$> Roi.calculate_sensitivity_analysis 6200000 25000000
    = Some None.
Proof. split; vm_compute; reflexivity. Qed.

End Caveats.

Section TierCounts.
Context `{Parsers}.

Lemma value_counts_absent cells k :
  VStr k ∉ cells -> Roi.value_counts cells !! k = None.
Proof.
  induction cells as [|v cells IH]; [done|].
  intros [Hv Hc]%not_elem_of_cons. simpl.
  destruct v; try by apply IH.
  rewrite lookup_insert_ne; [by apply IH | congruence].
Qed.

Lemma journey_tiers_named intake baseline quarterly change_of_life empower
    graduates_df table counts k :
  Journey.build_participant_journeys_from_raw
    intake baseline quarterly change_of_life empower graduates_df = Some table ->
  Roi.tier_counts table = Some counts ->
  ~ In k tier_names ->
  counts !! k = None.
Proof.
  intros Ht Hc Hk. unfold Roi.tier_counts in Hc.
  destruct (journeys_column table "cliff_tier") as [cells|] eqn:Ecol; [|done].
  injection Hc as <-. apply journeys_column_Some in Ecol as [-> _].
  apply value_counts_absent.
  intros (j & Hj & Hin)%list_elem_of_fmap.
  destruct (from_raw_rows _ _ _ _ _ _ _ Ht j Hin)
    as (pid & irec & _ & _ & _ & Ho & _).
  destruct Ho as (b & t & _ & Hct & Hnames & _).
  unfold jget in Hj. rewrite Hct in Hj. simpl in Hj. injection Hj as ->.
  done.
Qed.

(** The Tier 2 document inside the ROI document, and the tier counts it was
    computed from. *)
Lemma full_roi_tier2 (journeys : list jdict) document :
  Roi.calculate_full_roi journeys = Some document ->
  exists counts tier2 gains,
    Roi.tier_counts journeys = Some counts /\
    Roi.calculate_tier2_taxpayer gains counts
      (inject_Z Metrics.PROGRAM_INVESTMENT) = Some tier2 /\
    forall path, at_path ("tier2_taxpayer" :: path) document = at_path path tier2.
Proof.
  unfold Roi.calculate_full_roi. intros E.
  apply option.bind_Some in E as (income & _ & E). cbv zeta in E.
  apply option.bind_Some in E as (avg & _ & E).
  apply option.bind_Some in E as (counts & Hcounts & E).
  apply option.bind_Some in E as (t1 & _ & E).
  apply option.bind_Some in E as (t2 & Ht2 & E).
  apply option.bind_Some in E as (t3 & _ & E).
  apply option.bind_Some in E as (t4 & _ & E).
  apply option.bind_Some in E as (sens & _ & E).
  injection E as <-. by eexists counts, t2, _.
Qed.

(** The counts of the four rows of the Tier 2 benefits table. *)
Lemma tier2_row_counts gains counts investment tier2 :
  Roi.calculate_tier2_taxpayer gains counts investment = Some tier2 ->
  at_path ["benefits_savings"; "by_tier"; "graduates_225plus"; "count"] tier2
    = Some (PNum (Roi.count_of counts "graduated")) /\
  at_path ["benefits_savings"; "by_tier"; "tier2_150plus"; "count"] tier2
    = Some (PNum (Roi.count_of counts "near_graduation")) /\
  at_path ["benefits_savings"; "by_tier"; "tier3_100plus"; "count"] tier2
    = Some (PNum (Roi.count_of counts "working_progress")) /\
  at_path ["benefits_savings"; "by_tier"; "tier4_improved"; "count"] tier2
    = Some (PNum (Roi.count_of counts "snap_cliff")).
Proof.
  unfold Roi.calculate_tier2_taxpayer. intros Ht.
  apply option.bind_Some in Ht as (r & _ & Ht).
  apply option.bind_Some in Ht as (b & _ & Ht).
  injection Ht as <-. by repeat split.
Qed.

(** C5 on the code.  For the journey table built from an Empower extract
    with one family at 160 percent and one at 140 percent of the poverty
    line, one journey has the tier "deep_cliff" and one "liheap_childcare",
    and Tier 2 counts no family in its 150-185 and 130-150 rows: the
    benefits savings are 0, where the per-tier table gives 5150 + 1000.
    Whatever the frames, a journey table the builder returns never has a
    "working_progress" or "snap_cliff" tier, the only names under which
    Tier 2 looks these two bands up, so that in every ROI document computed
    from it the two rows count no family. *)
Theorem tier2_misses_journey_tiers :
  (let table :=
     @Journey.build_participant_journeys_from_raw typed_cells
       no_rows no_rows no_rows no_rows empower_middle_tiers no_rows in
   occurrences "deep_cliff" <$> table_column "cliff_tier" table = Some 1 /\
   occurrences "liheap_childcare" <$> table_column "cliff_tier" table = Some 1 /\
   roi_figure ["tier2_taxpayer"; "benefits_savings"; "by_tier";
               "tier3_100plus"; "count"] table = Some (PNum 0) /\
   roi_figure ["tier2_taxpayer"; "benefits_savings"; "by_tier";
               "tier4_improved"; "count"] table = Some (PNum 0) /\
   roi_figure ["tier2_taxpayer"; "benefits_savings"; "total_annual"] table
     = Some (PNum 0)) /\
  (forall intake baseline quarterly change_of_life empower graduates_df table,
     Journey.build_participant_journeys_from_raw
       intake baseline quarterly change_of_life empower graduates_df = Some table ->
     (forall counts, Roi.tier_counts table = Some counts ->
        Roi.count_of counts "working_progress" = 0%Q /\
        Roi.count_of counts "snap_cliff" = 0%Q) /\
     (forall document, Roi.calculate_full_roi table = Some document ->
        at_path ["tier2_taxpayer"; "benefits_savings"; "by_tier";
                 "tier3_100plus"; "count"] document = Some (PNum 0) /\
        at_path ["tier2_taxpayer"; "benefits_savings"; "by_tier";
                 "tier4_improved"; "count"] document = Some (PNum 0))).
Proof.
  split.
  - repeat split; vm_compute; reflexivity.
  - intros intake baseline quarterly change_of_life empower graduates_df table Ht.
    assert (forall counts, Roi.tier_counts table = Some counts ->
              Roi.count_of counts "working_progress" = 0%Q /\
              Roi.count_of counts "snap_cliff" = 0%Q) as Hzero.
    { intros counts Hc. unfold Roi.count_of.
      rewrite !(journey_tiers_named _ _ _ _ _ _ _ _ _ Ht Hc); [done| |].
      - simpl. intuition discriminate.
      - simpl. intuition discriminate. }
    split; [exact Hzero|]. intros document Hdoc.
    destruct (full_roi_tier2 table document Hdoc)
      as (counts & tier2 & gains & Hc & Ht2 & Hpath).
    destruct (tier2_row_counts _ _ _ _ Ht2) as (_ & _ & H3 & H4).
    destruct (Hzero counts Hc) as [Hw Hs].
    rewrite !Hpath, H3, H4, Hw, Hs. done.
Qed.

End TierCounts.

(** C5 on the table of the failing input: it is returned, and falls under
    the general statement. *)
Lemma middle_tiers_table_ids :
  table_column "participant_id"
    (@Journey.build_participant_journeys_from_raw typed_cells
       no_rows no_rows no_rows no_rows empower_middle_tiers no_rows)
  = Some [VInt 1; VInt 2].
Proof. vm_compute. reflexivity. Qed.

Lemma tier2_misses_journey_tiers_witness :
  exists table,
    @Journey.build_participant_journeys_from_raw typed_cells
      no_rows no_rows no_rows no_rows empower_middle_tiers no_rows = Some table /\
    (forall counts, Roi.tier_counts table = Some counts ->
       Roi.count_of counts "working_progress" = 0%Q /\
       Roi.count_of counts "snap_cliff" = 0%Q) /\
    (forall document, Roi.calculate_full_roi table = Some document ->
       at_path ["tier2_taxpayer"; "benefits_savings"; "by_tier";
                "tier3_100plus"; "count"] document = Some (PNum 0) /\
       at_path ["tier2_taxpayer"; "benefits_savings"; "by_tier";
                "tier4_improved"; "count"] document = Some (PNum 0)).
Proof.
  destruct (table_returned _ _ _ middle_tiers_table_ids) as [table Ht].
  exists table. split; [exact Ht|].
  exact (proj2 (@tier2_misses_journey_tiers typed_cells)
           no_rows no_rows no_rows no_rows empower_middle_tiers no_rows table Ht).
Defined.

(** * Further properties of the code *)

(** ** The tier classifiers *)

(** Boolean comparisons as order facts. *)
Lemma Qle_bool_false a b : Qle_bool a b = false <-> (b < a)%Q.
Proof.
  split.
  - intros E. apply Qnot_le_lt. intros Hle. apply Qle_bool_iff in Hle. congruence.
  - intros Hlt. destruct (Qle_bool a b) eqn:E; [|done].
    apply Qle_bool_iff in E. lra.
Qed.

Ltac order_facts :=
  repeat match goal with
         | E : Qle_bool _ _ = true |- _ => apply Qle_bool_iff in E
         | E : Qle_bool _ _ = false |- _ => apply Qle_bool_false in E
         | E : Qltb _ _ = true |- _ => apply Qltb_true in E
         | E : Qltb _ _ = false |- _ => apply Qltb_false in E
         end;
  unfold inject_Z in *.

Lemma py_ge_fin v q z :
  as_fl v = Some (Fin q) -> py_ge v (VInt z) = Some (Qle_bool (inject_Z z) q).
Proof. intros Hq. unfold py_ge, py_cmp. by rewrite Hq. Qed.

Lemma py_le_fin z v q :
  as_fl v = Some (Fin q) -> py_le (VInt z) v = Some (Qle_bool (inject_Z z) q).
Proof. intros Hq. unfold py_le, py_cmp. by rewrite Hq. Qed.

Lemma py_le_fin_r v q z :
  as_fl v = Some (Fin q) -> py_le v (VInt z) = Some (Qle_bool q (inject_Z z)).
Proof. intros Hq. unfold py_le, py_cmp. by rewrite Hq. Qed.

Lemma py_lt_fin v q z :
  as_fl v = Some (Fin q) -> py_lt v (VInt z) = Some (Qltb q (inject_Z z)).
Proof. intros Hq. unfold py_lt, py_cmp. by rewrite Hq. Qed.

Section Classifiers.
#[local] Open Scope Q_scope.

(** The tier of the legacy builder by bands: a missing percentage is
    "unknown"; a percentage q is "graduated" from 225 on, "near_graduation"
    in [185, 225), "deep_cliff" in [150, 185), "liheap_childcare" in
    [130, 150), "snap_tenncare" in [100, 130), "deep_poverty" in [50, 100)
    and "extreme_poverty" below 50. *)
Theorem cliff_tier_bands :
  (forall fpl, isna fpl = true ->
     Journey.classify_cliff_tier fpl = Some "unknown") /\
  (forall fpl q, as_fl fpl = Some (Fin q) ->
     exists t, Journey.classify_cliff_tier fpl = Some t /\
       (t = "graduated" <-> 225 <= q) /\
       (t = "near_graduation" <-> 185 <= q < 225) /\
       (t = "deep_cliff" <-> 150 <= q < 185) /\
       (t = "liheap_childcare" <-> 130 <= q < 150) /\
       (t = "snap_tenncare" <-> 100 <= q < 130) /\
       (t = "deep_poverty" <-> 50 <= q < 100) /\
       (t = "extreme_poverty" <-> q < 50)).
Proof.
  split.
  - intros fpl Hna. unfold Journey.classify_cliff_tier. by rewrite Hna.
  - intros fpl q Hq. unfold Journey.classify_cliff_tier.
    rewrite (as_fl_fin_notna _ _ Hq), !(py_ge_fin _ _ _ Hq). simpl.
    destruct (Qle_bool (inject_Z 225) q) eqn:E225; simpl;
      [|destruct (Qle_bool (inject_Z 185) q) eqn:E185; simpl;
        [|destruct (Qle_bool (inject_Z 150) q) eqn:E150; simpl;
          [|destruct (Qle_bool (inject_Z 130) q) eqn:E130; simpl;
            [|destruct (Qle_bool (inject_Z 100) q) eqn:E100; simpl;
              [|destruct (Qle_bool (inject_Z 50) q) eqn:E50; simpl]]]]];
      order_facts;
      (eexists; split; [reflexivity|]);
      repeat split; intros; first [discriminate | lra].
Qed.

Lemma cliff_tier_bands_witness :
  exists t, Journey.classify_cliff_tier (VNum 160) = Some t /\
    (t = "deep_cliff" <-> 150 <= 160 < 185).
Proof.
  destruct cliff_tier_bands as [_ Hb].
  destruct (Hb (VNum 160) 160 eq_refl) as (t & Ht & _ & _ & Hd & _).
  exists t. by split.
Defined.

(** The tier names of the ROI module and of the journey table cut the FPL
    scale at the same thresholds: [categorize_fpl] is [classify_cliff_tier]
    with "deep_cliff", "liheap_childcare" and "snap_tenncare" renamed to
    "working_progress", "snap_cliff" and "poverty_line". *)
Theorem categorize_fpl_renames_cliff_tier (fpl : value) :
  Roi.categorize_fpl fpl = roi_tier_name <$> Journey.classify_cliff_tier fpl.
Proof.
  unfold Roi.categorize_fpl, Journey.classify_cliff_tier.
  destruct (isna fpl); [done|].
  repeat match goal with
         | |- context [py_ge fpl ?t] => destruct (py_ge fpl t) as [[|]|]; simpl; try done
         end.
Qed.

(** The zones of the cliff analysis cover the percentages from 100 up to,
    not including, 225, and inside them [classify_tier] names the zone as
    the journey table names the tier. *)
Theorem cliff_zones_match_journey_tiers (fpl : value) (q : Q) :
  as_fl fpl = Some (Fin q) ->
  exists r, Cliff.classify_tier fpl = Some r /\
    (r = VNone <-> q < 100 \/ 225 <= q) /\
    (forall t, r = VStr t -> Journey.classify_cliff_tier fpl = Some t).
Proof.
  intros Hq. unfold Cliff.classify_tier, Journey.classify_cliff_tier.
  rewrite (as_fl_fin_notna _ _ Hq), !(py_ge_fin _ _ _ Hq).
  unfold Cliff.CLIFF_ZONES, Cliff.first_zone, Cliff.in_zone. simpl.
  rewrite !(py_le_fin _ _ _ Hq), !(py_lt_fin _ _ _ Hq). simpl.
  destruct (Qle_bool (inject_Z 225) q) eqn:E225;
    destruct (Qle_bool (inject_Z 185) q) eqn:E185;
    destruct (Qle_bool (inject_Z 150) q) eqn:E150;
    destruct (Qle_bool (inject_Z 130) q) eqn:E130;
    destruct (Qle_bool (inject_Z 100) q) eqn:E100;
    destruct (Qle_bool (inject_Z 50) q) eqn:E50;
    destruct (Qltb q (inject_Z 225)) eqn:L225;
    destruct (Qltb q (inject_Z 185)) eqn:L185;
    destruct (Qltb q (inject_Z 150)) eqn:L150;
    destruct (Qltb q (inject_Z 130)) eqn:L130;
    simpl; order_facts; try lra;
    (eexists; split; [reflexivity|]);
    (split; [split; [first [discriminate | intros _; lra]
                    | first [done | intros [?|?]; lra]]
            | intros t [= <-]; reflexivity]).
Qed.

Lemma cliff_zones_match_journey_tiers_witness :
  exists r, Cliff.classify_tier (VNum 140) = Some r /\
    (forall t, r = VStr t -> Journey.classify_cliff_tier (VNum 140) = Some t).
Proof.
  destruct (cliff_zones_match_journey_tiers (VNum 140) 140 eq_refl)
    as (r & Hr & _ & Ht).
  exists r. by split.
Defined.

End Classifiers.

(** ** The FPL functions *)

Section PovertyLine.
#[local] Open Scope Q_scope.

Lemma calculate_fpl_pct_unfold income q h :
  as_fl income = Some (Fin q) -> 0 < q -> (1 <= h)%Z ->
  Journey.calculate_fpl_pct income (VInt h) =
    (r0 ← py_div income (VInt (15060 + 5380 * (h - 1))); py_mul r0 (VInt 100)).
Proof.
  intros Hq Hpos Hh. unfold Journey.calculate_fpl_pct.
  rewrite (as_fl_fin_notna _ _ Hq), (py_le_fin_r _ _ _ Hq). simpl.
  assert (Qle_bool q (inject_Z 0) = false) as ->
    by (apply Qle_bool_false; by unfold inject_Z).
  simpl. by rewrite (Z.max_r 1 h) by lia.
Qed.

Lemma calc_fpl_pct_unfold income q h :
  as_fl income = Some (Fin q) -> 0 < q -> (1 <= h)%Z ->
  Roi.calc_fpl_pct income (VInt h) =
    (r0 ← py_div income (VInt (15060 + 5380 * (h - 1))); py_mul r0 (VInt 100)).
Proof.
  intros Hq Hpos Hh. unfold Roi.calc_fpl_pct.
  rewrite (as_fl_fin_notna _ _ Hq), (py_le_fin_r _ _ _ Hq). simpl.
  assert (Qle_bool q (inject_Z 0) = false) as ->
    by (apply Qle_bool_false; by unfold inject_Z).
  simpl. by rewrite (Z.max_r 1 h) by lia.
Qed.

Lemma calculate_fpl_unfold income q h :
  as_fl income = Some (Fin q) -> 0 <= q -> (1 <= h)%Z ->
  Metrics.calculate_fpl income (VInt h) =
    (r0 ← py_div income (VInt (15060 + 5380 * (h - 1))); py_mul r0 (VInt 100)).
Proof.
  intros Hq Hpos Hh. unfold Metrics.calculate_fpl.
  rewrite (as_fl_fin_notna _ _ Hq). simpl.
  assert (Qltb (inject_Z h) (inject_Z 1) = false) as ->.
  { apply Qltb_false. rewrite <- Zle_Qle. lia. }
  rewrite (py_lt_fin _ _ _ Hq). simpl.
  assert (Qltb q (inject_Z 0) = false) as -> by (by apply Qltb_false).
  unfold Metrics.get_poverty_line.
  by assert ((h <? 1)%Z = false) as -> by (apply Z.ltb_ge; lia).
Qed.

Lemma calculate_fpl_from_income_unfold income h :
  (1 <= h)%Z ->
  Transform.calculate_fpl_from_income income (VInt h) =
    (r0 ← py_div income (VInt (15060 + 5380 * (h - 1))); py_mul r0 (VInt 100)).
Proof.
  intros Hh. unfold Transform.calculate_fpl_from_income. simpl.
  assert (Qltb (inject_Z h) (inject_Z 1) = false) as ->.
  { apply Qltb_false. rewrite <- Zle_Qle. lia. }
  simpl. unfold py_eq_num. simpl.
  rewrite Qeq_bool_inject_Z_pos by lia. done.
Qed.

(** The four FPL functions agree wherever all of them apply: for a positive
    income and a whole household size of at least 1, the journey builder,
    the metrics module, the pipeline and the ROI module return the same
    percentage, income / (15060 + 5380 * (h - 1)) * 100. *)
Theorem fpl_functions_agree (income : value) (q : Q) (h : Z) :
  as_fl income = Some (Fin q) -> 0 < q -> (1 <= h)%Z ->
  exists r,
    Journey.calculate_fpl_pct income (VInt h) = Some (VNum r) /\
    Metrics.calculate_fpl income (VInt h) = Some (VNum r) /\
    Transform.calculate_fpl_from_income income (VInt h) = Some (VNum r) /\
    Roi.calc_fpl_pct income (VInt h) = Some (VNum r) /\
    r == q / poverty_line h * 100.
Proof.
  intros Hq Hpos Hh.
  destruct (fpl_ratio income q h Hq Hh) as (r & Hr & Heq).
  exists r.
  rewrite (calculate_fpl_pct_unfold _ _ _ Hq Hpos Hh),
    (calculate_fpl_unfold _ _ _ Hq (Qlt_le_weak _ _ Hpos) Hh),
    (calculate_fpl_from_income_unfold _ _ Hh),
    (calc_fpl_pct_unfold _ _ _ Hq Hpos Hh).
  done.
Qed.

Lemma fpl_functions_agree_witness :
  exists r,
    Journey.calculate_fpl_pct (VNum 30000) (VInt 4) = Some (VNum r) /\
    Metrics.calculate_fpl (VNum 30000) (VInt 4) = Some (VNum r) /\
    Transform.calculate_fpl_from_income (VNum 30000) (VInt 4) = Some (VNum r) /\
    Roi.calc_fpl_pct (VNum 30000) (VInt 4) = Some (VNum r) /\
    r == 30000 / poverty_line 4 * 100.
Proof.
  apply (fpl_functions_agree (VNum 30000) 30000 4); [reflexivity | lra | lia].
Defined.

Lemma poverty_line_mono h1 h2 :
  (1 <= h1)%Z -> (h1 <= h2)%Z -> 0 < poverty_line h1 <= poverty_line h2.
Proof.
  intros H1 H2. unfold poverty_line. split.
  - replace 0 with (inject_Z 0) by done. rewrite <- Zlt_Qlt. lia.
  - rewrite <- Zle_Qle. lia.
Qed.

(** The FPL percentage of the journey builder grows with the income and
    shrinks with the household: a smaller income in a larger household never
    gives a larger percentage. *)
Theorem fpl_pct_monotone (income1 income2 : value) (q1 q2 : Q) (h1 h2 : Z) :
  as_fl income1 = Some (Fin q1) -> as_fl income2 = Some (Fin q2) ->
  0 < q1 -> q1 <= q2 -> (1 <= h1)%Z -> (h1 <= h2)%Z ->
  exists r1 r2,
    Journey.calculate_fpl_pct income1 (VInt h2) = Some (VNum r1) /\
    Journey.calculate_fpl_pct income2 (VInt h1) = Some (VNum r2) /\
    r1 <= r2.
Proof.
  intros Hq1 Hq2 Hpos Hle H1 H2.
  assert (effective_household_size (VInt h1) = Some h1) as E1.
  { unfold effective_household_size. simpl. f_equal. lia. }
  assert (effective_household_size (VInt h2) = Some h2) as E2.
  { unfold effective_household_size. simpl. f_equal. lia. }
  destruct (calculate_fpl_pct_positive income1 q1 (VInt h2) h2 Hq1 Hpos E2)
    as (r1 & Hr1 & Heq1).
  destruct (calculate_fpl_pct_positive income2 q2 (VInt h1) h1 Hq2
              ltac:(lra) E1) as (r2 & Hr2 & Heq2).
  exists r1, r2. split; [done|]. split; [done|].
  rewrite Heq1, Heq2.
  destruct (poverty_line_mono h1 h2 H1 H2) as [P1 P12].
  set (p1 := poverty_line h1) in *. set (p2 := poverty_line h2) in *.
  assert (0 < p2) as P2 by lra.
  apply Qmult_le_compat_r; [|lra].
  apply Qle_shift_div_l; [done|].
  assert (q1 / p2 * p1 == q1 * p1 / p2) as -> by (field; lra).
  apply Qle_shift_div_r; [done|]. nra.
Qed.

Lemma fpl_pct_monotone_witness :
  exists r1 r2,
    Journey.calculate_fpl_pct (VNum 20000) (VInt 5) = Some (VNum r1) /\
    Journey.calculate_fpl_pct (VNum 30000) (VInt 2) = Some (VNum r2) /\
    r1 <= r2.
Proof.
  apply (fpl_pct_monotone (VNum 20000) (VNum 30000) 20000 30000 2 5);
    first [reflexivity | lra | lia].
Defined.

Lemma div_times_100_float income pl y :
  is_number income = true -> as_fl pl = Some y ->
  (forall q, y = Fin q -> Qeq_bool q 0 = false) ->
  exists f, (r0 ← py_div income pl; py_mul r0 (VInt 100)) = Some (VFloat f).
Proof.
  intros Ni Hpl Hnz. unfold py_div. rewrite Hpl.
  destruct (is_number_as_fl _ Ni) as [x ->]. simpl.
  destruct x as [|p], y as [|q]; simpl; try (eexists; reflexivity).
  rewrite (Hnz q eq_refl). simpl. eexists; reflexivity.
Qed.

(** [calculate_fpl_from_income] of the pipeline returns a float for every
    income and household size that are numbers: its poverty line is never
    0, so the guard on it never fires, and no income is turned away. *)
Theorem calculate_fpl_from_income_never_null (income household_size : value) :
  is_number income = true -> is_number household_size = true ->
  exists f, Transform.calculate_fpl_from_income income household_size
            = Some (VFloat f).
Proof.
  intros Ni Nh. unfold Transform.calculate_fpl_from_income.
  assert (forall (inc : value), is_number inc = true ->
            exists f, (r0 ← py_div inc (VInt 15060); py_mul r0 (VInt 100))
                      = Some (VFloat f)) as Hone.
  { intros inc Hinc.
    apply (div_times_100_float inc (VInt 15060) (fl_of_Z 15060) Hinc eq_refl).
    by intros q [= <-]. }
  destruct household_size as [|[|p]|z| | | |]; try done.
  - simpl. unfold py_eq_num. simpl.
    apply (div_times_100_float income (VFloat NaN) NaN Ni eq_refl). done.
  - rewrite (py_lt_fin (VFloat (Fin p)) p 1 eq_refl). simpl.
    destruct (Qltb p (inject_Z 1)) eqn:E.
    + simpl. unfold py_eq_num. simpl. by apply Hone.
    + simpl. unfold py_eq_num. simpl.
      apply Qltb_false in E. unfold inject_Z in E.
      assert (Qeq_bool (Qred (15060 + Qred (5380 * Qred (p - 1)))) 0 = false) as Hnz.
      { destruct (Qeq_bool _ 0) eqn:E0; [|done]. apply Qeq_bool_eq in E0.
        rewrite !Qred_correct in E0. lra. }
      unfold inject_Z. rewrite Hnz. simpl.
      eapply (div_times_100_float income _ _ Ni); [reflexivity|].
      by intros q [= <-].
  - rewrite (py_lt_fin (VInt z) (inject_Z z) 1 eq_refl). simpl.
    destruct (Qltb (inject_Z z) (inject_Z 1)) eqn:E.
    + simpl. unfold py_eq_num. simpl. by apply Hone.
    + simpl. unfold py_eq_num. simpl.
      apply Qltb_false in E. rewrite <- Zle_Qle in E.
      rewrite Qeq_bool_inject_Z_pos by lia. simpl.
      eapply (div_times_100_float income _ _ Ni); [reflexivity|].
      intros q [= <-]. apply Qeq_bool_inject_Z_pos. lia.
Qed.

Lemma calculate_fpl_from_income_never_null_witness :
  exists f, Transform.calculate_fpl_from_income (VNum (- 100)) (VNum 0.5)
            = Some (VFloat f).
Proof.
  by apply (calculate_fpl_from_income_never_null (VNum (- 100)) (VNum 0.5)).
Defined.

Lemma Qle_bool_times_12 p :
  Qle_bool (Qred (p * inject_Z 12)) (inject_Z 0) = Qle_bool p (inject_Z 0).
Proof.
  destruct (Qle_bool p (inject_Z 0)) eqn:E.
  - apply Qle_bool_iff. apply Qle_bool_iff in E. rewrite Qred_correct.
    unfold inject_Z in *. lra.
  - apply Qle_bool_false. apply Qle_bool_false in E. rewrite Qred_correct.
    unfold inject_Z in *. lra.
Qed.

(** [calculate_fpl_for_row] of the cliff analysis is [calculate_fpl_pct] of
    the journey builder on twelve times the monthly income of the row and
    on its household cell; without the income column it returns [None]. *)
Theorem calculate_fpl_for_row_agrees (int_of_str : string -> option Z)
    (row : Series) (income_col : string) (hh_col : option string) :
  (Cliff.in_index income_col row = false ->
   Cliff.calculate_fpl_for_row int_of_str row income_col hh_col = Some VNone) /\
  (Cliff.in_index income_col row = true ->
   is_number (series_get income_col row) = true ->
   is_num (household_cell row hh_col) = true ->
   Cliff.calculate_fpl_for_row int_of_str row income_col hh_col =
     (annual ← py_mul (series_get income_col row) (VInt 12);
      Journey.calculate_fpl_pct annual (household_cell row hh_col))).
Proof.
  split.
  - intros Hin. unfold Cliff.calculate_fpl_for_row. by rewrite Hin.
  - intros Hin Nm Nh. unfold Cliff.calculate_fpl_for_row. rewrite Hin. simpl.
    assert ((match hh_col with
             | Some c =>
                 if negb (String.eqb c "") && Cliff.in_index c row
                 then if notna (series_get c row)
                      then Z.max 1 <$> Cliff.py_int_cell int_of_str (series_get c row)
                      else Some 3%Z
                 else Some 3%Z
             | None => Some 3%Z
             end) =
            (if notna (household_cell row hh_col)
             then Z.max 1 <$> py_int (household_cell row hh_col) else Some 3%Z))
      as Hhh.
    { unfold household_cell in *. destruct hh_col as [c|]; [|done].
      destruct (negb (String.eqb c "") && Cliff.in_index c row); [|done].
      by destruct (series_get c row). }
    rewrite Hhh. clear Hhh. unfold Journey.calculate_fpl_pct.
    destruct (series_get income_col row) as [|[|p]|z| | | |]; try done.
    + simpl. rewrite Qle_bool_times_12.
      by destruct (Qle_bool p (inject_Z 0)).
    + simpl.
      assert (Qle_bool (inject_Z (z * 12)) (inject_Z 0)
              = Qle_bool (inject_Z z) (inject_Z 0)) as ->.
      { destruct (Qle_bool (inject_Z z) (inject_Z 0)) eqn:E.
        - apply Qle_bool_iff. apply Qle_bool_iff in E.
          rewrite <- Zle_Qle in *. lia.
        - apply Qle_bool_false. apply Qle_bool_false in E.
          rewrite <- Zlt_Qlt in *. lia. }
      by destruct (Qle_bool (inject_Z z) (inject_Z 0)).
Qed.

Lemma calculate_fpl_for_row_agrees_witness :
  Cliff.calculate_fpl_for_row (fun _ => None)
    [("total_monthly_income", VNum 2000); ("adults", VInt 2)]
    "total_monthly_income" (Some "adults") =
  Journey.calculate_fpl_pct (VNum 24000) (VInt 2).
Proof.
  exact (proj2 (calculate_fpl_for_row_agrees (fun _ => None)
                  [("total_monthly_income", VNum 2000); ("adults", VInt 2)]
                  "total_monthly_income" (Some "adults"))
               eq_refl eq_refl eq_refl).
Defined.

End PovertyLine.

(** ** Household sizes below 1 *)

Section SmallHousehold.
#[local] Open Scope Q_scope.

(** Below a household size of 1 the FPL functions part ways.  For a positive
    income and a whole household size under 1, the journey builder, the
    pipeline and the ROI module raise the size to 1 and return the income
    over 15060, times 100, while [calculate_fpl] of the metrics module
    returns [None]. *)
Theorem fpl_functions_differ_below_one (income : value) (q : Q) (h : Z) :
  as_fl income = Some (Fin q) -> 0 < q -> (h < 1)%Z ->
  Metrics.calculate_fpl income (VInt h) = Some VNone /\
  exists r,
    Journey.calculate_fpl_pct income (VInt h) = Some (VNum r) /\
    Transform.calculate_fpl_from_income income (VInt h) = Some (VNum r) /\
    Roi.calc_fpl_pct income (VInt h) = Some (VNum r) /\
    r == q / 15060 * 100.
Proof.
  intros Hq Hpos Hh.
  assert (Qltb (inject_Z h) (inject_Z 1) = true) as Hsmall.
  { apply Qltb_true. rewrite <- Zlt_Qlt. lia. }
  assert (Qle_bool q (inject_Z 0) = false) as Hnonpos.
  { apply Qle_bool_false. by unfold inject_Z. }
  destruct (fpl_ratio income q 1 Hq ltac:(lia)) as (r & Hr & Heq).
  change (15060 + 5380 * (1 - 1))%Z with 15060%Z in Hr.
  split.
  - unfold Metrics.calculate_fpl. rewrite (as_fl_fin_notna _ _ Hq). simpl.
    by rewrite Hsmall.
  - exists r. split; [|split; [|split]].
    + unfold Journey.calculate_fpl_pct.
      rewrite (as_fl_fin_notna _ _ Hq), (py_le_fin_r _ _ _ Hq). simpl.
      rewrite Hnonpos. simpl. by rewrite (Z.max_l 1 h) by lia.
    + unfold Transform.calculate_fpl_from_income. simpl.
      rewrite Hsmall. simpl. exact Hr.
    + unfold Roi.calc_fpl_pct.
      rewrite (as_fl_fin_notna _ _ Hq), (py_le_fin_r _ _ _ Hq). simpl.
      rewrite Hnonpos. simpl. by rewrite (Z.max_l 1 h) by lia.
    + rewrite Heq. unfold poverty_line. reflexivity.
Qed.

Lemma fpl_functions_differ_below_one_witness :
  Metrics.calculate_fpl (VNum 30000) (VInt 0) = Some VNone /\
  exists r,
    Journey.calculate_fpl_pct (VNum 30000) (VInt 0) = Some (VNum r) /\
    Transform.calculate_fpl_from_income (VNum 30000) (VInt 0) = Some (VNum r) /\
    Roi.calc_fpl_pct (VNum 30000) (VInt 0) = Some (VNum r) /\
    r == 30000 / 15060 * 100.
Proof.
  apply (fpl_functions_differ_below_one (VNum 30000) 30000 0);
    [reflexivity | lra | lia].
Defined.

End SmallHousehold.

(** ** The benefits at risk in a cliff zone *)

Section CliffBenefits.
#[local] Open Scope Q_scope.

Lemma py_max_one children c :
  as_fl children = Some (Fin c) ->
  exists n m, Cliff.py_max children (VInt 1) = Some n /\
    as_fl n = Some (Fin m) /\ 1 <= m /\ c <= m /\ (c <= 1 -> m == 1) /\
    (1 <= c -> m == c).
Proof.
  intros Hc. unfold Cliff.py_max, py_gt, py_cmp. rewrite Hc. simpl.
  destruct (Qltb c (inject_Z 1)) eqn:E; order_facts.
  - exists (VInt 1), 1. repeat split; try done; try lra; intros; lra.
  - exists children, c. repeat split; try done; try lra; intros; lra.
Qed.

Lemma py_mul_int_fin k n m :
  as_fl n = Some (Fin m) ->
  exists v x, py_mul (VInt k) n = Some v /\ as_fl v = Some (Fin x) /\
    x == inject_Z k * m.
Proof.
  intros Hm. destruct n as [|[|p]|z|b| | |]; try done; simpl in Hm.
  - injection Hm as ->. eexists _, _. split; [reflexivity|]. split; [reflexivity|].
    by rewrite Qred_correct.
  - injection Hm as <-. eexists _, _. split; [reflexivity|]. split; [reflexivity|].
    by rewrite inject_Z_mult.
  - injection Hm as <-. eexists _, _. split; [reflexivity|]. split; [reflexivity|].
    by rewrite inject_Z_mult.
Qed.

Lemma py_add_fin a b x y :
  as_fl a = Some (Fin x) -> as_fl b = Some (Fin y) ->
  exists v s, py_add a b = Some v /\ as_fl v = Some (Fin s) /\ s == x + y.
Proof.
  intros Ha Hb. unfold py_add, py_arith.
  destruct (as_int a) as [i|] eqn:Ia, (as_int b) as [j|] eqn:Ib.
  - eexists _, _. split; [reflexivity|]. split; [reflexivity|].
    unfold as_fl in Ha, Hb.
    destruct a; try done; destruct b; try done; simpl in *;
      injection Ia as <-; injection Ib as <-;
      injection Ha as <-; injection Hb as <-; by rewrite inject_Z_plus.
  - rewrite Ha, Hb. simpl. eexists _, _. split; [reflexivity|].
    split; [reflexivity|]. by rewrite Qred_correct.
  - rewrite Ha, Hb. simpl. eexists _, _. split; [reflexivity|].
    split; [reflexivity|]. by rewrite Qred_correct.
  - rewrite Ha, Hb. simpl. eexists _, _. split; [reflexivity|].
    split; [reflexivity|]. by rewrite Qred_correct.
Qed.

(** What a zone puts at risk, as a function of the number of children, is
    linear in the children counted from one on: a number a and a number b,
    neither negative, with benefits a + b * max(children, 1). *)
Lemma zone_benefits_linear zone :
  In zone Cliff.CLIFF_ZONES ->
  exists a b : Q, 0 <= a /\ 0 <= b /\
    forall children c m, as_fl children = Some (Fin c) ->
      (c <= 1 -> m == 1) -> (1 <= c -> m == c) ->
      exists v x, Cliff.calc_benefits zone children = Some v /\
        as_fl v = Some (Fin x) /\ x == a + b * m.
Proof.
  intros Hz. simpl in Hz.
  destruct Hz as [<-|[<-|[<-|[<-|[]]]]]; simpl.
  - exists 10800, 0. split; [lra|]. split; [lra|].
    intros children c m Hc _ _. eexists _, _. split; [reflexivity|].
    split; [reflexivity|]. vm_compute (inject_Z _). lra.
  - exists 600, 6000. split; [lra|]. split; [lra|].
    intros children c m Hc Hlow Hhigh.
    destruct (py_max_one children c Hc) as (n & m' & -> & Hn & _ & _ & Hl & Hh).
    simpl.
    destruct (py_mul_int_fin Cliff.BENEFIT_childcare_per_child n m' Hn)
      as (care & x & -> & Hcare & Hx). simpl.
    destruct (py_add_fin care (VInt Cliff.BENEFIT_liheap_annual) x 600 Hcare eq_refl)
      as (v & s & -> & Hv & Hs).
    exists v, s. split; [done|]. split; [done|]. rewrite Hs, Hx.
    assert (m' == m) as ->.
    { destruct (Qlt_le_dec c 1) as [Hlt|Hge].
      - rewrite Hl, Hlow by lra. reflexivity.
      - rewrite Hh, Hhigh by lra. reflexivity. }
    vm_compute (inject_Z _). lra.
  - exists 0, 7800. split; [lra|]. split; [lra|].
    intros children c m Hc Hlow Hhigh.
    destruct (py_max_one children c Hc) as (n & m' & -> & Hn & _ & _ & Hl & Hh).
    simpl.
    destruct (py_mul_int_fin Cliff.BENEFIT_childcare_per_child n m' Hn)
      as (care & x & -> & Hcare & Hx). simpl.
    destruct (py_mul_int_fin Cliff.BENEFIT_school_lunch_per_child n m' Hn)
      as (lunch & y & -> & Hlunch & Hy). simpl.
    destruct (py_add_fin care lunch x y Hcare Hlunch) as (v & s & -> & Hv & Hs).
    exists v, s. split; [done|]. split; [done|]. rewrite Hs, Hx, Hy.
    assert (m' == m) as ->.
    { destruct (Qlt_le_dec c 1) as [Hlt|Hge].
      - rewrite Hl, Hlow by lra. reflexivity.
      - rewrite Hh, Hhigh by lra. reflexivity. }
    vm_compute (inject_Z _). lra.
  - exists 0, 0. split; [lra|]. split; [lra|].
    intros children c m Hc _ _. eexists _, _. split; [reflexivity|].
    split; [reflexivity|]. vm_compute (inject_Z _). lra.
Qed.

(** In every cliff zone the benefits at risk are never negative, never
    shrink when a family has more children, and are the same for every
    family with at most one child. *)
Theorem cliff_benefits_by_children (zone : Cliff.Zone)
    (children1 children2 : value) (c1 c2 : Q) :
  In zone Cliff.CLIFF_ZONES ->
  as_fl children1 = Some (Fin c1) -> as_fl children2 = Some (Fin c2) ->
  c1 <= c2 ->
  exists v1 v2 x1 x2,
    Cliff.calc_benefits zone children1 = Some v1 /\ as_fl v1 = Some (Fin x1) /\
    Cliff.calc_benefits zone children2 = Some v2 /\ as_fl v2 = Some (Fin x2) /\
    0 <= x1 /\ x1 <= x2 /\ (c2 <= 1 -> x1 == x2).
Proof.
  intros Hz H1 H2 Hle.
  destruct (zone_benefits_linear zone Hz) as (a & b & Ha & Hb & Hlin).
  set (m1 := if Qlt_le_dec c1 1 then 1 else c1).
  set (m2 := if Qlt_le_dec c2 1 then 1 else c2).
  assert ((c1 <= 1 -> m1 == 1) /\ (1 <= c1 -> m1 == c1)) as [L1 U1].
  { subst m1. destruct (Qlt_le_dec c1 1); split; intros; lra. }
  assert ((c2 <= 1 -> m2 == 1) /\ (1 <= c2 -> m2 == c2)) as [L2 U2].
  { subst m2. destruct (Qlt_le_dec c2 1); split; intros; lra. }
  destruct (Hlin children1 c1 m1 H1 L1 U1) as (v1 & x1 & E1 & F1 & X1).
  destruct (Hlin children2 c2 m2 H2 L2 U2) as (v2 & x2 & E2 & F2 & X2).
  exists v1, v2, x1, x2. repeat (split; [done|]).
  assert (1 <= m1 /\ m1 <= m2) as [M1 M12].
  { subst m1 m2. destruct (Qlt_le_dec c1 1), (Qlt_le_dec c2 1); split; lra. }
  rewrite X1, X2. split; [nra|]. split; [nra|].
  intros Hc2. rewrite (L1 ltac:(lra)), (L2 Hc2). reflexivity.
Qed.

Lemma cliff_benefits_by_children_witness :
  Forall (fun zone =>
    exists v1 v2 x1 x2,
      Cliff.calc_benefits zone (VNum 0) = Some v1 /\ as_fl v1 = Some (Fin x1) /\
      Cliff.calc_benefits zone (VNum 3) = Some v2 /\ as_fl v2 = Some (Fin x2) /\
      0 <= x1 /\ x1 <= x2 /\ (3 <= 1 -> x1 == x2))
    Cliff.CLIFF_ZONES.
Proof.
  apply List.Forall_forall. intros zone Hz.
  apply (cliff_benefits_by_children zone (VNum 0) (VNum 3) 0 3);
    [exact Hz | reflexivity | reflexivity | lra].
Defined.

End CliffBenefits.

(** ** Rounding *)

Section RoundingFacts.
#[local] Open Scope Q_scope.

Lemma round_half_even_proper x y : x == y -> round_half_even x = round_half_even y.
Proof.
  intros E. unfold round_half_even. rewrite (Qfloor_comp _ _ E).
  assert (x - inject_Z (Qfloor y) == y - inject_Z (Qfloor y)) as E' by (by rewrite E).
  by rewrite (Qcompare_comp _ _ E' (1 # 2) (1 # 2) (Qeq_refl _)).
Qed.

Lemma py_round_proper x y n : x == y -> py_round x n = py_round y n.
Proof.
  intros E. unfold py_round. apply Qred_complete.
  set (s := inject_Z (10 ^ Z.of_nat n)).
  rewrite (round_half_even_proper (x * s) (y * s)); [reflexivity|]. by rewrite E.
Qed.

Lemma round_half_even_inject_Z z : round_half_even (inject_Z z) = z.
Proof.
  unfold round_half_even. rewrite Qfloor_Z.
  assert (inject_Z z - inject_Z z == 0) as E by ring.
  rewrite (Qcompare_comp _ _ E (1 # 2) (1 # 2) (Qeq_refl _)). done.
Qed.

Lemma Qred_inject_Z z : Qred (inject_Z z) = inject_Z z.
Proof.
  unfold Qred, inject_Z.
  pose proof (Z.ggcd_gcd z 1) as Hg.
  pose proof (Z.ggcd_correct_divisors z 1) as Hd.
  destruct (Z.ggcd z 1) as (g & aa & bb). simpl in Hg.
  rewrite Z.gcd_1_r in Hg. subst g. destruct Hd as [-> Hb].
  assert (bb = 1%Z) as -> by lia. f_equal. lia.
Qed.

(** Rounding a whole number to 0 decimals leaves it as it is. *)
Lemma py_round_integer x z : x == inject_Z z -> py_round x 0 = inject_Z z.
Proof.
  intros E. rewrite (py_round_proper x (inject_Z z) 0 E). unfold py_round.
  change (inject_Z (10 ^ Z.of_nat 0)) with 1.
  rewrite (round_half_even_proper (inject_Z z * 1) (inject_Z z)) by ring.
  rewrite round_half_even_inject_Z.
  rewrite <- (Qred_inject_Z z) at 2. apply Qred_complete. field.
Qed.

Lemma round_half_even_mono x y : x <= y -> (round_half_even x <= round_half_even y)%Z.
Proof.
  intros Hle.
  pose proof (Qfloor_resp_le _ _ Hle) as Hf.
  destruct (Z.eq_dec (Qfloor x) (Qfloor y)) as [E|N].
  - unfold round_half_even. rewrite E.
    destruct (Qcompare_spec (x - inject_Z (Qfloor y)) (1 # 2)) as [Hx|Hx|Hx];
      destruct (Qcompare_spec (y - inject_Z (Qfloor y)) (1 # 2)) as [Hy|Hy|Hy];
      try lia; try (destruct (Z.even (Qfloor y)); lia); lra.
  - assert (round_half_even x <= Qfloor x + 1)%Z as H1.
    { unfold round_half_even. repeat case_match; lia. }
    assert (Qfloor y <= round_half_even y)%Z as H2.
    { unfold round_half_even. repeat case_match; lia. }
    lia.
Qed.

(** Rounding keeps the order. *)
Lemma py_round_mono x y n : x <= y -> py_round x n <= py_round y n.
Proof.
  intros Hle. unfold py_round. rewrite !Qred_correct.
  set (s := inject_Z (10 ^ Z.of_nat n)).
  assert (0 < s) as Hs.
  { subst s. change 0 with (inject_Z 0). rewrite <- Zlt_Qlt.
    apply Z.pow_pos_nonneg; lia. }
  apply Qmult_le_compat_r; [|apply Qlt_le_weak, Qinv_lt_0_compat, Hs].
  rewrite <- Zle_Qle. apply round_half_even_mono. nra.
Qed.

Lemma py_round_0 n : py_round 0 n = 0.
Proof.
  unfold py_round.
  rewrite (round_half_even_proper (0 * _) (inject_Z 0)) by ring.
  rewrite round_half_even_inject_Z. apply (Qred_complete _ 0). unfold Qdiv. ring.
Qed.

End RoundingFacts.

(** Evaluates a path into a result document. *)
Ltac at_path_tac := cbn [at_path item assoc String.eqb Ascii.eqb Bool.eqb andb].

(** ** Tier 2 *)

Section Tier2.
#[local] Open Scope Q_scope.

(** Runs [calculate_tier2_taxpayer] up to its result document. *)
Ltac tier2_run :=
  unfold Roi.calculate_tier2_taxpayer;
  match goal with
  | |- context [Roi.ratio_or_zero ?a ?b ?n] =>
      let o := fresh "ratio" in destruct (ratio_or_zero_total a b n) as [o ->]
  end;
  cbn [mbind option_bind];
  match goal with
  | |- context [Qltb 0 ?t] =>
      let Et := fresh "Et" in
      destruct (Qltb 0 t) eqn:Et;
      [rewrite (py_qdiv_pos _ _ Et)|];
      cbn [mbind option_bind]
  end.

Lemma count_times k n (counts : gmap string Z) (t : string) :
  k == inject_Z n ->
  Roi.count_of counts t * k == inject_Z (n * default 0%Z (counts !! t)).
Proof. intros ->. unfold Roi.count_of. rewrite inject_Z_mult. ring. Qed.

(** The benefits savings of Tier 2: the total of each tier is its count
    times the per-family savings the document states (17,900 for graduates,
    9,900 for "near_graduation", 5,150 for "working_progress" and 1,000 for
    "snap_cliff"), and the annual total is the sum of the four. *)
Theorem tier2_savings_by_tier (gains investment : Q) (counts : gmap string Z) :
  let G := default 0%Z (counts !! "graduated") in
  let N := default 0%Z (counts !! "near_graduation") in
  let W := default 0%Z (counts !! "working_progress") in
  let S := default 0%Z (counts !! "snap_cliff") in
  exists r,
    Roi.calculate_tier2_taxpayer gains counts investment = Some r /\
    at_path ["benefits_savings"; "by_tier"; "graduates_225plus"; "per_family_savings"] r
      = Some (PNum 17900) /\
    at_path ["benefits_savings"; "by_tier"; "graduates_225plus"; "total"] r
      = Some (PNum (inject_Z (17900 * G))) /\
    at_path ["benefits_savings"; "by_tier"; "tier2_150plus"; "per_family_savings"] r
      = Some (PNum 9900) /\
    at_path ["benefits_savings"; "by_tier"; "tier2_150plus"; "total"] r
      = Some (PNum (inject_Z (9900 * N))) /\
    at_path ["benefits_savings"; "by_tier"; "tier3_100plus"; "per_family_savings"] r
      = Some (PNum 5150) /\
    at_path ["benefits_savings"; "by_tier"; "tier3_100plus"; "total"] r
      = Some (PNum (inject_Z (5150 * W))) /\
    at_path ["benefits_savings"; "by_tier"; "tier4_improved"; "per_family_savings"] r
      = Some (PNum 1000) /\
    at_path ["benefits_savings"; "by_tier"; "tier4_improved"; "total"] r
      = Some (PNum (inject_Z (1000 * S))) /\
    at_path ["benefits_savings"; "total_annual"] r
      = Some (PNum (inject_Z (17900 * G + 9900 * N + 5150 * W + 1000 * S))).
Proof.
  intros G N W S.
  assert (Roi.count_of counts "graduated"
            * (Roi.BEN_tenncare_adult + Roi.BEN_snap_household + Roi.BEN_tanf_cash
               + Roi.BEN_childcare_full) == inject_Z (17900 * G)) as HG.
  { by apply count_times. }
  assert (Roi.count_of counts "near_graduation"
            * (Roi.BEN_snap_household + Roi.BEN_tanf_cash + Roi.BEN_childcare_reduced)
          == inject_Z (9900 * N)) as HN.
  { by apply count_times. }
  assert (Roi.count_of counts "working_progress"
            * (Roi.BEN_tanf_cash + Roi.BEN_snap_household * 0.5)
          == inject_Z (5150 * W)) as HW.
  { by apply count_times. }
  assert (Roi.count_of counts "snap_cliff" * 1000 == inject_Z (1000 * S)) as HS.
  { by apply count_times. }
  tier2_run;
    (eexists; split; [reflexivity|]; at_path_tac;
     repeat split; try reflexivity; do 2 f_equal; apply py_round_integer;
     rewrite ?inject_Z_plus, ?HG, ?HN, ?HW, ?HS; reflexivity).
Qed.

Lemma tier2_total_taxpayer gains counts :
  gains * Roi.TAX_fica_total + gains * Roi.TAX_federal_income_effective
  + gains * Roi.TAX_state_income
  + gains * Roi.TAX_sales_tax_rate * Roi.TAX_sales_tax_spending_share
  + (Roi.count_of counts "graduated"
       * (Roi.BEN_tenncare_adult + Roi.BEN_snap_household + Roi.BEN_tanf_cash
          + Roi.BEN_childcare_full)
     + Roi.count_of counts "near_graduation"
       * (Roi.BEN_snap_household + Roi.BEN_tanf_cash + Roi.BEN_childcare_reduced)
     + Roi.count_of counts "working_progress"
       * (Roi.BEN_tanf_cash + Roi.BEN_snap_household * 0.5)
     + Roi.count_of counts "snap_cliff" * 1000)
  == gains * 0.301 + inject_Z (tier2_savings counts).
Proof.
  unfold tier2_savings. rewrite !inject_Z_plus, !inject_Z_mult.
  unfold Roi.count_of, Roi.TAX_fica_total, Roi.TAX_federal_income_effective,
    Roi.TAX_state_income, Roi.TAX_sales_tax_rate, Roi.TAX_sales_tax_spending_share,
    Roi.BEN_tenncare_adult, Roi.BEN_snap_household, Roi.BEN_tanf_cash,
    Roi.BEN_childcare_full, Roi.BEN_childcare_reduced.
  change (inject_Z 17900) with 17900. change (inject_Z 9900) with 9900.
  change (inject_Z 5150) with 5150. change (inject_Z 1000) with 1000.
  ring.
Qed.

Lemma rounded_to_proper n x y r : x == y -> rounded_to n x r -> rounded_to n y r.
Proof.
  intros E [Hd Hn]. split; [done|].
  assert (r - y == r - x) as -> by (by rewrite E). done.
Qed.

(** The combined figures of Tier 2.  The taxes are 30.1 percent of the wage
    gains and the taxpayer benefit is taxes plus benefits savings, both
    rounded to whole dollars.  An investment that is not positive gives a
    return of 0 and a taxpayer benefit that is not positive a break-even of
    "N/A": no division is attempted.  Otherwise the return is the benefit
    per dollar invested, rounded to 4 decimals, and the break-even the
    investment over the benefit, rounded to 1 decimal. *)
Theorem tier2_combined_figures (gains investment : Q) (counts : gmap string Z) :
  let total := gains * 0.301 + inject_Z (tier2_savings counts) in
  exists r taxes benefit,
    Roi.calculate_tier2_taxpayer gains counts investment = Some r /\
    at_path ["tax_revenue"; "total_annual"] r = Some (PNum taxes) /\
    rounded_to 0 (gains * 0.301) taxes /\
    at_path ["combined"; "total_annual_taxpayer_benefit"] r
      = Some (PNum benefit) /\
    rounded_to 0 total benefit /\
    (0 < investment ->
       exists a,
         at_path ["combined"; "annual_return_per_dollar"] r = Some (PNum a) /\
         rounded_to 4 (total / investment) a) /\
    (investment <= 0 ->
       at_path ["combined"; "annual_return_per_dollar"] r = Some (PNum 0)) /\
    (0 < total ->
       exists b,
         at_path ["combined"; "break_even_years"] r = Some (PNum b) /\
         rounded_to 1 (investment / total) b) /\
    (total <= 0 ->
       at_path ["combined"; "break_even_years"] r = Some (PStr "N/A")).
Proof.
  intros total. pose proof (tier2_total_taxpayer gains counts) as Htot.
  fold total in Htot.
  unfold Roi.calculate_tier2_taxpayer, Roi.ratio_or_zero.
  set (t := _ + _ + _ + _ + (_ + _ + _ + _)) in *.
  assert (Qltb 0 t = Qltb 0 total) as Hpos.
  { unfold Qltb. f_equal. destruct (Qle_bool total 0) eqn:E.
    - apply Qle_bool_iff. apply Qle_bool_iff in E. by rewrite Htot.
    - apply Qle_bool_false. apply Qle_bool_false in E. by rewrite Htot. }
  rewrite Hpos.
  assert (gains * Roi.TAX_fica_total + gains * Roi.TAX_federal_income_effective
          + gains * Roi.TAX_state_income
          + gains * Roi.TAX_sales_tax_rate * Roi.TAX_sales_tax_spending_share
          == gains * 0.301) as Htax.
  { unfold Roi.TAX_fica_total, Roi.TAX_federal_income_effective,
      Roi.TAX_state_income, Roi.TAX_sales_tax_rate, Roi.TAX_sales_tax_spending_share.
    ring. }
  destruct (Qltb 0 investment) eqn:Ei;
    [rewrite (py_qdiv_pos t investment Ei)|]; cbn [mbind option_bind];
    (destruct (Qltb 0 total) eqn:Et;
     [rewrite (py_qdiv_nonzero investment t)
        by (apply Qltb_true in Et; rewrite Htot; lra)|];
     cbn [mbind option_bind];
     (eexists _, _, _; split; [reflexivity|]; at_path_tac;
      split; [reflexivity|];
      split; [exact (rounded_to_proper _ _ _ _ Htax (py_round_rounded_to _ _))|];
      split; [reflexivity|];
      split; [exact (rounded_to_proper _ _ _ _ Htot (py_round_rounded_to _ _))|];
      repeat split;
      try (intros Hc; first [apply Qltb_true in Ei | apply Qltb_false in Ei];
           first [apply Qltb_true in Et | apply Qltb_false in Et];
           first [ lra | reflexivity
                 | eexists; split; [reflexivity|];
                   apply (rounded_to_proper _ (t / investment)); [by rewrite Htot|];
                   apply py_round_rounded_to
                 | eexists; split; [reflexivity|];
                   apply (rounded_to_proper _ (investment / t)); [by rewrite Htot|];
                   apply py_round_rounded_to ]))).
Qed.

(** Tier 2 where the return lies halfway between two roundings: no wage
    gains, one graduate and an investment of 358 million give 17900 / 358M =
    0.00005. *)
Lemma tier2_combined_figures_witness :
  let counts : gmap string Z := {["graduated" := 1%Z]} in
  let total := 0 * 0.301 + inject_Z (tier2_savings counts) in
  exists r taxes benefit,
    Roi.calculate_tier2_taxpayer 0 counts 358000000 = Some r /\
    at_path ["tax_revenue"; "total_annual"] r = Some (PNum taxes) /\
    rounded_to 0 (0 * 0.301) taxes /\
    at_path ["combined"; "total_annual_taxpayer_benefit"] r
      = Some (PNum benefit) /\
    rounded_to 0 total benefit /\
    (0 < 358000000 ->
       exists a,
         at_path ["combined"; "annual_return_per_dollar"] r = Some (PNum a) /\
         rounded_to 4 (total / 358000000) a) /\
    (358000000 <= 0 ->
       at_path ["combined"; "annual_return_per_dollar"] r = Some (PNum 0)) /\
    (0 < total ->
       exists b,
         at_path ["combined"; "break_even_years"] r = Some (PNum b) /\
         rounded_to 1 (358000000 / total) b) /\
    (total <= 0 ->
       at_path ["combined"; "break_even_years"] r = Some (PStr "N/A")).
Proof.
  exact (tier2_combined_figures 0 358000000 {["graduated" := 1%Z]}).
Defined.

End Tier2.

(** ** Tier 3 and Tier 4 *)

Section Lifecycle.
#[local] Open Scope Q_scope.

Lemma annuity_factor_value years :
  Roi.annuity_factor Roi.PROJ_discount_rate years = Some (annuity years).
Proof. unfold Roi.annuity_factor. by rewrite py_qdiv_nonzero. Qed.

Lemma pv_with_fade_value gains :
  exists pv, Roi.pv_with_fade_of gains Roi.PROJ_discount_rate = Some pv /\
    pv == gains * fade_factor.
Proof.
  unfold Roi.pv_with_fade_of. rewrite !annuity_factor_value.
  cbn [mbind option_bind].
  rewrite !py_qdiv_nonzero by apply pow_discount_nonzero.
  cbn [mbind option_bind]. eexists. split; [reflexivity|].
  unfold fade_factor, Qdiv. ring.
Qed.

Lemma fade_factor_bounds : 0 <= fade_factor /\ fade_factor <= annuity 25.
Proof. split; apply Qle_bool_iff; vm_compute; reflexivity. Qed.

Lemma annuity_25_nonneg : 0 <= annuity 25.
Proof. apply Qle_bool_iff. vm_compute. reflexivity. Qed.

Lemma Qdiv_le_compat a b c : 0 < c -> a <= b -> a / c <= b / c.
Proof.
  intros Hc Hab. unfold Qdiv. apply Qmult_le_compat_r; [done|].
  apply Qlt_le_weak, Qinv_lt_0_compat, Hc.
Qed.

(** Tier 3 never projects more with the wage fade than with full
    persistence: for wage gains that are not negative, the lifetime value
    and the ROI ratio with fade are at most those with full persistence,
    and neither is negative. *)
Theorem tier3_fade_below_full_persistence (gains investment : Q) :
  0 <= gains ->
  exists r full fade ratio_full ratio_fade,
    Roi.calculate_tier3_lifecycle gains investment = Some r /\
    at_path ["projections"; "full_persistence"; "lifetime_pv"] r = Some (PNum full) /\
    at_path ["projections"; "with_fade"; "lifetime_pv"] r = Some (PNum fade) /\
    at_path ["projections"; "full_persistence"; "roi_ratio"] r
      = Some (PNum ratio_full) /\
    at_path ["projections"; "with_fade"; "roi_ratio"] r = Some (PNum ratio_fade) /\
    0 <= fade /\ fade <= full /\ 0 <= ratio_fade /\ ratio_fade <= ratio_full.
Proof.
  intros Hg. unfold Roi.calculate_tier3_lifecycle. cbv zeta.
  rewrite annuity_factor_value.
  destruct (pv_with_fade_value gains) as (pv & -> & Hpv).
  cbn [mbind option_bind].
  destruct fade_factor_bounds as [F0 F25].
  assert (0 <= pv) as P0 by (rewrite Hpv; nra).
  assert (pv <= gains * annuity Roi.PROJ_default_working_years) as P25.
  { rewrite Hpv. change Roi.PROJ_default_working_years with 25%Z. nra. }
  unfold Roi.ratio_or_zero. destruct (Qltb 0 investment) eqn:Ei.
  - rewrite !(py_qdiv_pos _ investment Ei). cbn [mbind option_bind].
    apply Qltb_true in Ei.
    eexists _, _, _, _, _. split; [reflexivity|]. at_path_tac.
    repeat (split; [reflexivity|]).
    split; [rewrite <- (py_round_0 0); by apply py_round_mono|].
    split; [by apply py_round_mono|].
    split.
    + rewrite <- (py_round_0 1). apply py_round_mono.
      apply Qle_shift_div_l; [done|]. lra.
    + apply py_round_mono. by apply Qdiv_le_compat.
  - cbn [mbind option_bind].
    eexists _, _, _, _, _. split; [reflexivity|]. at_path_tac.
    repeat (split; [reflexivity|]).
    split; [rewrite <- (py_round_0 0); by apply py_round_mono|].
    split; [by apply py_round_mono|]. split; lra.
Qed.

Lemma tier3_fade_below_full_persistence_witness :
  exists r full fade ratio_full ratio_fade,
    Roi.calculate_tier3_lifecycle 6200000 25000000 = Some r /\
    at_path ["projections"; "full_persistence"; "lifetime_pv"] r = Some (PNum full) /\
    at_path ["projections"; "with_fade"; "lifetime_pv"] r = Some (PNum fade) /\
    at_path ["projections"; "full_persistence"; "roi_ratio"] r
      = Some (PNum ratio_full) /\
    at_path ["projections"; "with_fade"; "roi_ratio"] r = Some (PNum ratio_fade) /\
    0 <= fade /\ fade <= full /\ 0 <= ratio_fade /\ ratio_fade <= ratio_full.
Proof.
  apply (tier3_fade_below_full_persistence 6200000 25000000). lra.
Defined.

Lemma Qtrunc_nonneg q : 0 <= q -> (0 <= Qtrunc q)%Z.
Proof.
  intros Hq. unfold Qtrunc. apply Z.quot_pos; [|lia].
  unfold Qle in Hq. simpl in Hq. lia.
Qed.

Lemma delayed_annuity_nonneg :
  0 <= annuity 30 / (1 + Roi.PROJ_discount_rate) ^ 15.
Proof. apply Qle_bool_iff. vm_compute. reflexivity. Qed.

(** Tier 4 builds on Tier 3: its adult lifecycle value is the lifetime
    value with fade of Tier 3, and with an average gain and a family count
    that are not negative the societal total is at least that value. *)
Theorem tier4_builds_on_tier3 (gains avg_gain investment : Q) (families : Z) :
  ~ investment == 0 -> 0 <= avg_gain -> (0 <= families)%Z ->
  exists r3 r4 adult total,
    Roi.calculate_tier3_lifecycle gains investment = Some r3 /\
    Roi.calculate_tier4_intergenerational gains avg_gain families investment
      = Some r4 /\
    at_path ["projections"; "with_fade"; "lifetime_pv"] r3 = Some (PNum adult) /\
    at_path ["combined_societal"; "adult_lifecycle_pv"] r4 = Some (PNum adult) /\
    at_path ["combined_societal"; "total_societal_pv"] r4 = Some (PNum total) /\
    adult <= total.
Proof.
  intros Hi Ha Hf.
  unfold Roi.calculate_tier3_lifecycle, Roi.calculate_tier4_intergenerational.
  cbv zeta. rewrite !annuity_factor_value.
  destruct (pv_with_fade_value gains) as (pv & -> & Hpv).
  rewrite (py_qdiv_nonzero avg_gain 1000) by done.
  repeat (rewrite bind_Some; cbn beta).
  rewrite (py_qdiv_nonzero (annuity 30)) by apply pow_discount_nonzero.
  repeat (rewrite bind_Some; cbn beta).
  destruct (ratio_or_zero_total
              (gains * annuity Roi.PROJ_default_working_years) investment 1)
    as [o1 ->].
  destruct (ratio_or_zero_total pv investment 1) as [o2 ->].
  repeat (rewrite bind_Some; cbn beta).
  match goal with
  | |- context [Roi.ratio_or_zero ?a ?b ?n] =>
      destruct (ratio_or_zero_total a b n) as [o3 ->]
  end.
  repeat (rewrite bind_Some; cbn beta).
  rewrite (py_qdiv_nonzero _ investment Hi).
  repeat (rewrite bind_Some; cbn beta).
  assert (0 <= inject_Z (Qtrunc (inject_Z families * Roi.PROJ_avg_children_per_family)))
    as Hc.
  { change 0 with (inject_Z 0). rewrite <- Zle_Qle. apply Qtrunc_nonneg.
    assert (0 <= inject_Z families) by (change 0 with (inject_Z 0); by rewrite <- Zle_Qle).
    unfold Roi.PROJ_avg_children_per_family. nra. }
  pose proof delayed_annuity_nonneg as Hd.
  match goal with
  | |- context [Qltb 10 ?t] => destruct (Qltb 10 t)
  end;
    (eexists _, _, _, _; split; [reflexivity|]; split; [reflexivity|];
     cbn [at_path item assoc String.eqb Ascii.eqb Bool.eqb andb app];
     repeat (split; [reflexivity|]);
     apply py_round_mono;
     set (c := inject_Z (Qtrunc _)) in *;
     set (d := annuity 30 / _) in *;
     unfold Roi.PROJ_chetty_coefficient;
     assert (0 <= avg_gain / 1000) as Hk by (apply Qle_shift_div_l; lra);
     set (k := avg_gain / 1000) in *;
     assert (0 <= 40000 * 0.013 * k) as Hb by lra;
     set (b := 40000 * 0.013 * k) in *;
     assert (0 <= b * c) as Hbc by nra;
     assert (0 <= b * c * d) as Hbcd by nra;
     lra).
Qed.

Lemma tier4_builds_on_tier3_witness :
  exists r3 r4 adult total,
    Roi.calculate_tier3_lifecycle 6200000 25000000 = Some r3 /\
    Roi.calculate_tier4_intergenerational 6200000 7000 862 25000000 = Some r4 /\
    at_path ["projections"; "with_fade"; "lifetime_pv"] r3 = Some (PNum adult) /\
    at_path ["combined_societal"; "adult_lifecycle_pv"] r4 = Some (PNum adult) /\
    at_path ["combined_societal"; "total_societal_pv"] r4 = Some (PNum total) /\
    adult <= total.
Proof.
  apply (tier4_builds_on_tier3 6200000 7000 25000000 862); [|lra|lia].
  intros E. vm_compute in E. discriminate.
Defined.

End Lifecycle.

(** ** The sensitivity analysis *)

Section Sensitivity.
#[local] Open Scope Q_scope.

(** The scenarios of the sensitivity analysis are ordered: with wage gains
    that are not negative and a positive investment, a smaller attribution
    never implies a larger lifecycle ROI, and a faster fade never gives a
    larger ROI ratio. *)
Theorem sensitivity_scenarios_ordered (gains investment : Q) :
  0 <= gains -> 0 < investment ->
  exists r a100 a70 a50 a30 full moderate rapid,
    Roi.calculate_sensitivity_analysis gains investment = Some r /\
    at_path ["attribution"; "scenarios"; "100pct"; "implied_lifecycle_roi"] r
      = Some (PNum a100) /\
    at_path ["attribution"; "scenarios"; "70pct"; "implied_lifecycle_roi"] r
      = Some (PNum a70) /\
    at_path ["attribution"; "scenarios"; "50pct"; "implied_lifecycle_roi"] r
      = Some (PNum a50) /\
    at_path ["attribution"; "scenarios"; "30pct"; "implied_lifecycle_roi"] r
      = Some (PNum a30) /\
    at_path ["wage_persistence"; "scenarios"; "full"; "roi_ratio"] r
      = Some (PNum full) /\
    at_path ["wage_persistence"; "scenarios"; "moderate_fade"; "roi_ratio"] r
      = Some (PNum moderate) /\
    at_path ["wage_persistence"; "scenarios"; "rapid_fade"; "roi_ratio"] r
      = Some (PNum rapid) /\
    0 <= a30 /\ a30 <= a50 /\ a50 <= a70 /\ a70 <= a100 /\
    0 <= rapid /\ rapid <= moderate /\ moderate <= full.
Proof.
  intros Hg Hi. unfold Roi.calculate_sensitivity_analysis, Roi.ratio_or_zero.
  assert (Qltb 0 investment = true) as -> by (by apply Qltb_true).
  cbn [mapM mbind option_bind mret option_ret].
  rewrite !(py_qdiv_nonzero (inject_Z _) 100) by done.
  repeat (rewrite bind_Some; cbn beta).
  rewrite !(py_qdiv_nonzero _ investment) by lra.
  repeat (rewrite bind_Some; cbn beta).
  rewrite !py_qdiv_nonzero by done.
  repeat (rewrite bind_Some; cbn beta).
  rewrite !py_qdiv_nonzero by done.
  repeat (rewrite bind_Some; cbn beta).
  change (str_of_Z 100 +:+ "pct") with "100pct".
  change (str_of_Z 70 +:+ "pct") with "70pct".
  change (str_of_Z 50 +:+ "pct") with "50pct".
  change (str_of_Z 30 +:+ "pct") with "30pct".
  eexists _, _, _, _, _, _, _, _. split; [reflexivity|]. at_path_tac.
  repeat (split; [reflexivity|]).
  assert (forall a b, 0 <= a -> a <= b ->
            gains * a / investment * 25 <= gains * b / investment * 25) as Hattr.
  { intros a b Ha Hab. apply Qmult_le_compat_r; [|lra].
    apply Qdiv_le_compat; [done | nra]. }
  assert (forall a b, 0 <= a -> a <= b ->
            gains * a / investment <= gains * b / investment) as Hpers.
  { intros a b Ha Hab. apply Qdiv_le_compat; [done | nra]. }
  assert (forall a, 0 <= a -> 0 <= gains * a / investment) as Hnn.
  { intros a Ha. apply Qle_shift_div_l; [done | nra]. }
  change (inject_Z 100 / 100) with (100 # 100).
  change (inject_Z 70 / 100) with (70 # 100).
  change (inject_Z 50 / 100) with (50 # 100).
  change (inject_Z 30 / 100) with (30 # 100).
  repeat split.
  - rewrite <- (py_round_0 1). apply py_round_mono.
    apply Qmult_le_0_compat; [apply Hnn|]; lra.
  - apply py_round_mono, Hattr; lra.
  - apply py_round_mono, Hattr; lra.
  - apply py_round_mono, Hattr; lra.
  - rewrite <- (py_round_0 1). apply py_round_mono, Hnn. lra.
  - apply py_round_mono, Hpers; lra.
  - apply py_round_mono, Hpers; lra.
Qed.

Lemma sensitivity_scenarios_ordered_witness :
  exists r a100 a70 a50 a30 full moderate rapid,
    Roi.calculate_sensitivity_analysis 6200000 25000000 = Some r /\
    at_path ["attribution"; "scenarios"; "100pct"; "implied_lifecycle_roi"] r
      = Some (PNum a100) /\
    at_path ["attribution"; "scenarios"; "70pct"; "implied_lifecycle_roi"] r
      = Some (PNum a70) /\
    at_path ["attribution"; "scenarios"; "50pct"; "implied_lifecycle_roi"] r
      = Some (PNum a50) /\
    at_path ["attribution"; "scenarios"; "30pct"; "implied_lifecycle_roi"] r
      = Some (PNum a30) /\
    at_path ["wage_persistence"; "scenarios"; "full"; "roi_ratio"] r
      = Some (PNum full) /\
    at_path ["wage_persistence"; "scenarios"; "moderate_fade"; "roi_ratio"] r
      = Some (PNum moderate) /\
    at_path ["wage_persistence"; "scenarios"; "rapid_fade"; "roi_ratio"] r
      = Some (PNum rapid) /\
    0 <= a30 /\ a30 <= a50 /\ a50 <= a70 /\ a70 <= a100 /\
    0 <= rapid /\ rapid <= moderate /\ moderate <= full.
Proof.
  apply (sensitivity_scenarios_ordered 6200000 25000000); lra.
Defined.

End Sensitivity.

(** ** The full ROI document *)

Section FullRoi.
#[local] Open Scope Q_scope.

Lemma Qsum_positive_gains (journeys : list jdict) :
  Roi.Qsum (List.filter (fun w => Qltb 0 w)
              (dropna (Roi.cell_float
                       <$> ((fun j => jget j "income_change_annual") <$> journeys))))
  == positive_gains journeys.
Proof.
  unfold Roi.Qsum. rewrite Qred_correct.
  induction journeys as [|j journeys IH]; [reflexivity|].
  change (positive_gains (j :: journeys))
    with (gain_of j + positive_gains journeys).
  cbn [fmap list_fmap dropna omap list_omap]. unfold gain_of.
  fold (dropna (Roi.cell_float
                <$> ((fun j => jget j "income_change_annual") <$> journeys))).
  destruct (Roi.cell_float (jget j "income_change_annual")) as [|q].
  - rewrite IH. ring.
  - cbn [List.filter]. destruct (Qltb 0 q); cbn [foldr]; rewrite IH; ring.
Qed.

Lemma positive_gains_nonneg journeys : 0 <= positive_gains journeys.
Proof.
  induction journeys as [|j journeys IH]; [done|]. simpl.
  assert (0 <= gain_of j); [|lra].
  unfold gain_of. destruct (Roi.cell_float _) as [|q]; [lra|].
  destruct (Qltb 0 q) eqn:E; [|lra]. apply Qltb_true in E. lra.
Qed.

Lemma full_roi_gains (journeys : list jdict) income tiers :
  journeys_column journeys "income_change_annual" = Some income ->
  journeys_column journeys "cliff_tier" = Some tiers ->
  exists document g r,
    Roi.calculate_full_roi journeys = Some document /\
    at_path ["tier1_conservative"; "metrics"; "documented_annual_wage_gains"]
      document = Some (PNum g) /\
    rounded_to 0 (positive_gains journeys) g /\
    at_path ["tier1_conservative"; "metrics"; "annual_return_per_dollar_invested"]
      document = Some (PNum r) /\
    rounded_to 4 (positive_gains journeys / 25000000) r.
Proof.
  intros Hincome Htiers. unfold Roi.calculate_full_roi, Roi.tier_counts.
  rewrite Hincome, Htiers. cbn [mbind option_bind fmap option_fmap option_map].
  cbv zeta.
  apply journeys_column_Some in Hincome as [-> _].
  pose proof (Qsum_positive_gains journeys) as Hsum.
  set (total := Roi.Qsum _) in *.
  set (count := Z.of_nat (length (List.filter _ _))).
  assert (exists avg,
    (if (0 <? count)%Z then Qred <$> py_qdiv total (inject_Z count) else Some 0)
    = Some avg) as [avg ->].
  { destruct (0 <? count)%Z eqn:E; [|eauto].
    rewrite py_qdiv_nonzero; [simpl; eauto|].
    apply Z.ltb_lt in E. intros H0.
    assert (0 < inject_Z count); [|lra].
    change 0 with (inject_Z 0). by rewrite <- Zlt_Qlt. }
  repeat (rewrite bind_Some; cbn beta).
  destruct (tier2_has_caveats total (Roi.value_counts tiers)
              (inject_Z Metrics.PROGRAM_INVESTMENT)) as (t2 & -> & _).
  destruct (tier3_has_caveats total (inject_Z Metrics.PROGRAM_INVESTMENT))
    as (t3 & -> & _).
  pose proof (tier4_has_caveats total avg (Z.of_nat (length journeys))
                (inject_Z Metrics.PROGRAM_INVESTMENT)) as H4.
  destruct (Roi.calculate_tier4_intergenerational _ _ _ _) as [t4|];
    [|by vm_compute in H4].
  destruct (sensitivity_has_no_caveats total (inject_Z Metrics.PROGRAM_INVESTMENT))
    as (s & -> & _).
  unfold Roi.calculate_tier1_conservative.
  change (Qltb 0 (inject_Z Metrics.PROGRAM_INVESTMENT)) with true.
  rewrite (py_qdiv_nonzero total (inject_Z Metrics.PROGRAM_INVESTMENT)) by done.
  repeat (rewrite bind_Some; cbn beta).
  destruct (Qltb 0 total) eqn:Et;
    [rewrite (py_qdiv_pos _ _ Et)|];
    cbn [mbind option_bind fmap option_fmap option_map];
    (eexists _, _, _; split; [reflexivity|]; at_path_tac;
     split; [reflexivity|];
     split; [exact (rounded_to_proper _ _ _ _ Hsum (py_round_rounded_to _ _))|];
     split; [reflexivity|];
     apply (rounded_to_proper _ (total / inject_Z Metrics.PROGRAM_INVESTMENT));
     [change (inject_Z Metrics.PROGRAM_INVESTMENT) with 25000000; by rewrite Hsum
     |apply py_round_rounded_to]).
Qed.

(** [calculate_full_roi] reads the columns [income_change_annual] and
    [cliff_tier] of the journey table: when no journey has one of the keys,
    as in an empty table, it raises [KeyError].  With both columns, the
    income changes being numbers or null, it returns a document: the average
    over the positive gainers is guarded and the program investment is not
    0.  The wage gains it documents are
    the sum of the positive income changes alone, rounded to whole dollars;
    a journey whose change is missing, zero or negative adds nothing and
    takes nothing away.  The Tier 1 return is that sum over the investment
    of 25 million, rounded to 4 decimals. *)
Theorem full_roi_counts_positive_gains (journeys : list jdict) :
  (journeys_column journeys "income_change_annual" = None \/
   journeys_column journeys "cliff_tier" = None ->
   Roi.calculate_full_roi journeys = None) /\
  (forall income tiers,
     journeys_column journeys "income_change_annual" = Some income ->
     forallb is_num income = true ->
     journeys_column journeys "cliff_tier" = Some tiers ->
     exists document g r,
       Roi.calculate_full_roi journeys = Some document /\
       at_path ["tier1_conservative"; "metrics"; "documented_annual_wage_gains"]
         document = Some (PNum g) /\
       rounded_to 0 (positive_gains journeys) g /\
       at_path ["tier1_conservative"; "metrics";
                "annual_return_per_dollar_invested"]
         document = Some (PNum r) /\
       rounded_to 4 (positive_gains journeys / 25000000) r /\
       0 <= positive_gains journeys).
Proof.
  split.
  - unfold Roi.calculate_full_roi, Roi.tier_counts. intros [-> | Hnone]; [done|].
    rewrite Hnone. destruct (journeys_column journeys "income_change_annual");
      [|done].
    cbn [mbind option_bind fmap option_fmap option_map]. cbv zeta.
    match goal with
    | |- (?avg ≫= _) = None => by destruct avg
    end.
  - intros income tiers Hi _ Ht.
    destruct (full_roi_gains journeys income tiers Hi Ht)
      as (document & g & r & Hdoc & Hg & Hgr & Hr & Hrr).
    exists document, g, r. repeat (split; [done|]).
    apply positive_gains_nonneg.
Qed.

(** The ROI document of two journeys, one with a gain of 1250 and one with
    a loss: the gain alone is documented, 1250 / 25M = 0.00005 lying halfway
    between two roundings. *)
Lemma full_roi_counts_positive_gains_witness :
  exists document g r,
    Roi.calculate_full_roi journeys_gain_and_loss = Some document /\
    at_path ["tier1_conservative"; "metrics"; "documented_annual_wage_gains"]
      document = Some (PNum g) /\
    rounded_to 0 (positive_gains journeys_gain_and_loss) g /\
    at_path ["tier1_conservative"; "metrics"; "annual_return_per_dollar_invested"]
      document = Some (PNum r) /\
    rounded_to 4 (positive_gains journeys_gain_and_loss / 25000000) r /\
    0 <= positive_gains journeys_gain_and_loss.
Proof.
  apply (proj2 (full_roi_counts_positive_gains journeys_gain_and_loss)
           [VNum 1250; VNum (-600)] [VStr "deep_cliff"; VStr "unknown"]);
    vm_compute; reflexivity.
Defined.

Lemma value_counts_occurrences (cells : list value) (t : string) :
  default 0%Z (Roi.value_counts cells !! t) = occurrences t cells.
Proof.
  unfold occurrences. induction cells as [|v cells IH]; [done|].
  simpl. destruct v; try exact IH.
  destruct (String.eqb s t) eqn:E.
  - apply String.eqb_eq in E. subst s. rewrite lookup_insert_eq. simpl.
    rewrite IH. lia.
  - apply String.eqb_neq in E. rewrite lookup_insert_ne by done. exact IH.
Qed.

Lemma value_counts_positive (cells : list value) (t : string) (n : Z) :
  Roi.value_counts cells !! t = Some n -> (0 < n)%Z.
Proof.
  revert n. induction cells as [|v cells IH]; [done|]. intros n. simpl.
  destruct v; try apply IH.
  destruct (String.eqb s t) eqn:Es.
  - apply String.eqb_eq in Es. subst s. rewrite lookup_insert_eq.
    intros [= <-]. rewrite value_counts_occurrences. unfold occurrences. lia.
  - apply String.eqb_neq in Es. rewrite lookup_insert_ne by done. apply IH.
Qed.

(** [value_counts] counts every string of a column under its own name and
    under no other: the count of a name is the number of cells that hold it,
    and a name that holds no cell has no entry. *)
Theorem value_counts_counts_cells (cells : list value) (t : string) :
  Roi.count_of (Roi.value_counts cells) t = inject_Z (occurrences t cells) /\
  (Roi.value_counts cells !! t = None <-> occurrences t cells = 0%Z).
Proof.
  pose proof (value_counts_occurrences cells t) as Hocc.
  split.
  - unfold Roi.count_of. by rewrite Hocc.
  - split.
    + intros Hn. by rewrite Hn in Hocc.
    + intros H0. destruct (Roi.value_counts cells !! t) as [n|] eqn:E; [|done].
      apply value_counts_positive in E. simpl in Hocc. lia.
Qed.

End FullRoi.

(** ** The success metrics of the journey table *)

Section SuccessMetrics.
#[local] Open Scope Q_scope.

Lemma guarded_quotient (a : Q) (n : Z) :
  exists r,
    (if (0 <? n)%Z then py_qdiv a (inject_Z n) else Some 0) = Some r /\
    r == (if (0 <? n)%Z then a / inject_Z n else 0).
Proof.
  destruct (0 <? n)%Z eqn:E; [|by exists 0].
  exists (a / inject_Z n). split; [|reflexivity].
  apply py_qdiv_nonzero. apply Z.ltb_lt in E. intros H0.
  assert (0 < inject_Z n); [|lra].
  change 0 with (inject_Z 0). by rewrite <- Zlt_Qlt.
Qed.

Lemma sum_flags_count (journeys : list jdict) :
  forallb (fun j => is_flag (jget j "is_graduate")) journeys = true ->
  JourneyMetrics.sum_flags ((fun j => jget j "is_graduate") <$> journeys)
    = Some (Z.of_nat (length (List.filter flagged_graduate journeys))).
Proof.
  induction journeys as [|j journeys IH]; [done|].
  cbn [forallb]. intros [Hj Hrest]%andb_prop.
  change ((fun j => jget j "is_graduate") <$> j :: journeys)
    with (jget j "is_graduate" :: ((fun j => jget j "is_graduate") <$> journeys)).
  cbn [List.filter]. unfold flagged_graduate at 1.
  destruct (jget j "is_graduate") as [| | |b| | |]; try done.
  cbn [JourneyMetrics.sum_flags]. rewrite (IH Hrest). cbn [mbind option_bind].
  f_equal. destruct b; cbn [length]; lia.
Qed.

Lemma numbers_length (cells : list value) :
  (length (JourneyMetrics.numbers cells) <= length cells)%nat.
Proof.
  unfold JourneyMetrics.numbers, dropna.
  induction cells as [|v cells IH]; [done|].
  change (Roi.cell_float <$> v :: cells)
    with (Roi.cell_float v :: (Roi.cell_float <$> cells)).
  cbn [omap list_omap]. destruct (Roi.cell_float v); cbn [length]; lia.
Qed.

Lemma graduates_with_fpl (journeys : list jdict) :
  graduates_have_fpl journeys = true ->
  (length (List.filter flagged_graduate journeys)
   <= length (JourneyMetrics.numbers
                ((fun j => jget j "current_fpl") <$> journeys)))%nat.
Proof.
  unfold JourneyMetrics.numbers, dropna, graduates_have_fpl.
  induction journeys as [|j journeys IH]; [done|].
  cbn [forallb]. intros [Hj Hrest]%andb_prop. specialize (IH Hrest).
  cbn [fmap list_fmap omap list_omap List.filter].
  destruct (flagged_graduate j), (Roi.cell_float (jget j "current_fpl"));
    cbn [length]; try done; cbn [fmap list_fmap] in IH; lia.
Qed.

(** A share of a count in a total, as a percentage rounded to one decimal,
    lies between 0 and 100. *)
Lemma rate_bounds (p w : Z) (r : Q) :
  (0 <= p <= w)%Z ->
  r == (if (0 <? w)%Z then inject_Z p / inject_Z w else 0) ->
  0 <= py_round (r * 100) 1 /\ py_round (r * 100) 1 <= 100.
Proof.
  intros [Hp Hw] Hr.
  assert (0 <= r /\ r <= 1) as [H0 H1].
  { rewrite Hr. destruct (0 <? w)%Z eqn:E; [|lra].
    apply Z.ltb_lt in E.
    assert (0 < inject_Z w) by (change 0 with (inject_Z 0); by rewrite <- Zlt_Qlt).
    assert (0 <= inject_Z p) by (change 0 with (inject_Z 0); by rewrite <- Zle_Qle).
    assert (inject_Z p <= inject_Z w) by (by rewrite <- Zle_Qle).
    split.
    - apply Qle_shift_div_l; [done|lra].
    - apply Qle_shift_div_r; [done|lra]. }
  split.
  - rewrite <- (py_round_0 1). apply py_round_mono. lra.
  - change 100 with (py_round 100 1) at 2. apply py_round_mono. lra.
Qed.

Lemma is_flag_has_key (j : jdict) k : is_flag (jget j k) = true -> has_key k j = true.
Proof. unfold jget, has_key. by destruct (j !! k). Qed.

(** With the columns of [metrics_columns] no column lookup fails. *)
Lemma metrics_columns_inv (journeys : list jdict) :
  metrics_columns journeys = true ->
  (forall k, In k ["income_change_annual"; "current_fpl"; "is_graduate";
                   "fpl_change"; "cliff_tier"] ->
     journeys_column journeys k = Some ((fun j => jget j k) <$> journeys)) /\
  forallb (fun j => is_flag (jget j "is_graduate")) journeys = true.
Proof.
  unfold metrics_columns. intros Hc.
  apply andb_prop in Hc as [Hc Hall].
  apply andb_prop in Hc as [Hc Ht].
  apply andb_prop in Hc as [Hc Hf].
  apply andb_prop in Hc as [Hi Hp].
  assert (forallb (fun j => is_flag (jget j "is_graduate")) journeys = true) as Hflags.
  { apply forallb_forall. intros j Hj.
    apply (proj1 (forallb_forall _ _) Hall) in Hj.
    by apply andb_prop in Hj as [_ Hj]. }
  split; [|exact Hflags].
  assert (existsb (has_key "is_graduate") journeys = true) as Hg.
  { destruct journeys as [|j journeys]; [done|]. cbn [existsb forallb] in *.
    apply andb_prop in Hflags as [Hj _]. by rewrite (is_flag_has_key _ _ Hj). }
  intros k Hk. unfold journeys_column.
  repeat (destruct Hk as [<-|Hk];
          [match goal with
           | E : existsb (has_key ?k) journeys = true
             |- context [existsb (has_key ?k) journeys] => by rewrite E
           end|]).
  destruct Hk.
Qed.

(** The document of [calculate_success_metrics_from_journeys], field by
    field, when both aggregations succeed. *)
Lemma success_metrics_document (journeys : list jdict) (nav : DataFrame)
    (county_metrics navigator_performance : pyobj) :
  metrics_columns journeys = true ->
  let wages :=
    JourneyMetrics.numbers ((fun j => jget j "income_change_annual") <$> journeys) in
  let w := Z.of_nat (length wages) in
  let p := Z.of_nat (length (List.filter (fun x => Qltb 0 x) wages)) in
  let f := Z.of_nat (length (JourneyMetrics.numbers
                               ((fun j => jget j "current_fpl") <$> journeys))) in
  let g := Z.of_nat (length (List.filter flagged_graduate journeys)) in
  let changes :=
    JourneyMetrics.numbers ((fun j => jget j "fpl_change") <$> journeys) in
  let c := Z.of_nat (length changes) in
  let pc := Z.of_nat (length (List.filter (fun x => Qltb 0 x) changes)) in
  exists avg_w rate_w rate_g avg_c rate_c,
    rate_w == (if (0 <? w)%Z then inject_Z p / inject_Z w else 0) /\
    rate_g == (if (0 <? f)%Z then inject_Z g / inject_Z f else 0) /\
    rate_c == (if (0 <? c)%Z then inject_Z pc / inject_Z c else 0) /\
    avg_w == (if (0 <? w)%Z then Roi.Qsum wages / inject_Z w else 0) /\
    avg_c == (if (0 <? c)%Z then Roi.Qsum changes / inject_Z c else 0) /\
    JourneyMetrics.calculate_success_metrics_from_journeys journeys nav
      (Some county_metrics) (Some navigator_performance)
    = Some (PDict [
        ("summary", PDict [
           ("total_participants", PNum (inject_Z (Z.of_nat (length journeys))));
           ("navigator_tracked", PNum (inject_Z (len nav)));
           ("with_wage_data", PNum (inject_Z w));
           ("with_fpl_data", PNum (inject_Z f))]);
        ("outcomes", PDict [
           ("graduates_225_fpl", PNum (inject_Z g));
           ("graduation_rate", PNum (py_round (rate_g * 100) 1));
           ("positive_fpl_change_count", PNum (inject_Z pc));
           ("positive_fpl_rate", PNum (py_round (rate_c * 100) 1));
           ("avg_fpl_change", PNum (py_round avg_c 1));
           ("positive_wage_count", PNum (inject_Z p));
           ("positive_wage_rate", PNum (py_round (rate_w * 100) 1));
           ("avg_wage_change", PNum (py_round avg_w 2));
           ("total_wage_gains",
              PNum (py_round (Roi.Qsum (List.filter (fun x => Qltb 0 x) wages)) 2))]);
        ("fpl_distribution",
           PDict (prod_map id (fun n => PNum (inject_Z n))
                    <$> map_to_list
                          (Roi.value_counts
                             ((fun j => jget j "cliff_tier") <$> journeys))));
        ("county_metrics",
           if existsb (has_key "county") journeys then county_metrics
           else PDict []);
        ("navigator_performance", navigator_performance)]).
Proof.
  intros Hcols wages w p f g changes c pc.
  destruct (metrics_columns_inv journeys Hcols) as [Hcol Hflags].
  unfold JourneyMetrics.calculate_success_metrics_from_journeys, Roi.tier_counts.
  rewrite !Hcol by (cbn [In]; tauto).
  cbn [mbind option_bind fmap option_fmap option_map]. cbv zeta.
  fold wages changes. fold w c. fold p pc f.
  unfold JourneyMetrics.mean. fold w c.
  destruct (guarded_quotient (Roi.Qsum wages) w) as (avg_w & -> & Havg_w).
  destruct (guarded_quotient (inject_Z p) w) as (rate_w & -> & Hrate_w).
  rewrite (sum_flags_count journeys Hflags). fold g.
  cbn [mbind option_bind].
  destruct (guarded_quotient (inject_Z g) f) as (rate_g & -> & Hrate_g).
  destruct (guarded_quotient (Roi.Qsum changes) c) as (avg_c & -> & Havg_c).
  cbn [mbind option_bind].
  destruct (guarded_quotient (inject_Z pc) c) as (rate_c & Erate_c & Hrate_c).
  exists avg_w, rate_w, rate_g, avg_c, rate_c.
  do 5 (split; [done|]).
  destruct (existsb (has_key "county") journeys); cbn [mbind option_bind];
    (destruct (0 <? c)%Z eqn:Ec;
     [rewrite Erate_c; reflexivity
     |injection Erate_c as <-; cbn [mbind option_bind];
      by rewrite (py_round_proper (0 * 100) 0 1), py_round_0 by ring]).
Qed.

(** [calculate_success_metrics_from_journeys] indexes five columns of the
    journey table and groups the navigator sheet: when no journey carries
    one of the columns (as in an empty table), or the aggregation by
    navigator raises, it raises.  For a table with these columns, the
    figures being numbers or null and the flag a boolean, and aggregations
    that succeed, it returns a document whose wage and FPL-change figures
    are consistent: the positive wage changes are at most the journeys with
    wage data, these at most all participants, and the two shares of
    positive changes are percentages between 0 and 100, the wage share 0
    when no journey has a wage figure. *)
Theorem success_metrics_rates_bounded (journeys : list jdict) (nav : DataFrame) :
  (forall by_county by_navigator,
     journeys_column journeys "income_change_annual" = None \/
     journeys_column journeys "current_fpl" = None \/
     journeys_column journeys "is_graduate" = None \/
     journeys_column journeys "fpl_change" = None \/
     journeys_column journeys "cliff_tier" = None \/
     by_navigator = None ->
     JourneyMetrics.calculate_success_metrics_from_journeys journeys nav
       by_county by_navigator = None) /\
  (forall county_metrics navigator_performance,
     metrics_columns journeys = true ->
     exists document w p rate_w rate_c,
       JourneyMetrics.calculate_success_metrics_from_journeys journeys nav
         (Some county_metrics) (Some navigator_performance) = Some document /\
       at_path ["summary"; "total_participants"] document
         = Some (PNum (inject_Z (Z.of_nat (length journeys)))) /\
       at_path ["summary"; "with_wage_data"] document = Some (PNum (inject_Z w)) /\
       at_path ["outcomes"; "positive_wage_count"] document
         = Some (PNum (inject_Z p)) /\
       (0 <= p <= w)%Z /\ (w <= Z.of_nat (length journeys))%Z /\
       at_path ["outcomes"; "positive_wage_rate"] document = Some (PNum rate_w) /\
       0 <= rate_w /\ rate_w <= 100 /\
       (w = 0%Z -> rate_w = 0) /\
       at_path ["outcomes"; "positive_fpl_rate"] document = Some (PNum rate_c) /\
       0 <= rate_c /\ rate_c <= 100).
Proof.
  split.
  - intros by_county by_navigator Hnone.
    unfold JourneyMetrics.calculate_success_metrics_from_journeys, Roi.tier_counts.
    cbv zeta.
    repeat match goal with
           | |- (?x ≫= _) = None =>
               let E := fresh "E" in
               destruct x eqn:E; cbn [mbind option_bind]; [|reflexivity]
           end.
    exfalso.
    destruct Hnone as [Hn|[Hn|[Hn|[Hn|[Hn|Hn]]]]]; try congruence.
    rewrite Hn in *. discriminate.
  - intros county_metrics navigator_performance Hcols.
    destruct (success_metrics_document journeys nav county_metrics
                navigator_performance Hcols)
      as (avg_w & rate_w & rate_g & avg_c & rate_c
          & Hw & _ & Hc & _ & _ & ->).
    set (wages := JourneyMetrics.numbers
                    ((fun j => jget j "income_change_annual") <$> journeys)) in *.
    set (changes := JourneyMetrics.numbers
                      ((fun j => jget j "fpl_change") <$> journeys)) in *.
    pose proof (numbers_length
                  ((fun j => jget j "income_change_annual") <$> journeys)) as Hlen.
    rewrite length_fmap in Hlen. fold wages in Hlen.
    pose proof (List.filter_length_le (fun x => Qltb 0 x) wages) as Hpw.
    pose proof (List.filter_length_le (fun x => Qltb 0 x) changes) as Hpc.
    destruct (rate_bounds _ _ _ (conj (Nat2Z.is_nonneg _) (inj_le _ _ Hpw)) Hw)
      as [Hw0 Hw1].
    destruct (rate_bounds _ _ _ (conj (Nat2Z.is_nonneg _) (inj_le _ _ Hpc)) Hc)
      as [Hc0 Hc1].
    eexists _, (Z.of_nat (length wages)), _, _, _.
    split; [reflexivity|]. at_path_tac.
    do 3 (split; [reflexivity|]).
    split; [lia|]. split; [lia|]. split; [reflexivity|].
    split; [done|]. split; [done|].
    split; [|split; [reflexivity|by split]].
    intros Hzero. rewrite Hzero in Hw. cbn [Z.ltb Z.compare] in Hw.
    by rewrite (py_round_proper (rate_w * 100) 0 1), py_round_0
      by (rewrite Hw; ring).
Qed.

Lemma success_metrics_rates_bounded_witness :
  exists document w p rate_w rate_c,
    JourneyMetrics.calculate_success_metrics_from_journeys journeys_sample
      nav_sample (Some (PDict [])) (Some nav_sample_performance) = Some document /\
    at_path ["summary"; "total_participants"] document
      = Some (PNum (inject_Z (Z.of_nat (length journeys_sample)))) /\
    at_path ["summary"; "with_wage_data"] document = Some (PNum (inject_Z w)) /\
    at_path ["outcomes"; "positive_wage_count"] document
      = Some (PNum (inject_Z p)) /\
    (0 <= p <= w)%Z /\ (w <= Z.of_nat (length journeys_sample))%Z /\
    at_path ["outcomes"; "positive_wage_rate"] document = Some (PNum rate_w) /\
    0 <= rate_w /\ rate_w <= 100 /\
    (w = 0%Z -> rate_w = 0) /\
    at_path ["outcomes"; "positive_fpl_rate"] document = Some (PNum rate_c) /\
    0 <= rate_c /\ rate_c <= 100.
Proof.
  apply (proj2 (success_metrics_rates_bounded journeys_sample nav_sample)
           (PDict []) nav_sample_performance).
  vm_compute. reflexivity.
Defined.

(** The figures of the sample: three participants, two with a wage figure,
    one of them with a gain; one graduate among the two journeys with an
    FPL. *)
Example success_metrics_of_sample :
  let document :=
    JourneyMetrics.calculate_success_metrics_from_journeys journeys_sample
      nav_sample (Some (PDict [])) (Some nav_sample_performance) in
  (document ≫= at_path ["summary"; "total_participants"]) = Some (PNum 3) /\
  (document ≫= at_path ["summary"; "navigator_tracked"]) = Some (PNum 1) /\
  (document ≫= at_path ["summary"; "with_wage_data"]) = Some (PNum 2) /\
  (document ≫= at_path ["outcomes"; "positive_wage_count"]) = Some (PNum 1) /\
  (document ≫= at_path ["outcomes"; "positive_wage_rate"]) = Some (PNum 50) /\
  (document ≫= at_path ["outcomes"; "graduates_225_fpl"]) = Some (PNum 1) /\
  (document ≫= at_path ["outcomes"; "graduation_rate"]) = Some (PNum 50) /\
  (document ≫= at_path ["outcomes"; "total_wage_gains"]) = Some (PNum 5200) /\
  (document ≫= at_path ["county_metrics"]) = Some (PDict []) /\
  JourneyMetrics.calculate_success_metrics_from_journeys [] nav_sample
    (Some (PDict [])) (Some nav_sample_performance) = None.
Proof. vm_compute. repeat split; reflexivity. Qed.

(** The graduates of the success metrics are the journeys flagged
    [is_graduate], and the graduation rate is their share in the journeys
    that have a [current_fpl], not in all participants, as a percentage
    rounded to one decimal.  Provided every flagged graduate has a
    [current_fpl], the rate lies between 0 and 100. *)
Theorem graduation_rate_at_most_100 (journeys : list jdict) (nav : DataFrame)
    (county_metrics navigator_performance : pyobj) :
  metrics_columns journeys = true ->
  graduates_have_fpl journeys = true ->
  let g := Z.of_nat (length (List.filter flagged_graduate journeys)) in
  let f := Z.of_nat (length (JourneyMetrics.numbers
                               ((fun j => jget j "current_fpl") <$> journeys))) in
  exists document rate,
    JourneyMetrics.calculate_success_metrics_from_journeys journeys nav
      (Some county_metrics) (Some navigator_performance) = Some document /\
    at_path ["outcomes"; "graduates_225_fpl"] document = Some (PNum (inject_Z g)) /\
    at_path ["summary"; "with_fpl_data"] document = Some (PNum (inject_Z f)) /\
    at_path ["outcomes"; "graduation_rate"] document = Some (PNum rate) /\
    ((0 < f)%Z -> rounded_to 1 (inject_Z g / inject_Z f * 100) rate) /\
    (g <= f)%Z /\ 0 <= rate /\ rate <= 100.
Proof.
  intros Hcols Hfpl g f.
  destruct (success_metrics_document journeys nav county_metrics
              navigator_performance Hcols)
    as (avg_w & rate_w & rate_g & avg_c & rate_c
        & _ & Hg & _ & _ & _ & ->).
  pose proof (graduates_with_fpl journeys Hfpl) as Hle.
  destruct (rate_bounds _ _ _ (conj (Nat2Z.is_nonneg _) (inj_le _ _ Hle)) Hg)
    as [H0 H1].
  eexists _, _. split; [reflexivity|]. at_path_tac.
  do 3 (split; [reflexivity|]). split; [|split; [lia | by split]].
  intros Hpos. fold g f in Hg.
  apply (rounded_to_proper _ (rate_g * 100)); [|apply py_round_rounded_to].
  rewrite Hg. apply Z.ltb_lt in Hpos. rewrite Hpos. reflexivity.
Qed.

Lemma graduation_rate_at_most_100_witness :
  let g := Z.of_nat (length (List.filter flagged_graduate journeys_sample)) in
  let f := Z.of_nat (length (JourneyMetrics.numbers
                               ((fun j => jget j "current_fpl")
                                  <$> journeys_sample))) in
  exists document rate,
    JourneyMetrics.calculate_success_metrics_from_journeys journeys_sample
      nav_sample (Some (PDict [])) (Some nav_sample_performance) = Some document /\
    at_path ["outcomes"; "graduates_225_fpl"] document = Some (PNum (inject_Z g)) /\
    at_path ["summary"; "with_fpl_data"] document = Some (PNum (inject_Z f)) /\
    at_path ["outcomes"; "graduation_rate"] document = Some (PNum rate) /\
    ((0 < f)%Z -> rounded_to 1 (inject_Z g / inject_Z f * 100) rate) /\
    (g <= f)%Z /\ 0 <= rate /\ rate <= 100.
Proof.
  apply (graduation_rate_at_most_100 journeys_sample nav_sample
           (PDict []) nav_sample_performance);
    vm_compute; reflexivity.
Defined.

(** The success metrics and the ROI document report the same wage gains:
    for a journey table with the columns the metrics read, both total the
    positive income changes, the metrics rounded to cents and the ROI
    document to whole dollars. *)
Theorem success_metrics_share_roi_gains (journeys : list jdict) (nav : DataFrame)
    (county_metrics navigator_performance : pyobj) :
  metrics_columns journeys = true ->
  exists metrics roi m g,
    JourneyMetrics.calculate_success_metrics_from_journeys journeys nav
      (Some county_metrics) (Some navigator_performance) = Some metrics /\
    Roi.calculate_full_roi journeys = Some roi /\
    at_path ["outcomes"; "total_wage_gains"] metrics = Some (PNum m) /\
    rounded_to 2 (positive_gains journeys) m /\
    at_path ["tier1_conservative"; "metrics"; "documented_annual_wage_gains"] roi
      = Some (PNum g) /\
    rounded_to 0 (positive_gains journeys) g.
Proof.
  intros Hcols.
  destruct (success_metrics_document journeys nav county_metrics
              navigator_performance Hcols)
    as (avg_w & rate_w & rate_g & avg_c & rate_c & _ & _ & _ & _ & _ & ->).
  destruct (metrics_columns_inv journeys Hcols) as [Hcol _].
  destruct (full_roi_gains journeys _ _
              (Hcol "income_change_annual" ltac:(cbn [In]; tauto))
              (Hcol "cliff_tier" ltac:(cbn [In]; tauto)))
    as (roi & g & r & Hroi & Hg & Hgr & _).
  eexists _, roi, _, g. split; [reflexivity|]. split; [exact Hroi|].
  at_path_tac. split; [reflexivity|].
  split; [|by split].
  apply (rounded_to_proper _ _ _ _ (Qsum_positive_gains journeys)).
  apply py_round_rounded_to.
Qed.

Lemma success_metrics_share_roi_gains_witness :
  exists metrics roi m g,
    JourneyMetrics.calculate_success_metrics_from_journeys journeys_sample
      nav_sample (Some (PDict [])) (Some nav_sample_performance) = Some metrics /\
    Roi.calculate_full_roi journeys_sample = Some roi /\
    at_path ["outcomes"; "total_wage_gains"] metrics = Some (PNum m) /\
    rounded_to 2 (positive_gains journeys_sample) m /\
    at_path ["tier1_conservative"; "metrics"; "documented_annual_wage_gains"] roi
      = Some (PNum g) /\
    rounded_to 0 (positive_gains journeys_sample) g.
Proof.
  apply (success_metrics_share_roi_gains journeys_sample nav_sample
           (PDict []) nav_sample_performance).
  vm_compute. reflexivity.
Defined.

End SuccessMetrics.

(** ** Invariants of the journey *)

(** Computes the lookups in a journey given by explicit assignments. *)
Ltac lookup_tac :=
  rewrite ?lookup_insert_str, ?jget_insert;
  cbn [String.eqb Ascii.eqb Bool.eqb andb].

Section JourneyInvariants.
Context `{Parsers}.

Lemma gt_or0_positive v :
  is_num v = true -> py_gt (py_or v (VInt 0)) (VInt 0) = Some (positive v).
Proof.
  destruct v as [|[|q]|z| | | |]; try done; intros _.
  - unfold py_or, positive. simpl. destruct (Qeq_bool q 0) eqn:E; simpl; [|done].
    change (py_gt (VInt 0) (VInt 0)) with (Some false).
    apply Qeq_bool_eq in E. f_equal. symmetry. apply Qltb_false. by rewrite E.
  - unfold py_or, positive. simpl. destruct (z =? 0) eqn:E; simpl; [|done].
    apply Z.eqb_eq in E. by subst z.
Qed.

Lemma py_arith_is_number iop fop a b v :
  py_arith iop fop a b = Some v -> is_number v = true.
Proof.
  unfold py_arith. destruct (as_int a), (as_int b); try (by intros [= <-]);
    destruct (as_fl a), (as_fl b); simpl; try done; by intros [= <-].
Qed.

Lemma outcome_section_inv (confirmed : bool) (j j' : jdict) :
  well_typed j -> Journey.outcome_section confirmed j = Some j' ->
  exists b t,
    j' !! "is_graduate" = Some (VBool b) /\
    j' !! "cliff_tier" = Some (VStr t) /\
    (if confirmed then t = "graduated"
     else Journey.classify_cliff_tier (jget j "current_fpl") = Some t) /\
    j' !! "has_positive_fpl_change"
      = Some (VBool (positive (jget j "fpl_change"))) /\
    j' !! "has_positive_income_change"
      = Some (match j !! "has_positive_income_change" with
              | Some v => v
              | None => VBool (positive (jget j "income_change_annual"))
              end).
Proof.
  intros Hj. unfold Journey.outcome_section. intros E.
  apply option.bind_Some in E as (b & Hb & E).
  apply option.bind_Some in E as (j2 & Hj2 & E).
  apply option.bind_Some in E as (pos & Hpos & E).
  apply option.bind_Some in E as (t & Ht & E).
  injection E as <-.
  rewrite lookup_insert_str in Hj2. simpl in Hj2.
  rewrite jget_insert in Hj2, Ht. simpl in Hj2, Ht.
  assert (j2 !! "has_positive_income_change"
          = Some (match j !! "has_positive_income_change" with
                  | Some v => v
                  | None => VBool (positive (jget j "income_change_annual"))
                  end) /\
          j2 !! "is_graduate" = Some (VBool b) /\
          jget j2 "fpl_change" = jget j "fpl_change" /\
          jget j2 "current_fpl" = jget j "current_fpl") as (Hp2 & Hg2 & Hf2 & Hc2).
  { destruct (j !! "has_positive_income_change") as [v|] eqn:Ev.
    - rewrite bool_decide_eq_false_2 in Hj2 by done. injection Hj2 as <-.
      by rewrite !lookup_insert_str, !jget_insert, Ev.
    - rewrite bool_decide_eq_true_2 in Hj2 by done.
      rewrite (gt_or0_positive _ (jget_is_num j "income_change_annual" Hj eq_refl))
        in Hj2.
      simpl in Hj2. injection Hj2 as <-.
      by rewrite !lookup_insert_str, !jget_insert. }
  rewrite Hf2, (gt_or0_positive _ (jget_is_num j "fpl_change" Hj eq_refl)) in Hpos.
  injection Hpos as <-. rewrite Hc2 in Ht.
  exists b, t. rewrite !lookup_insert_str. simpl.
  split; [done|]. split; [done|]. split; [|by split].
  destruct confirmed; [by injection Ht as <-|]. exact Ht.
Qed.

Lemma truthy_py_and_eq a b : truthy (py_and a b) = truthy a && truthy b.
Proof. unfold py_and. by destruct (truthy a) eqn:E. Qed.

Lemma jget_lookup (j : jdict) k v : j !! k = Some v -> jget j k = v.
Proof. intros E. unfold jget. by rewrite E. Qed.

Lemma empower_section_flags emp_row (j j' : jdict) :
  Journey.empower_section emp_row j = Some j' ->
  j !! "fpl_change" = None ->
  j' !! "has_positive_income_change" =
    (if fl_isnan (Journey.empower_wage_gain emp_row)
     then j !! "has_positive_income_change"
     else Some (VBool (positive (VFloat (Journey.empower_wage_gain emp_row))))) /\
  fpl_change_ok j'.
Proof.
  unfold Journey.empower_section, fpl_change_ok.
  destruct (Journey.empower_wage_gain emp_row) as [|w];
    destruct (Journey.empower_fpl_current emp_row) as [|c];
    destruct (Journey.empower_fpl_enrollment emp_row) as [|e];
    destruct (notna (Journey.empower_county emp_row));
    destruct (Journey.empower_household_size emp_row) as [|hh];
    destruct (notna (Journey.empower_navigator emp_row));
    cbn [notna isna negb fl_isnan]; cbv zeta; intros E Hno;
    apply option.bind_Some in E as (j4 & Hj4 & E); injection E as <-;
    rewrite ?jget_insert in Hj4; cbn [String.eqb Ascii.eqb Bool.eqb andb] in Hj4;
    rewrite truthy_py_and_eq in Hj4;
    lookup_tac;
    (destruct (truthy _ && truthy _) eqn:Et in Hj4;
     [ apply option.bind_Some in Hj4 as (c0 & Hc & Hj4);
       apply option.bind_Some in Hj4 as (e0 & He & Hj4);
       apply option.bind_Some in Hj4 as (d & Hd & Hj4);
       injection Hj4 as <-;
       rewrite ?lookup_insert_str in Hc, He;
       cbn [String.eqb Ascii.eqb Bool.eqb andb] in Hc, He;
       lookup_tac; rewrite ?Et;
       try (injection Hc as <-); try (injection He as <-);
       rewrite ?(jget_lookup _ _ _ Hc), ?(jget_lookup _ _ _ He) in *;
       rewrite ?Et; split; [reflexivity | by rewrite Hd]
     | injection Hj4 as <-; lookup_tac; rewrite ?Et, ?Hno; split; reflexivity ]).
Qed.

Lemma fallback_income_flag (j j' : jdict) :
  Journey.fallback_income j = Some j' -> income_flag_ok j -> income_flag_ok j'.
Proof.
  unfold Journey.fallback_income, income_flag_ok. intros E Hok.
  destruct (negb (truthy (jget j "income_change_annual")));
    [|by injection E as <-].
  rewrite truthy_py_and_eq in E.
  destruct (truthy _ && truthy _) eqn:Et in E.
  - apply option.bind_Some in E as (c & Hc & E).
    apply option.bind_Some in E as (e & He & E).
    apply option.bind_Some in E as (m & Hm & E).
    apply option.bind_Some in E as (m' & Hm' & E).
    apply option.bind_Some in E as (a & Ha & E).
    apply option.bind_Some in E as (pos & Hpos & E).
    injection E as <-.
    rewrite jget_insert in Hpos. cbn [String.eqb Ascii.eqb Bool.eqb andb] in Hpos.
    rewrite (gt_or0_positive a) in Hpos
      by (apply is_number_is_num; eapply py_arith_is_number; exact Ha).
    injection Hpos as <-.
    intros v. lookup_tac. congruence.
  - injection E as <-. intros v. lookup_tac. apply Hok.
Qed.

Lemma fallback_fpl_change (j j' : jdict) :
  Journey.fallback_fpl j = Some j' -> fpl_change_ok j -> fpl_change_ok j'.
Proof.
  unfold Journey.fallback_fpl, fpl_change_ok. intros E Hok.
  destruct (truthy (jget j "current_fpl")) eqn:Tc; simpl in E.
  { injection E as <-. by rewrite Tc. }
  simpl in Hok.
  apply option.bind_Some in E as (j1 & Hj1 & E).
  apply option.bind_Some in E as (j2 & Hj2 & E).
  assert (j1 !! "fpl_change" = None) as H1.
  { destruct (truthy (jget j "enrollment_monthly_income")).
    - apply option.bind_Some in Hj1 as (m & _ & Hj1).
      apply option.bind_Some in Hj1 as (annual & _ & Hj1).
      apply option.bind_Some in Hj1 as (fpl & _ & Hj1).
      injection Hj1 as <-. by lookup_tac.
    - by injection Hj1 as <-. }
  assert (j2 !! "fpl_change" = None) as H2.
  { destruct (truthy (jget j1 "current_monthly_income")).
    - apply option.bind_Some in Hj2 as (m & _ & Hj2).
      apply option.bind_Some in Hj2 as (annual & _ & Hj2).
      apply option.bind_Some in Hj2 as (fpl & _ & Hj2).
      injection Hj2 as <-. by lookup_tac.
    - by injection Hj2 as <-. }
  rewrite truthy_py_and_eq, andb_comm in E.
  destruct (truthy (jget j2 "current_fpl") && truthy (jget j2 "enrollment_fpl"))
    eqn:Et.
  - apply option.bind_Some in E as (c & Hc & E).
    apply option.bind_Some in E as (e & He & E).
    apply option.bind_Some in E as (d & Hd & E).
    injection E as <-. lookup_tac.
    rewrite Et, (jget_lookup _ _ _ Hc), (jget_lookup _ _ _ He). done.
  - injection E as <-. by rewrite Et.
Qed.


Lemma income_flag_preserved L (j j' : jdict) :
  agree_off L j j' ->
  mem "has_positive_income_change" L = false ->
  mem "income_change_annual" L = false ->
  income_flag_ok j -> income_flag_ok j'.
Proof.
  intros Hf H1 H2 Hok v. rewrite (agree_off_lookup _ _ _ _ Hf H1),
    (agree_off_jget _ _ _ _ Hf H2). apply Hok.
Qed.

Lemma fpl_change_preserved L (j j' : jdict) :
  agree_off L j j' ->
  mem "fpl_change" L = false -> mem "current_fpl" L = false ->
  mem "enrollment_fpl" L = false ->
  fpl_change_ok j -> fpl_change_ok j'.
Proof.
  intros Hf H1 H2 H3. unfold fpl_change_ok.
  by rewrite (agree_off_lookup _ _ _ _ Hf H1), !(agree_off_jget _ _ _ _ Hf H2),
    !(agree_off_jget _ _ _ _ Hf H3).
Qed.

Lemma stages_income_flag pid irec brec qrec emp conf j1 j2 j3 j4 j5 j6 j7 j8 :
  journey_stages pid irec brec qrec emp conf j1 j2 j3 j4 j5 j6 j7 j8 ->
  income_flag_ok j7.
Proof.
  intros (E1 & _ & _ & _ & E5 & _ & _ & _ & _ & F1 & F2 & F3 & F4 & F5 & F6 & F7 & _).
  assert (income_flag_ok j1) as I1.
  { destruct emp as [|r rs].
    - injection E1 as <-. by intros v.
    - destruct (empower_section_ok r _ (well_typed_singleton "participant_id" (VInt pid) eq_refl))
        as (j1' & E1' & _ & _ & _ & Hw & _).
      rewrite E1 in E1'. injection E1' as <-.
      destruct (empower_section_flags r _ j1 E1 eq_refl) as [Hflag _].
      intros v. rewrite Hflag. unfold jget. rewrite Hw. unfold empower_field.
      destruct (fl_isnan (Journey.empower_wage_gain r)); [done|].
      simpl. congruence. }
  pose proof (income_flag_preserved _ _ _ F2 eq_refl eq_refl I1) as I2.
  pose proof (income_flag_preserved _ _ _ F3 eq_refl eq_refl I2) as I3.
  pose proof (income_flag_preserved _ _ _ F4 eq_refl eq_refl I3) as I4.
  pose proof (fallback_income_flag _ _ E5 I4) as I5.
  pose proof (income_flag_preserved _ _ _ F6 eq_refl eq_refl I5) as I6.
  exact (income_flag_preserved _ _ _ F7 eq_refl eq_refl I6).
Qed.

Lemma stages_fpl_change pid irec brec qrec emp conf j1 j2 j3 j4 j5 j6 j7 j8 :
  journey_stages pid irec brec qrec emp conf j1 j2 j3 j4 j5 j6 j7 j8 ->
  fpl_change_ok j8.
Proof.
  intros (E1 & _ & _ & _ & _ & E6 & _ & _ & _ & F1 & F2 & F3 & F4 & F5 & F6 & F7 & F8).
  assert (fpl_change_ok j1) as I1.
  { destruct emp as [|r rs].
    - by injection E1 as <-.
    - by destruct (empower_section_flags r _ j1 E1 eq_refl). }
  pose proof (fpl_change_preserved _ _ _ F2 eq_refl eq_refl eq_refl I1) as I2.
  pose proof (fpl_change_preserved _ _ _ F3 eq_refl eq_refl eq_refl I2) as I3.
  pose proof (fpl_change_preserved _ _ _ F4 eq_refl eq_refl eq_refl I3) as I4.
  pose proof (fpl_change_preserved _ _ _ F5 eq_refl eq_refl eq_refl I4) as I5.
  pose proof (fallback_fpl_change _ _ E6 I5) as I6.
  pose proof (fpl_change_preserved _ _ _ F7 eq_refl eq_refl eq_refl I6) as I7.
  exact (fpl_change_preserved _ _ _ F8 eq_refl eq_refl eq_refl I7).
Qed.

(** In every journey of a table the builder returns, the tier of a
    participant on the roster is "graduated", and the tier of any other
    participant is the one the legacy builder's [classify_cliff_tier] gives
    for the journey's [current_fpl]: the bands of the two builders are the
    same. *)
Theorem journey_tier_is_classified
    intake baseline quarterly change_of_life empower graduates_df table :
  Journey.build_participant_journeys_from_raw
    intake baseline quarterly change_of_life empower graduates_df = Some table ->
  forall j, j ∈ table ->
    exists pid t,
      j !! "participant_id" = Some (VInt pid) /\
      j !! "cliff_tier" = Some (VStr t) /\
      (pid ∈ Journey.graduate_roster graduates_df -> t = "graduated") /\
      (pid ∉ Journey.graduate_roster graduates_df ->
       Journey.classify_cliff_tier (jget j "current_fpl") = Some t).
Proof.
  intros Ht j Hj.
  destruct (from_raw_stages _ _ _ _ _ _ _ Ht j Hj)
    as (pid & irec & brec & qrec & crec & j1 & j2 & j3 & j4 & j5 & j6 & j7 & j8
        & _ & _ & _ & _ & Hst & ->).
  pose proof (stages_untouched _ _ _ _ _ _ _ _ _ _ _ _ _ _ "participant_id" Hst
                eq_refl eq_refl eq_refl eq_refl eq_refl eq_refl eq_refl eq_refl)
    as Hpid.
  destruct Hst as (_ & _ & _ & _ & _ & _ & _ & E8 & W & _ & _ & _ & _ & _ & _ & _ & F8).
  destruct W as (_ & _ & _ & _ & _ & _ & W7 & _).
  destruct (outcome_section_inv _ _ _ W7 E8) as (b & t & _ & Ht' & Hcls & _).
  exists pid, t. lookup_tac. rewrite Hpid, lookup_singleton_eq.
  split; [done|]. split; [done|].
  rewrite (agree_off_jget _ _ _ _ F8) by done.
  split.
  - intros Hin. by rewrite bool_decide_eq_true_2 in Hcls.
  - intros Hout. by rewrite bool_decide_eq_false_2 in Hcls.
Qed.

(** In every journey of a table the builder returns, the two flags say
    what the figures say: [has_positive_income_change] holds exactly when
    [income_change_annual] is a positive number, [has_positive_fpl_change]
    exactly when [fpl_change] is one. *)
Theorem journey_flags_match_figures
    intake baseline quarterly change_of_life empower graduates_df table :
  Journey.build_participant_journeys_from_raw
    intake baseline quarterly change_of_life empower graduates_df = Some table ->
  forall j, j ∈ table ->
    j !! "has_positive_income_change"
      = Some (VBool (positive (jget j "income_change_annual"))) /\
    j !! "has_positive_fpl_change"
      = Some (VBool (positive (jget j "fpl_change"))).
Proof.
  intros Ht j Hj.
  destruct (from_raw_stages _ _ _ _ _ _ _ Ht j Hj)
    as (pid & irec & brec & qrec & crec & j1 & j2 & j3 & j4 & j5 & j6 & j7 & j8
        & _ & _ & _ & _ & Hst & ->).
  pose proof (stages_income_flag _ _ _ _ _ _ _ _ _ _ _ _ _ _ Hst) as I7.
  destruct Hst as (_ & _ & _ & _ & _ & _ & _ & E8 & W & _ & _ & _ & _ & _ & _ & _ & F8).
  destruct W as (_ & _ & _ & _ & _ & _ & W7 & _).
  destruct (outcome_section_inv _ _ _ W7 E8) as (b & t & _ & _ & _ & Hpf & Hpi).
  lookup_tac. rewrite Hpf, Hpi.
  rewrite !(agree_off_jget _ _ _ _ F8) by done.
  split; [|done]. f_equal.
  destruct (j7 !! "has_positive_income_change") as [v|] eqn:Ev; [|done].
  by apply I7.
Qed.

(** In every journey of a table the builder returns, [fpl_change] is set
    exactly when [current_fpl] and [enrollment_fpl] are both set and not 0,
    and it is [current_fpl - enrollment_fpl]. *)
Theorem journey_fpl_change_is_difference
    intake baseline quarterly change_of_life empower graduates_df table :
  Journey.build_participant_journeys_from_raw
    intake baseline quarterly change_of_life empower graduates_df = Some table ->
  forall j, j ∈ table ->
    j !! "fpl_change" =
    if truthy (jget j "current_fpl") && truthy (jget j "enrollment_fpl")
    then py_sub (jget j "current_fpl") (jget j "enrollment_fpl")
    else None.
Proof.
  intros Ht j Hj.
  destruct (from_raw_stages _ _ _ _ _ _ _ Ht j Hj)
    as (pid & irec & brec & qrec & crec & j1 & j2 & j3 & j4 & j5 & j6 & j7 & j8
        & _ & _ & _ & _ & Hst & ->).
  pose proof (stages_fpl_change _ _ _ _ _ _ _ _ _ _ _ _ _ _ Hst) as I8.
  exact (fpl_change_preserved _ _ _ (agree_off_total j8 _) eq_refl eq_refl eq_refl I8).
Qed.

End JourneyInvariants.

(** ** The income figures of a journey *)

Section IncomeInvariants.
Context `{Parsers}.

Lemma fallback_income_change (j j' : jdict) :
  Journey.fallback_income j = Some j' ->
  j !! "enrollment_monthly_income" = None ->
  j !! "current_monthly_income" = None ->
  j !! "income_change_monthly" = None ->
  income_change_ok j'.
Proof.
  unfold Journey.fallback_income, income_change_ok. intros E He0 Hc0 Hm0.
  destruct (negb (truthy (jget j "income_change_annual"))).
  2:{ injection E as <-. rewrite He0, Hc0, Hm0. by repeat split. }
  rewrite truthy_py_and_eq in E.
  destruct (truthy _ && truthy _) eqn:Et in E.
  - apply option.bind_Some in E as (c & Hc & E).
    apply option.bind_Some in E as (e & He & E).
    apply option.bind_Some in E as (m & Hm & E).
    apply option.bind_Some in E as (m' & Hm' & E).
    apply option.bind_Some in E as (a & Ha & E).
    apply option.bind_Some in E as (pos & Hpos & E).
    injection E as <-.
    rewrite !lookup_insert_str in Hc, He, Hm'.
    cbn [String.eqb Ascii.eqb Bool.eqb andb] in Hc, He, Hm'.
    injection Hc as <-. injection He as <-. injection Hm' as <-.
    rewrite !jget_insert in Hm.
    cbn [String.eqb Ascii.eqb Bool.eqb andb] in Hm.
    lookup_tac.
    split; [by intros ? [= <-]|]. split; [by intros ? [= <-]|].
    by intros ? [= <-].
  - injection E as <-. lookup_tac. rewrite Hm0.
    split; [by intros ? [= <-]|]. split; [by intros ? [= <-]|]. done.
Qed.

Lemma income_change_preserved L (j j' : jdict) :
  agree_off L j j' ->
  mem "enrollment_monthly_income" L = false ->
  mem "current_monthly_income" L = false ->
  mem "income_change_monthly" L = false ->
  mem "income_change_annual" L = false ->
  mem "first_quarterly_monthly_income" L = false ->
  mem "last_quarterly_monthly_income" L = false ->
  mem "baseline_monthly_income" L = false ->
  income_change_ok j -> income_change_ok j'.
Proof.
  intros Hf H1 H2 H3 H4 H5 H6 H7. unfold income_change_ok.
  by rewrite (agree_off_lookup _ _ _ _ Hf H1), (agree_off_lookup _ _ _ _ Hf H2),
    (agree_off_lookup _ _ _ _ Hf H3), !(agree_off_jget _ _ _ _ Hf H1),
    !(agree_off_jget _ _ _ _ Hf H2), !(agree_off_jget _ _ _ _ Hf H4),
    !(agree_off_jget _ _ _ _ Hf H5), !(agree_off_jget _ _ _ _ Hf H6),
    !(agree_off_jget _ _ _ _ Hf H7).
Qed.

Lemma stages_income_change pid irec brec qrec emp conf j1 j2 j3 j4 j5 j6 j7 j8 :
  journey_stages pid irec brec qrec emp conf j1 j2 j3 j4 j5 j6 j7 j8 ->
  income_change_ok j8.
Proof.
  intros (_ & _ & _ & _ & E5 & _ & _ & _ & _ & F1 & F2 & F3 & F4 & F5 & F6 & F7 & F8).
  assert (forall k, mem k empower_keys = false -> mem k intake_keys = false ->
            mem k baseline_keys = false -> mem k quarterly_keys = false ->
            k <> "participant_id" -> j4 !! k = None) as Hfresh.
  { intros k K1 K2 K3 K4 Hk.
    rewrite (F4 k K4), (F3 k K3), (F2 k K2), (F1 k K1).
    by apply lookup_singleton_ne. }
  pose proof (fallback_income_change _ _ E5
                (Hfresh "enrollment_monthly_income"
                   eq_refl eq_refl eq_refl eq_refl ltac:(done))
                (Hfresh "current_monthly_income"
                   eq_refl eq_refl eq_refl eq_refl ltac:(done))
                (Hfresh "income_change_monthly"
                   eq_refl eq_refl eq_refl eq_refl ltac:(done))) as I5.
  pose proof (income_change_preserved _ _ _ F6 eq_refl eq_refl eq_refl eq_refl eq_refl eq_refl eq_refl I5) as I6.
  pose proof (income_change_preserved _ _ _ F7 eq_refl eq_refl eq_refl eq_refl eq_refl eq_refl eq_refl I6) as I7.
  exact (income_change_preserved _ _ _ F8 eq_refl eq_refl eq_refl eq_refl eq_refl eq_refl eq_refl I7).
Qed.

(** In every journey of a table the builder returns, the income figures of
    the fallback calculation fit together.  Where the enrollment income is set it is the
    first quarterly income or else the baseline income, where the current
    income is set it is the last quarterly income or else the first, and
    where a monthly change is set it is the current income less the
    enrollment income and the annual change is 12 times it. *)
Theorem journey_income_change_is_difference
    intake baseline quarterly change_of_life empower graduates_df table :
  Journey.build_participant_journeys_from_raw
    intake baseline quarterly change_of_life empower graduates_df = Some table ->
  forall j, j ∈ table ->
    (forall e, j !! "enrollment_monthly_income" = Some e ->
       e = py_or (jget j "first_quarterly_monthly_income")
                 (jget j "baseline_monthly_income")) /\
    (forall c, j !! "current_monthly_income" = Some c ->
       c = py_or (jget j "last_quarterly_monthly_income")
                 (jget j "first_quarterly_monthly_income")) /\
    (forall m, j !! "income_change_monthly" = Some m ->
       py_sub (jget j "current_monthly_income")
              (jget j "enrollment_monthly_income") = Some m /\
       py_mul m (VInt 12) = Some (jget j "income_change_annual")).
Proof.
  intros Ht j Hj.
  destruct (from_raw_stages _ _ _ _ _ _ _ Ht j Hj)
    as (pid & irec & brec & qrec & crec & j1 & j2 & j3 & j4 & j5 & j6 & j7 & j8
        & _ & _ & _ & _ & Hst & ->).
  pose proof (stages_income_change _ _ _ _ _ _ _ _ _ _ _ _ _ _ Hst) as I8.
  exact (income_change_preserved _ _ _ (agree_off_total j8 _)
           eq_refl eq_refl eq_refl eq_refl eq_refl eq_refl eq_refl I8).
Qed.

Lemma baseline_section_income row (j j' : jdict) :
  Journey.baseline_section row j = Some j' ->
  j !! "baseline_monthly_income" = None ->
  baseline_income_ok j'.
Proof.
  unfold Journey.baseline_section, baseline_income_ok. cbv zeta.
  rewrite !jget_insert. cbn [String.eqb Ascii.eqb Bool.eqb andb].
  destruct (truthy _) eqn:Et.
  - intros E _. apply option.bind_Some in E as (w & Hw & E).
    apply option.bind_Some in E as (w40 & Hw40 & E).
    apply option.bind_Some in E as (m & Hm & E).
    injection E as <-. rewrite lookup_insert_str in Hw.
    cbn [String.eqb Ascii.eqb Bool.eqb andb] in Hw. injection Hw as <-.
    lookup_tac. rewrite Et, Hw40. exact (eq_sym Hm).
  - intros [= <-] Hno. lookup_tac. by rewrite Et.
Qed.

Lemma baseline_income_preserved L (j j' : jdict) :
  agree_off L j j' ->
  mem "baseline_monthly_income" L = false ->
  mem "baseline_hourly_wage" L = false ->
  baseline_income_ok j -> baseline_income_ok j'.
Proof.
  intros Hf H1 H2. unfold baseline_income_ok.
  by rewrite (agree_off_lookup _ _ _ _ Hf H1), !(agree_off_jget _ _ _ _ Hf H2).
Qed.

Lemma stages_baseline_income pid irec brec qrec emp conf j1 j2 j3 j4 j5 j6 j7 j8 :
  journey_stages pid irec brec qrec emp conf j1 j2 j3 j4 j5 j6 j7 j8 ->
  baseline_income_ok j8.
Proof.
  intros (_ & _ & E3 & _ & _ & _ & _ & _ & _ & F1 & F2 & F3 & F4 & F5 & F6 & F7 & F8).
  assert (forall k, mem k empower_keys = false -> mem k intake_keys = false ->
            k <> "participant_id" -> j2 !! k = None) as Hfresh.
  { intros k K1 K2 Hk. rewrite (F2 k K2), (F1 k K1). by apply lookup_singleton_ne. }
  assert (baseline_income_ok j3) as I3.
  { destruct (iloc_first brec) as [row|].
    - apply (baseline_section_income row j2 j3 E3). by apply Hfresh.
    - injection E3 as <-. unfold baseline_income_ok, jget.
      by rewrite !(Hfresh "baseline_monthly_income"),
        !(Hfresh "baseline_hourly_wage"). }
  pose proof (baseline_income_preserved _ _ _ F4 eq_refl eq_refl I3) as I4.
  pose proof (baseline_income_preserved _ _ _ F5 eq_refl eq_refl I4) as I5.
  pose proof (baseline_income_preserved _ _ _ F6 eq_refl eq_refl I5) as I6.
  pose proof (baseline_income_preserved _ _ _ F7 eq_refl eq_refl I6) as I7.
  exact (baseline_income_preserved _ _ _ F8 eq_refl eq_refl I7).
Qed.

(** In every journey of a table the builder returns,
    [baseline_monthly_income] is set exactly when the baseline hourly wage
    is set and not 0, and it is the wage times 40 hours times 4.33 weeks. *)
Theorem journey_baseline_income_from_wage
    intake baseline quarterly change_of_life empower graduates_df table :
  Journey.build_participant_journeys_from_raw
    intake baseline quarterly change_of_life empower graduates_df = Some table ->
  forall j, j ∈ table ->
    j !! "baseline_monthly_income" =
    if truthy (jget j "baseline_hourly_wage")
    then w40 ← py_mul (jget j "baseline_hourly_wage") (VInt 40);
         py_mul w40 (VNum 4.33)
    else None.
Proof.
  intros Ht j Hj.
  destruct (from_raw_stages _ _ _ _ _ _ _ Ht j Hj)
    as (pid & irec & brec & qrec & crec & j1 & j2 & j3 & j4 & j5 & j6 & j7 & j8
        & _ & _ & _ & _ & Hst & ->).
  pose proof (stages_baseline_income _ _ _ _ _ _ _ _ _ _ _ _ _ _ Hst) as I8.
  exact (baseline_income_preserved _ _ _ (agree_off_total j8 _) eq_refl eq_refl I8).
Qed.

End IncomeInvariants.

(** ** Counts and participants of the journey table *)

Section JourneyTable.
Context `{Parsers}.

Lemma quarterly_section_count recs (j j' : jdict) :
  Journey.quarterly_section recs j = Some j' ->
  j' !! "quarterly_count" = Some (VInt (len recs)).
Proof.
  unfold Journey.quarterly_section. intros E.
  apply option.bind_Some in E as (first_q & _ & E).
  apply option.bind_Some in E as (last_q & _ & E).
  injection E as <-. rewrite lookup_insert_eq. do 2 f_equal.
  unfold len. rewrite length_sort_values, length_set_column; [done|].
  by rewrite length_map.
Qed.

(** The counts of a journey of a table the builder returns:
    [total_assessments] is 1 for a participant with a baseline record, plus
    the number of the participant's quarterly and change-of-life records;
    [quarterly_count] is the number of quarterly records and is absent when
    there is none. *)
Theorem journey_assessment_counts
    intake baseline quarterly change_of_life empower graduates_df table :
  Journey.build_participant_journeys_from_raw
    intake baseline quarterly change_of_life empower graduates_df = Some table ->
  forall j, j ∈ table ->
    exists pid baseline_rec quarterly_recs col_recs,
      j !! "participant_id" = Some (VInt pid) /\
      select_pid (Journey.add_participant_id baseline) pid = Some baseline_rec /\
      select_pid (Journey.add_participant_id quarterly) pid
        = Some quarterly_recs /\
      select_pid (Journey.add_participant_id change_of_life) pid
        = Some col_recs /\
      j !! "total_assessments" =
        Some (VInt ((if 0 <? len baseline_rec then 1 else 0)
                    + len quarterly_recs + len col_recs)) /\
      j !! "quarterly_count" =
        (if 0 <? len quarterly_recs then Some (VInt (len quarterly_recs))
         else None).
Proof.
  intros Ht j Hj.
  destruct (from_raw_stages _ _ _ _ _ _ _ Ht j Hj)
    as (pid & irec & brec & qrec & crec & j1 & j2 & j3 & j4 & j5 & j6 & j7 & j8
        & _ & S2 & S3 & S4 & Hst & ->).
  pose proof (stages_untouched _ _ _ _ _ _ _ _ _ _ _ _ _ _ "participant_id" Hst
                eq_refl eq_refl eq_refl eq_refl eq_refl eq_refl eq_refl eq_refl)
    as Hpid.
  exists pid, brec, qrec, crec. lookup_tac.
  rewrite Hpid, lookup_singleton_eq. repeat (split; [done|]).
  destruct Hst as (_ & _ & _ & E4 & _ & _ & _ & _ & _
                   & F1 & F2 & F3 & _ & F5 & F6 & F7 & F8).
  rewrite (F8 "quarterly_count" eq_refl), (F7 "quarterly_count" eq_refl),
    (F6 "quarterly_count" eq_refl), (F5 "quarterly_count" eq_refl).
  destruct (0 <? len qrec).
  - by apply quarterly_section_count in E4.
  - injection E4 as <-.
    by rewrite (F3 "quarterly_count" eq_refl), (F2 "quarterly_count" eq_refl),
      (F1 "quarterly_count" eq_refl).
Qed.

Lemma mapM_ids (build : Z -> option jdict) (ids : list Z) (table : list jdict) :
  (forall pid j, build pid = Some j -> j !! "participant_id" = Some (VInt pid)) ->
  mapM build ids = Some table ->
  table_ids table = VInt <$> ids.
Proof.
  intros Hb Hm. apply mapM_Some in Hm. unfold table_ids.
  induction Hm as [|pid j ids table Hj _ IH]; [done|].
  simpl. rewrite IH. f_equal. unfold jget. by rewrite (Hb pid j Hj).
Qed.

Lemma int64_of_float_range (q : Q) :
  (INT64_MIN <= int64_of_float q <= INT64_MAX)%Z.
Proof.
  unfold int64_of_float. cbv zeta.
  destruct (_ && _) eqn:E.
  - apply andb_true_iff in E as [E1 E2]. apply Z.leb_le in E1, E2. lia.
  - by vm_compute.
Qed.

Lemma dropna_int_range (col : list fl) (pid : Z) :
  pid ∈ dropna_int col -> (INT64_MIN <= pid <= INT64_MAX)%Z.
Proof.
  unfold dropna_int. rewrite list_elem_of_omap.
  intros ([|q] & _ & E); [done|]. injection E as <-.
  apply int64_of_float_range.
Qed.

(** A journey table the builder returns has one journey for each
    participant ID that occurs in the intake, baseline, quarterly,
    change-of-life or Empower data or on the graduate roster, and no two
    journeys of one participant; the IDs are the 64-bit integers the ID
    columns are cast to.  Sources without any participant ID give no table:
    the builder raises. *)
Theorem one_journey_per_participant
    intake baseline quarterly change_of_life empower graduates_df :
  (all_ids intake baseline quarterly change_of_life empower graduates_df = ∅ ->
   Journey.build_participant_journeys_from_raw
     intake baseline quarterly change_of_life empower graduates_df = None) /\
  forall table,
    Journey.build_participant_journeys_from_raw
      intake baseline quarterly change_of_life empower graduates_df = Some table ->
    NoDup (table_ids table) /\
    table_ids table ≡ₚ
      VInt <$> elements (all_ids intake baseline quarterly change_of_life empower
                           graduates_df) /\
    forall pid,
      VInt pid ∈ table_ids table <->
      (INT64_MIN <= pid <= INT64_MAX)%Z /\
      (pid ∈ Journey.frame_ids (Journey.add_participant_id intake) \/
       pid ∈ Journey.frame_ids (Journey.add_participant_id baseline) \/
       pid ∈ Journey.frame_ids (Journey.add_participant_id quarterly) \/
       pid ∈ Journey.frame_ids (Journey.add_participant_id change_of_life) \/
       pid ∈ dropna_int (Journey.emp_participant_id
                           <$> Journey.process_empower_data empower) \/
       pid ∈ Journey.graduate_roster graduates_df).
Proof.
  split; [apply no_participant_no_table|].
  intros table Ht.
  apply from_raw_loop in Ht as [Ht _].
  unfold journeys_of in Ht. apply mapM_ids in Ht.
  - assert (table_ids table ≡ₚ
            VInt <$> elements (all_ids intake baseline quarterly change_of_life
                                 empower graduates_df)) as Hp.
    { rewrite Ht. apply fmap_Permutation, set_iter_perm. }
    split; [|split; [exact Hp|]].
    + rewrite Hp. apply NoDup_fmap; [by intros x y [= ->] | apply NoDup_elements].
    + intros pid. rewrite Hp, list_elem_of_fmap. split.
      * intros (pid' & [= <-] & Hin). apply elem_of_elements in Hin.
        unfold all_ids in Hin.
        rewrite elem_of_union, elem_of_list_to_set, !elem_of_app in Hin.
        split; [|tauto].
        unfold Journey.frame_ids, Journey.graduate_roster in Hin.
        destruct Hin as [[Hin|[Hin|[Hin|[Hin|Hin]]]]|Hin];
          try (by eapply dropna_int_range).
        destruct (Journey.numeric_col _ _); [|by apply elem_of_empty in Hin].
        apply elem_of_list_to_set in Hin. by eapply dropna_int_range.
      * intros [_ Hin]. exists pid. split; [done|]. apply elem_of_elements.
        unfold all_ids.
        rewrite elem_of_union, elem_of_list_to_set, !elem_of_app. tauto.
  - intros pid j Hj. cbv beta in Hj.
    destruct (build_single_journey_ok pid
                (Journey.add_participant_id intake)
                (Journey.add_participant_id baseline)
                (Journey.add_participant_id quarterly)
                (Journey.add_participant_id change_of_life)
                (Some (Journey.process_empower_data empower))
                (Some (Journey.graduate_roster graduates_df)))
      as (j' & irec & Hb' & _ & _ & Hpid & _);
      auto using add_participant_id_has_pid.
    rewrite Hj in Hb'. by injection Hb' as <-.
Qed.

End JourneyTable.

(** ** Graduates in the ROI document *)

Section GraduateCount.
Context `{Parsers}.

Lemma length_filter_fmap {A B} (p : B -> bool) (h : A -> B) (l : list A) :
  length (List.filter p (h <$> l)) = length (List.filter (fun x => p (h x)) l).
Proof.
  induction l as [|x l IH]; [done|].
  change (h <$> x :: l) with (h x :: (h <$> l)). cbn [List.filter].
  destruct (p (h x)); cbn [length]; by rewrite IH.
Qed.

Lemma length_filter_agree {A} (p q : A -> bool) (l : list A) :
  (forall x, x ∈ l -> p x = q x) ->
  length (List.filter p l) = length (List.filter q l).
Proof.
  induction l as [|x l IH]; [done|]. intros Hall. cbn [List.filter].
  rewrite (Hall x) by (by left).
  destruct (q x); cbn [length]; rewrite IH; try done;
    intros y Hy; apply Hall; by right.
Qed.

(** The graduates Tier 2 counts are the journeys flagged [is_graduate]:
    for every journey table the builder returns, the count of the tier
    "graduated" is the number of journeys whose flag is true, and so is the
    count of [graduates_225plus] in every ROI document computed from the
    table. *)
Theorem tier2_counts_flagged_graduates
    intake baseline quarterly change_of_life empower graduates_df table :
  Journey.build_participant_journeys_from_raw
    intake baseline quarterly change_of_life empower graduates_df = Some table ->
  (forall counts,
     Roi.tier_counts table = Some counts ->
     Roi.count_of counts "graduated"
       = inject_Z (Z.of_nat (length (List.filter flagged_graduate table)))) /\
  (forall document,
     Roi.calculate_full_roi table = Some document ->
     at_path ["tier2_taxpayer"; "benefits_savings"; "by_tier";
              "graduates_225plus"; "count"] document
       = Some (PNum (inject_Z (Z.of_nat (length (List.filter flagged_graduate table)))))).
Proof.
  intros Ht.
  pose proof (from_raw_rows _ _ _ _ _ _ _ Ht) as Hrows.
  assert (forall counts,
     Roi.tier_counts table = Some counts ->
     Roi.count_of counts "graduated"
       = inject_Z (Z.of_nat (length (List.filter flagged_graduate table)))) as Hcount.
  { intros counts Hc. unfold Roi.tier_counts in Hc.
    apply fmap_Some in Hc as (cells & Hcol & ->).
    apply journeys_column_Some in Hcol as [-> _].
    unfold Roi.count_of. rewrite value_counts_occurrences.
    unfold occurrences. rewrite length_filter_fmap. do 2 f_equal.
    apply length_filter_agree. intros j Hj.
    destruct (Hrows j Hj) as (pid & irec & _ & _ & _ & Ho & _).
    destruct Ho as (b & t & Hg & Hc & _ & Hb & Htier & _).
    unfold flagged_graduate, jget. rewrite Hg, Hc. simpl.
    destruct (String.eqb_spec t "graduated") as [->|Hne].
    - symmetry. apply Hb. by apply Htier.
    - destruct b; [|done]. exfalso. apply Hne, Htier. by apply Hb. }
  split; [exact Hcount|].
  intros document Hd.
  destruct (full_roi_tier2 _ _ Hd) as (counts & t2 & gains & Hc & Ht2 & ->).
  destruct (tier2_row_counts _ _ _ _ Ht2) as [-> _].
  by rewrite (Hcount _ Hc).
Qed.
End GraduateCount.

(** ** Looking up a field by name *)

Section GetField.

Lemma find_col_none name row :
  Journey.find_col name row = None <->
  Forall (fun cv => matches name cv.1 = false) row.
Proof.
  induction row as [|[col v] row IH]; simpl.
  - split; [constructor | done].
  - fold (matches name col). destruct (matches name col) eqn:E.
    + split; [done|]. intros Hf. inversion_clear Hf as [|? ? Hc _].
      simpl in Hc. congruence.
    + rewrite IH. split; [by constructor|].
      intros Hf. by inversion_clear Hf.
Qed.

Lemma find_col_some name row v :
  Journey.find_col name row = Some v <->
  exists before col after,
    row = before ++ (col, v) :: after /\
    matches name col = true /\
    Forall (fun cv => matches name cv.1 = false) before.
Proof.
  revert v. induction row as [|[col x] row IH]; intros v; simpl.
  - split; [done|]. intros (before & c & after & Hrow & _).
    by destruct before.
  - fold (matches name col). destruct (matches name col) eqn:E.
    + split.
      * intros [= <-]. exists [], col, row. by repeat split.
      * intros (before & c & after & Hrow & Hm & Hb).
        destruct before as [|[c0 v0] before]; simpl in Hrow.
        -- by injection Hrow as <- <- _.
        -- injection Hrow as <- <- _. inversion_clear Hb as [|? ? Hc _].
           simpl in Hc. congruence.
    + rewrite IH. split.
      * intros (before & c & after & -> & Hm & Hb).
        exists ((col, x) :: before), c, after. repeat split; [done|].
        by constructor.
      * intros (before & c & after & Hrow & Hm & Hb).
        destruct before as [|[c0 v0] before]; simpl in Hrow.
        -- injection Hrow as <- <- _. congruence.
        -- injection Hrow as <- <- ->. inversion_clear Hb as [|? ? _ Hb'].
           by exists before, c, after.
Qed.

(** [get_field] tries the names in the order given, each against the
    column labels from left to right, in lower case on both sides.  When no
    name is a fragment of any label the result is [None]; otherwise it is
    the cell of the leftmost column that the first successful name matches,
    whatever later names or columns would match. *)
Theorem get_field_first_match (row : Series) (possible_names : list string) :
  (Forall (fun name => Forall (fun cv => matches name cv.1 = false) row)
     possible_names ->
   Journey.get_field row possible_names = VNone) /\
  (forall tried name rest before col v after,
     possible_names = tried ++ name :: rest ->
     Forall (fun n => Forall (fun cv => matches n cv.1 = false) row) tried ->
     row = before ++ (col, v) :: after ->
     matches name col = true ->
     Forall (fun cv => matches name cv.1 = false) before ->
     Journey.get_field row possible_names = v).
Proof.
  split.
  - induction possible_names as [|name names IH]; [done|].
    intros Hall. inversion_clear Hall as [|? ? Hn Hrest]. simpl.
    apply find_col_none in Hn. rewrite Hn. by apply IH.
  - intros tried name rest before col v after -> Htried Hrow Hm Hb.
    induction Htried as [|n tried Hn _ IH]; simpl.
    + assert (Journey.find_col name row = Some v) as ->; [|done].
      apply find_col_some. by exists before, col, after.
    + apply find_col_none in Hn. by rewrite Hn.
Qed.

Lemma get_field_first_match_witness :
  Journey.get_field
    [("County", VStr "Knox"); ("Total Monthly Income", VNum 1200);
     ("Monthly Income from Employment", VNum 900)]
    ["total_monthly_income"; "Monthly Income from Employment"] = VNum 900.
Proof.
  apply (proj2 (get_field_first_match _ _)
           ["total_monthly_income"] "Monthly Income from Employment" []
           [("County", VStr "Knox"); ("Total Monthly Income", VNum 1200)]
           "Monthly Income from Employment" (VNum 900) []);
    [reflexivity | | reflexivity | reflexivity |];
    repeat constructor.
Defined.

Lemma find_col_ignores_case name name' (row row' : Series) :
  lower name = lower name' ->
  Forall2 (fun x y => lower x.1 = lower y.1 /\ x.2 = y.2) row row' ->
  Journey.find_col name row = Journey.find_col name' row'.
Proof.
  intros Hn Hrow. induction Hrow as [|[c v] [c' v'] row row' [Hc Hv] _ IH]; [done|].
  simpl in *. subst v'. unfold has. by rewrite Hn, Hc, IH.
Qed.

(** [get_field] ignores case: names that agree in lower case, tried on
    rows whose labels agree in lower case and whose cells are equal, find
    the same cell. *)
Theorem get_field_ignores_case (row row' : Series) (names names' : list string) :
  Forall2 (fun a b => lower a = lower b) names names' ->
  Forall2 (fun x y => lower x.1 = lower y.1 /\ x.2 = y.2) row row' ->
  Journey.get_field row names = Journey.get_field row' names'.
Proof.
  intros Hn Hrow. induction Hn as [|a b names names' Hab _ IH]; [done|].
  simpl. rewrite (find_col_ignores_case a b row row' Hab Hrow).
  destruct (Journey.find_col b row'); [done | exact IH].
Qed.

Lemma get_field_ignores_case_witness :
  Journey.get_field [("COUNTY", VStr "Knox")] ["County"]
  = Journey.get_field [("county", VStr "Knox")] ["county"].
Proof.
  apply get_field_ignores_case; repeat constructor.
Defined.

End GetField.

(** ** The order of the quarterly assessments *)

Section QuarterlyOrder.
Context `{Parsers}.

Lemma Forall_elem_of {A} (P : A -> Prop) (l : list A) (x : A) :
  Forall P l -> x ∈ l -> P x.
Proof.
  induction 1 as [|y l Hy Hl IH]; intros Hin.
  - by apply elem_of_nil in Hin.
  - apply elem_of_cons in Hin as [->|Hin]; [done | by apply IH].
Qed.

Lemma Forall_of_elems {A} (P : A -> Prop) (l : list A) :
  (forall x, x ∈ l -> P x) -> Forall P l.
Proof.
  induction l as [|y l IH]; intros Hall; constructor.
  - apply Hall. by left.
  - apply IH. intros x Hx. apply Hall. by right.
Qed.

Lemma date_le_total a b : date_le a b = true \/ date_le b a = true.
Proof. destruct a, b; simpl; try tauto. rewrite !Z.leb_le. lia. Qed.

Lemma date_le_trans a b c :
  date_le a b = true -> date_le b c = true -> date_le a c = true.
Proof.
  destruct a, b, c; simpl; try done. rewrite !Z.leb_le. lia.
Qed.

Lemma date_le_refl a : date_le a a = true.
Proof. destruct a; simpl; try done. apply Z.leb_refl. Qed.

Lemma insert_row_Forall (P : list value -> Prop) key x l :
  P x -> Forall P l -> Forall P (insert_row key x l).
Proof.
  intros Hx Hl. induction Hl as [|y l Hy Hl IH]; simpl.
  - by repeat constructor.
  - destruct (date_le (key x) (key y)); by repeat constructor.
Qed.

Lemma insert_row_ordered key x l :
  ordered_by key l -> ordered_by key (insert_row key x l).
Proof.
  induction l as [|y l IH]; simpl; [done|]. intros [Hy Hl].
  destruct (date_le (key x) (key y)) eqn:E; simpl.
  - split; [|done]. constructor; [done|].
    eapply List.Forall_impl; [|exact Hy]. intros z Hz. simpl in Hz.
    by eapply date_le_trans.
  - split; [|by apply IH].
    apply insert_row_Forall; [|done].
    destruct (date_le_total (key x) (key y)); congruence.
Qed.

Lemma sort_values_ordered df label :
  ordered_by (fun r => series_get label (row_series df r))
    (rows (sort_values df label)).
Proof.
  unfold sort_values. simpl. induction (rows df) as [|r l IH]; [done|].
  simpl. by apply insert_row_ordered.
Qed.

Lemma sort_values_rows df label (P : list value -> Prop) :
  Forall P (rows df) -> Forall P (rows (sort_values df label)).
Proof.
  unfold sort_values. simpl. induction 1 as [|r l Hr Hl IH]; [constructor|].
  simpl. by apply insert_row_Forall.
Qed.

Lemma ordered_head_last key l a b :
  ordered_by key l -> head l = Some a -> list.last l = Some b ->
  date_le (key a) (key b) = true.
Proof.
  destruct l as [|x l]; [done|]. simpl. intros [Hx _] [= <-] Hb.
  destruct l as [|y l].
  - injection Hb as <-. apply date_le_refl.
  - assert (b ∈ y :: l) as Hin.
    { change (list.last (x :: y :: l)) with (list.last (y :: l)) in Hb.
      apply last_Some in Hb as [l' ->]. set_solver. }
    exact (Forall_elem_of _ _ _ Hx Hin).
Qed.

(** A row after [set_column ... "_date"]: the new cell is found under
    "_date", and a name that does not match "_date" finds what it found
    before. *)
Lemma dated_row cols r d name :
  length r = length cols -> matches name "_date" = false ->
  let cols' := if existsb (String.eqb "_date") cols then cols else cols ++ ["_date"] in
  let r' := if existsb (String.eqb "_date") cols
            then set_cell cols "_date" d r else r ++ [d] in
  series_get "_date" (zip cols' r') = d /\
  Journey.find_col name (zip cols' r') = Journey.find_col name (zip cols r).
Proof.
  intros Hlen Hm. revert r Hlen.
  induction cols as [|c cols IH]; intros [|x r] Hlen; try done.
  - simpl. split; [done|]. fold (matches name "_date"). by rewrite Hm.
  - simpl in Hlen. injection Hlen as Hlen. specialize (IH r Hlen).
    cbn [existsb]. rewrite (String.eqb_sym "_date" c).
    destruct (String.eqb c "_date") eqn:Ec.
    + apply String.eqb_eq in Ec. subst c. simpl. split; [done|].
      fold (matches name "_date"). by rewrite Hm.
    + cbn [orb]. cbv zeta in IH.
      destruct (existsb (String.eqb "_date") cols) eqn:Ex.
      * cbn [set_cell]. rewrite Ec.
        cbn [zip_with series_get Journey.find_col]. rewrite Ec.
        destruct IH as [-> ->]. done.
      * cbn [app zip_with series_get Journey.find_col]. rewrite Ec.
        destruct IH as [-> ->]. done.
Qed.

Lemma quarterly_section_dates recs (j j' : jdict) :
  rectangular recs ->
  Journey.quarterly_section recs j = Some j' ->
  exists d1 d2,
    j' !! "first_quarterly_date" = Some d1 /\
    j' !! "last_quarterly_date" = Some d2 /\
    date_le d1 d2 = true.
Proof.
  intros Hrect. unfold Journey.quarterly_section.
  set (f := fun r => Journey.parse_date
                       (Journey.get_field (row_series recs r) ["Submission Date"])).
  set (dated := set_column recs "_date" (map f (rows recs))).
  set (key := fun r => series_get "_date" (row_series dated r)).
  assert (Forall (fun r' => Journey.parse_date
                    (Journey.get_field (row_series dated r') ["Submission Date"])
                  = key r') (rows dated)) as Hkey.
  { subst dated key. unfold set_column, row_series. 
    destruct (existsb (String.eqb "_date") (columns recs)) eqn:Ex; simpl;
      rewrite zip_with_fmap_l, zip_with_diag; apply Forall_fmap, Forall_of_elems;
      intros r Hr; simpl;
      pose proof (Forall_elem_of _ _ _ Hrect Hr) as Hlen; simpl in Hlen;
      pose proof (dated_row (columns recs) r (f r) "Submission Date" Hlen eq_refl)
        as Hd; rewrite Ex in Hd; simpl in Hd; destruct Hd as [-> ->]; done. }
  intros E.
  apply option.bind_Some in E as (first_q & Hfirst & E).
  apply option.bind_Some in E as (last_q & Hlast & E).
  injection E as <-. lookup_tac.
  unfold iloc_first in Hfirst. unfold iloc_last in Hlast.
  destruct (head (rows (sort_values dated "_date"))) as [a|] eqn:Ha; [|done].
  destruct (list.last (rows (sort_values dated "_date"))) as [b|] eqn:Hb; [|done].
  simpl in Hfirst, Hlast. injection Hfirst as <-. injection Hlast as <-.
  pose proof (sort_values_rows dated "_date" _ Hkey) as Hsorted.
  assert (a ∈ rows (sort_values dated "_date")) as Hina.
  { destruct (rows (sort_values dated "_date")); [done|].
    injection Ha as ->. set_solver. }
  assert (b ∈ rows (sort_values dated "_date")) as Hinb.
  { apply last_Some in Hb as [l' ->]. set_solver. }
  pose proof (Forall_elem_of _ _ _ Hsorted Hina) as Hfa.
  pose proof (Forall_elem_of _ _ _ Hsorted Hinb) as Hfb.
  simpl in Hfa, Hfb.
  exists (key a), (key b). rewrite <- Hfa at 1. rewrite <- Hfb at 1.
  split; [reflexivity|]. split; [reflexivity|].
  exact (ordered_head_last key _ a b (sort_values_ordered dated "_date") Ha Hb).
Qed.

Lemma length_set_cell cols label v r : length (set_cell cols label v r) = length r.
Proof.
  revert r. induction cols as [|c cols IH]; intros [|x r]; simpl; try done.
  destruct (String.eqb c label); simpl; by rewrite ?IH.
Qed.

Lemma rectangular_set_column df label cells :
  rectangular df -> rectangular (set_column df label cells).
Proof.
  unfold rectangular, set_column. intros Hr.
  destruct (existsb (String.eqb label) (columns df)); simpl.
  - revert cells. induction Hr as [|r l Hl _ IH]; intros [|v cells]; simpl;
      try constructor; [by rewrite length_set_cell | apply IH].
  - revert cells. induction Hr as [|r l Hl _ IH]; intros [|v cells]; simpl;
      try constructor; [|apply IH].
    rewrite !length_app. simpl. lia.
Qed.

Lemma rectangular_add_participant_id df :
  rectangular df -> rectangular (Journey.add_participant_id df).
Proof. apply rectangular_set_column. Qed.

Lemma rectangular_select_pid df pid rec :
  rectangular df -> select_pid df pid = Some rec -> rectangular rec.
Proof.
  unfold rectangular, select_pid. intros Hr.
  destruct (existsb _ (columns df)); [|done]. intros [= <-]. simpl.
  induction Hr as [|r l Hl _ IH]; simpl; [constructor|].
  destruct (cell_eq_int _ pid); [by constructor | done].
Qed.

(** The quarterly assessments of a participant are read in the order of
    their dates: in every journey of a table the builder returns
    [first_quarterly_date] is not later than [last_quarterly_date], and a
    participant with neither an enrollment nor a baseline date has no
    negative [days_in_program]. *)
Theorem quarterly_dates_in_order
    intake baseline quarterly change_of_life empower graduates_df table :
  rectangular quarterly ->
  Journey.build_participant_journeys_from_raw
    intake baseline quarterly change_of_life empower graduates_df = Some table ->
  forall j, j ∈ table ->
    (forall t1 t2,
       j !! "first_quarterly_date" = Some (VTime t1) ->
       j !! "last_quarterly_date" = Some (VTime t2) -> t1 <= t2) /\
    (forall d,
       jget j "enrollment_date" = VNone -> jget j "baseline_date" = VNone ->
       j !! "days_in_program" = Some (VInt d) -> 0 <= d).
Proof.
  intros Hrect Ht j Hj.
  pose proof (from_raw_stages _ _ _ _ _ _ _ Ht) as Hrows.
  pose proof (from_raw_rows _ _ _ _ _ _ _ Ht) as Hsum.
  assert (forall t1 t2,
            j !! "first_quarterly_date" = Some (VTime t1) ->
            j !! "last_quarterly_date" = Some (VTime t2) -> t1 <= t2) as Horder.
  { destruct (Hrows j Hj)
      as (pid & irec & brec & qrec & crec & j1 & j2 & j3 & j4 & j5 & j6 & j7 & j8
          & _ & _ & S3 & _ & Hst & ->).
    destruct Hst as (_ & _ & _ & E4 & _ & _ & _ & _ & _
                     & F1 & F2 & F3 & _ & F5 & F6 & F7 & F8).
    intros t1 t2. lookup_tac.
    rewrite (F8 "first_quarterly_date" eq_refl), (F7 "first_quarterly_date" eq_refl),
      (F6 "first_quarterly_date" eq_refl), (F5 "first_quarterly_date" eq_refl),
      (F8 "last_quarterly_date" eq_refl), (F7 "last_quarterly_date" eq_refl),
      (F6 "last_quarterly_date" eq_refl), (F5 "last_quarterly_date" eq_refl).
    destruct (0 <? len qrec).
    - pose proof (rectangular_select_pid _ _ _
                    (rectangular_add_participant_id _ Hrect) S3) as Hq.
      destruct (quarterly_section_dates _ _ _ Hq E4) as (d1 & d2 & -> & -> & Hle).
      intros [= ->] [= ->]. simpl in Hle. by apply Z.leb_le.
    - injection E4 as <-.
      rewrite (F3 "first_quarterly_date" eq_refl), (F2 "first_quarterly_date" eq_refl),
        (F1 "first_quarterly_date" eq_refl). done. }
  split; [exact Horder|].
  destruct (Hsum j Hj) as (pid & irec & _ & _ & _ & _ & Hd & _).
  intros d He Hb. unfold days_spec in Hd. rewrite Hd, He, Hb. simpl.
  unfold jget in *.
  destruct (j !! "first_quarterly_date") as [[]|] eqn:E1;
    destruct (j !! "last_quarterly_date") as [[]|] eqn:E2; simpl; try done.
  all: intros [= <-]; apply Z.div_pos; [|done]; try lia.
  all: pose proof (Horder _ _ eq_refl eq_refl); lia.
Qed.

End QuarterlyOrder.



(** ** The invariants on the sample table *)

(** The sample table of four participants: two of its journeys are flagged
    graduates, participant 1 by the Empower FPL of 240 percent and
    participant 3 by the roster, and the ROI document counts both. *)
Example sample_graduates_counted :
  let table :=
    @Journey.build_participant_journeys_from_raw typed_cells
      intake_7 baseline_7 quarterly_7 no_rows empower_sample graduates_3 in
  table_column "participant_id" table = Some [VInt 1; VInt 2; VInt 3; VInt 7] /\
  table_column "is_graduate" table
    = Some [VBool true; VBool false; VBool true; VBool false] /\
  roi_figure ["tier2_taxpayer"; "benefits_savings"; "by_tier";
              "graduates_225plus"; "count"] table = Some (PNum 2).
Proof. vm_compute. repeat split; reflexivity. Qed.

Lemma tier2_counts_flagged_graduates_witness :
  exists table,
    @Journey.build_participant_journeys_from_raw typed_cells
      intake_7 baseline_7 quarterly_7 no_rows empower_sample graduates_3
      = Some table /\
    (forall counts,
       Roi.tier_counts table = Some counts ->
       Roi.count_of counts "graduated"
         = inject_Z (Z.of_nat (length (List.filter flagged_graduate table)))) /\
    (forall document,
       Roi.calculate_full_roi table = Some document ->
       at_path ["tier2_taxpayer"; "benefits_savings"; "by_tier";
                "graduates_225plus"; "count"] document
         = Some (PNum (inject_Z (Z.of_nat (length (List.filter flagged_graduate table)))))).
Proof.
  destruct sample_table_returned as [table Ht]. exists table.
  split; [exact Ht|].
  exact (@tier2_counts_flagged_graduates typed_cells
           intake_7 baseline_7 quarterly_7 no_rows empower_sample graduates_3
           table Ht).
Defined.

Lemma journey_tier_is_classified_witness :
  exists table,
    @Journey.build_participant_journeys_from_raw typed_cells
      intake_7 baseline_7 quarterly_7 no_rows empower_sample graduates_3
      = Some table /\
    forall j, j ∈ table ->
      exists pid t,
        j !! "participant_id" = Some (VInt pid) /\
        j !! "cliff_tier" = Some (VStr t) /\
        (pid ∈ @Journey.graduate_roster typed_cells graduates_3 -> t = "graduated") /\
        (pid ∉ @Journey.graduate_roster typed_cells graduates_3 ->
         Journey.classify_cliff_tier (jget j "current_fpl") = Some t).
Proof.
  destruct sample_table_returned as [table Ht]. exists table.
  split; [exact Ht|].
  exact (@journey_tier_is_classified typed_cells
           intake_7 baseline_7 quarterly_7 no_rows empower_sample graduates_3
           table Ht).
Defined.

Lemma journey_flags_match_figures_witness :
  exists table,
    @Journey.build_participant_journeys_from_raw typed_cells
      intake_7 baseline_7 quarterly_7 no_rows empower_sample graduates_3
      = Some table /\
    forall j, j ∈ table ->
      j !! "has_positive_income_change"
        = Some (VBool (positive (jget j "income_change_annual"))) /\
      j !! "has_positive_fpl_change"
        = Some (VBool (positive (jget j "fpl_change"))).
Proof.
  destruct sample_table_returned as [table Ht]. exists table.
  split; [exact Ht|].
  exact (@journey_flags_match_figures typed_cells
           intake_7 baseline_7 quarterly_7 no_rows empower_sample graduates_3
           table Ht).
Defined.

Lemma journey_fpl_change_is_difference_witness :
  exists table,
    @Journey.build_participant_journeys_from_raw typed_cells
      intake_7 baseline_7 quarterly_7 no_rows empower_sample graduates_3
      = Some table /\
    forall j, j ∈ table ->
      j !! "fpl_change" =
      if truthy (jget j "current_fpl") && truthy (jget j "enrollment_fpl")
      then py_sub (jget j "current_fpl") (jget j "enrollment_fpl")
      else None.
Proof.
  destruct sample_table_returned as [table Ht]. exists table.
  split; [exact Ht|].
  exact (@journey_fpl_change_is_difference typed_cells
           intake_7 baseline_7 quarterly_7 no_rows empower_sample graduates_3
           table Ht).
Defined.

Lemma journey_income_change_is_difference_witness :
  exists table,
    @Journey.build_participant_journeys_from_raw typed_cells
      intake_7 baseline_7 quarterly_7 no_rows empower_sample graduates_3
      = Some table /\
    forall j, j ∈ table ->
      (forall e, j !! "enrollment_monthly_income" = Some e ->
         e = py_or (jget j "first_quarterly_monthly_income")
                   (jget j "baseline_monthly_income")) /\
      (forall c, j !! "current_monthly_income" = Some c ->
         c = py_or (jget j "last_quarterly_monthly_income")
                   (jget j "first_quarterly_monthly_income")) /\
      (forall m, j !! "income_change_monthly" = Some m ->
         py_sub (jget j "current_monthly_income")
                (jget j "enrollment_monthly_income") = Some m /\
         py_mul m (VInt 12) = Some (jget j "income_change_annual")).
Proof.
  destruct sample_table_returned as [table Ht]. exists table.
  split; [exact Ht|].
  exact (@journey_income_change_is_difference typed_cells
           intake_7 baseline_7 quarterly_7 no_rows empower_sample graduates_3
           table Ht).
Defined.

Lemma journey_baseline_income_from_wage_witness :
  exists table,
    @Journey.build_participant_journeys_from_raw typed_cells
      intake_7 baseline_7 quarterly_7 no_rows empower_sample graduates_3
      = Some table /\
    forall j, j ∈ table ->
      j !! "baseline_monthly_income" =
      if truthy (jget j "baseline_hourly_wage")
      then w40 ← py_mul (jget j "baseline_hourly_wage") (VInt 40);
           py_mul w40 (VNum 4.33)
      else None.
Proof.
  destruct sample_table_returned as [table Ht]. exists table.
  split; [exact Ht|].
  exact (@journey_baseline_income_from_wage typed_cells
           intake_7 baseline_7 quarterly_7 no_rows empower_sample graduates_3
           table Ht).
Defined.

Lemma journey_assessment_counts_witness :
  exists table,
    @Journey.build_participant_journeys_from_raw typed_cells
      intake_7 baseline_7 quarterly_7 no_rows empower_sample graduates_3
      = Some table /\
    forall j, j ∈ table ->
      exists pid baseline_rec quarterly_recs col_recs,
        j !! "participant_id" = Some (VInt pid) /\
        select_pid (@Journey.add_participant_id typed_cells baseline_7) pid
          = Some baseline_rec /\
        select_pid (@Journey.add_participant_id typed_cells quarterly_7) pid
          = Some quarterly_recs /\
        select_pid (@Journey.add_participant_id typed_cells no_rows) pid
          = Some col_recs /\
        j !! "total_assessments" =
          Some (VInt ((if 0 <? len baseline_rec then 1 else 0)
                      + len quarterly_recs + len col_recs)) /\
        j !! "quarterly_count" =
          (if 0 <? len quarterly_recs then Some (VInt (len quarterly_recs))
           else None).
Proof.
  destruct sample_table_returned as [table Ht]. exists table.
  split; [exact Ht|].
  exact (@journey_assessment_counts typed_cells
           intake_7 baseline_7 quarterly_7 no_rows empower_sample graduates_3
           table Ht).
Defined.

Lemma one_journey_per_participant_witness :
  exists table,
    @Journey.build_participant_journeys_from_raw typed_cells
      intake_7 baseline_7 quarterly_7 no_rows empower_sample graduates_3
      = Some table /\
    NoDup (table_ids table) /\
    table_ids table ≡ₚ
      VInt <$> elements (@all_ids typed_cells intake_7 baseline_7 quarterly_7
                           no_rows empower_sample graduates_3) /\
    forall pid,
      VInt pid ∈ table_ids table <->
      (INT64_MIN <= pid <= INT64_MAX)%Z /\
      (pid ∈ @Journey.frame_ids typed_cells
               (@Journey.add_participant_id typed_cells intake_7) \/
       pid ∈ @Journey.frame_ids typed_cells
               (@Journey.add_participant_id typed_cells baseline_7) \/
       pid ∈ @Journey.frame_ids typed_cells
               (@Journey.add_participant_id typed_cells quarterly_7) \/
       pid ∈ @Journey.frame_ids typed_cells
               (@Journey.add_participant_id typed_cells no_rows) \/
       pid ∈ dropna_int (Journey.emp_participant_id
                           <$> @Journey.process_empower_data typed_cells
                                 empower_sample) \/
       pid ∈ @Journey.graduate_roster typed_cells graduates_3).
Proof.
  destruct sample_table_returned as [table Ht]. exists table.
  split; [exact Ht|].
  exact (proj2 (@one_journey_per_participant typed_cells
                  intake_7 baseline_7 quarterly_7 no_rows empower_sample
                  graduates_3) table Ht).
Defined.

Lemma quarterly_dates_in_order_witness :
  rectangular quarterly_7 /\
  exists table,
    @Journey.build_participant_journeys_from_raw typed_cells
      intake_7 baseline_7 quarterly_7 no_rows empower_sample graduates_3
      = Some table /\
    forall j, j ∈ table ->
      (forall t1 t2,
         j !! "first_quarterly_date" = Some (VTime t1) ->
         j !! "last_quarterly_date" = Some (VTime t2) -> t1 <= t2) /\
      (forall d,
         jget j "enrollment_date" = VNone -> jget j "baseline_date" = VNone ->
         j !! "days_in_program" = Some (VInt d) -> 0 <= d).
Proof.
  assert (rectangular quarterly_7) as Hr by (repeat constructor).
  split; [exact Hr|].
  destruct sample_table_returned as [table Ht]. exists table.
  split; [exact Ht|].
  exact (@quarterly_dates_in_order typed_cells
           intake_7 baseline_7 quarterly_7 no_rows empower_sample graduates_3
           table Hr Ht).
Defined.
